(** * MediMatch: the ETL pipeline of [import_data.py], the endpoints of
      [main.py] and the term service of [llm_service.py], as a shallow
      embedding.

    Text is modelled as [string]: a sequence of 8-bit characters, which is
    what the archive fetcher produces (it decodes every archive as latin1,
    one character per byte).  Tables are lists of rows in insertion order,
    because [drug_side_effects] and [drug_targets] carry no uniqueness and
    duplicates matter.

    Four things the code leaves to its libraries and to the database are
    part of the model: the engine sends the rows of one insert call in
    statements of at most 1000 rows; the driver refuses a bound text
    parameter that holds the NUL character; ILIKE folds letter case as a
    database in a UTF-8 locale does; and the rows of a query without ORDER
    BY come back in an order of the database's choice. *)

From Stdlib Require Import Ascii String NArith.
From stdpp Require Import base decidable list strings gmap sorting.

Local Open Scope string_scope.

(** ** Python string operations used by the pipeline *)

Module PyStr.

(** [str.isspace] on the characters below 256: tab to carriage return,
    the four separators 0x1c-0x1f, space, NEL (0x85) and NBSP (0xa0). *)
Definition isspace (c : ascii) : bool :=
  let n := N_of_ascii c in
  ((9 <=? n) && (n <=? 13) || (28 <=? n) && (n <=? 32)
   || (n =? 133) || (n =? 160))%N.

Definition is_quote (c : ascii) : bool := Ascii.eqb c "'"%char.

(** [s.replace("'", "")]: every single quote is removed. *)
Fixpoint replace_quote (s : string) : string :=
  match s with
  | "" => ""
  | String c r =>
      if is_quote c then replace_quote r else String c (replace_quote r)
  end.

(** Removal of the run of characters that satisfy [p] at the left end, at
    the right end, and at both ends of a string. *)
Fixpoint ltrim (p : ascii → bool) (s : string) : string :=
  match s with
  | "" => ""
  | String c r => if p c then ltrim p r else s
  end.

Fixpoint rtrim (p : ascii → bool) (s : string) : string :=
  match s with
  | "" => ""
  | String c r =>
      match rtrim p r with
      | "" => if p c then "" else String c ""
      | r' => String c r'
      end
  end.

Definition trim (p : ascii → bool) (s : string) : string :=
  rtrim p (ltrim p s).

(** [s.strip()]: the whitespace at both ends goes. *)
Definition strip (s : string) : string := trim isspace s.

(** [os.path.basename(p)] on POSIX: what follows the last slash. *)
Fixpoint basename_from (cur s : string) : string :=
  match s with
  | "" => cur
  | String c r =>
      if Ascii.eqb c "/"%char then basename_from r r else basename_from cur r
  end.

Definition basename (p : string) : string := basename_from p p.

(** [s.startswith(p)] *)
Definition startswith (p s : string) : bool := String.prefix p s.

(** The identifier normalisation written out four times in the pipeline:
    [.astype(str).str.replace("'", "").str.strip()] on a fetched column and
    [str(x).replace("'", "").strip()] on a stored value. *)
Definition normalize (s : string) : string := strip (replace_quote s).

Fixpoint no_quote (s : string) : bool :=
  match s with
  | "" => true
  | String c r => negb (is_quote c) && no_quote r
  end.

Fixpoint no_slash (s : string) : bool :=
  match s with
  | "" => true
  | String c r => negb (Ascii.eqb c "/"%char) && no_slash r
  end.

(** Every character of the string satisfies [p]. *)
Fixpoint all_chars (p : ascii → bool) (s : string) : bool :=
  match s with
  | "" => true
  | String c r => p c && all_chars p r
  end.

(** The string does not start, respectively end, with a character that
    satisfies [p]. *)
Definition head_clean (p : ascii → bool) (s : string) : bool :=
  match s with
  | "" => true
  | String c _ => negb (p c)
  end.

Fixpoint tail_clean (p : ascii → bool) (s : string) : bool :=
  match s with
  | "" => true
  | String c "" => negb (p c)
  | String _ r => tail_clean p r
  end.

(** The form of a normalised identifier: no single quote, no whitespace
    at either end. *)
Definition clean_id (s : string) : bool :=
  no_quote s && head_clean isspace s && tail_clean isspace s.

End PyStr.

(** ** Python outcomes: a value or a raised exception *)

Module Py.

Inductive exn : Set :=
  | ConnectionError   (* requests.get / pd.read_csv(url): host not reachable *)
  | ReadError         (* tarfile.open: the body is not a gzip-compressed tar *)
  | ParserError       (* pd.read_csv: the member cannot be parsed *)
  | IndexError        (* df.columns[i] with i out of range *)
  | AttributeError    (* None.columns, or .str on a DataFrame *)
  | ValueError        (* columns assignment with a wrong number of names *)
  | SQLAlchemyError.  (* a statement refused by the database *)

Inductive result (A : Type) : Type :=
  | Ok (a : A)
  | Raise (e : exn).
Arguments Ok {A} a.
Arguments Raise {A} e.

#[global] Instance exn_eq_dec : EqDecision exn.
Proof. solve_decision. Defined.

End Py.

(** ** The part of pandas the pipeline relies on *)

Module Frame.
Import Py.

(** A DataFrame: column labels and rows of cells.  Cells are kept as text
    (every column the pipeline looks into goes through [astype(str)]). *)
Record DataFrame : Type := mkFrame {
  columns : list string;
  rows : list (list string)
}.

(** [df.columns[i]] *)
Definition column_at (df : DataFrame) (i : nat) : result string :=
  match columns df !! i with
  | Some c => Ok c
  | None => Raise IndexError
  end.

(** [df.columns = df.columns.str.strip()] *)
Definition strip_columns (df : DataFrame) : DataFrame :=
  mkFrame (PyStr.strip <$> columns df) (rows df).

(** The positions that carry the label [name]. Selection by label returns
    every one of them, so a duplicated label selects several columns. *)
Definition positions (name : string) (cols : list string) : list nat :=
  fst <$> filter (λ p, p.2 = name) (imap pair cols).

Definition take_cells (idx : list nat) (r : list string) : list string :=
  (λ i, r !!! i) <$> idx.

(** [df[[n1, ..., nk]]] *)
Definition getitem_cols (names : list string) (df : DataFrame) : DataFrame :=
  let idx := names ≫= (λ n, positions n (columns df)) in
  mkFrame (take_cells idx (columns df)) (take_cells idx <$> rows df).

(** Removal of duplicates with [keep='first']: a row stays when no earlier
    row has the same key; the order of the survivors is kept. *)
Fixpoint drop_dups {A K} `{EqDecision K} (key : A → K) (l : list A) : list A :=
  match l with
  | [] => []
  | x :: l' => x :: filter (λ y, key y ≠ key x) (drop_dups key l')
  end.

(** [df.drop_duplicates(subset=[...])] and [df.drop_duplicates()] *)
Definition drop_duplicates_subset (subset : list string) (df : DataFrame)
  : DataFrame :=
  let idx := subset ≫= (λ n, positions n (columns df)) in
  mkFrame (columns df) (drop_dups (take_cells idx) (rows df)).

Definition drop_duplicates (df : DataFrame) : DataFrame :=
  mkFrame (columns df) (drop_dups id (rows df)).

Definition as_pair (r : list string) : string * string := (r !!! 0, r !!! 1).

(** [df.columns = [a, b]]: pandas raises ValueError (length mismatch)
    unless the frame has exactly two columns. From here on the frame is a
    list of pairs, the two labels being those of the table it goes to. *)
Definition set_columns2 (df : DataFrame) : result (list (string * string)) :=
  if bool_decide (length (columns df) = 2) then Ok (as_pair <$> rows df)
  else Raise ValueError.

(** [df[name]] used as a Series ([.astype(str).str...], [.isin]): on a
    label that is not unique [df[name]] is a DataFrame, which has no [.str],
    and the access raises AttributeError. The result is the position of
    the column. *)
Definition series_index (name : string) (df : DataFrame) : result nat :=
  match positions name (columns df) with
  | [i] => Ok i
  | _ => Raise AttributeError
  end.

(** [df[name] = f(df[name])], cell by cell, for the column at [i]. *)
Definition alter_column (i : nat) (f : string → string) (df : DataFrame)
  : DataFrame :=
  mkFrame (columns df) (alter f i <$> rows df).

(** [df[mask]] *)
Definition filter_rows (P : list string → Prop) `{∀ r, Decision (P r)}
    (df : DataFrame) : DataFrame :=
  mkFrame (columns df) (filter P (rows df)).

(** [DataFrame.to_sql(..., chunksize=c)] hands the rows to the engine in
    batches: none at all for an empty frame, one holding every row when
    [chunksize] is not given, and otherwise [nrows // c + 1] slices [i*c : min((i+1)*c, nrows)],
    stopping at the first empty one. *)
Definition slice {A} (start stop : nat) (l : list A) : list A :=
  take (stop - start) (drop start l).

Definition insert_chunks {A} (chunksize : option nat) (l : list A)
  : list (list A) :=
  let nrows := length l in
  if bool_decide (nrows = 0) then []
  else
    let c := default nrows chunksize in
    let chunks := nrows / c + 1 in
    filter (λ ch, ch ≠ [])
      ((λ i, slice (i * c) (min ((i + 1) * c) nrows) l) <$> seq 0 chunks).

End Frame.

(** ** The relational store *)

Module Store.

Record Drug : Type := mkDrug {
  stitch_id : string;
  common_name : string
}.

Record SideEffect : Type := mkSideEffect {
  se_code : string;
  se_name : string
}.

(** [is_combo] is [None] when the insert does not supply the column and
    the table's default applies (Phase 2), [Some true] in Phase 3. *)
Record DrugSideEffect : Type := mkLink {
  drug_id : string;
  link_se_code : string;
  is_combo : option bool
}.

Record DrugTarget : Type := mkTarget {
  target_drug_id : string;
  protein_id : string
}.

(** [result_data] is the object handed to [json.dumps], key by key. *)
Record UserLog : Type := mkUserLog {
  query_type : string;
  input_text : string;
  result_data : list (string * string)
}.

Record DB : Type := mkDB {
  drugs : list Drug;
  side_effects : list SideEffect;
  drug_side_effects : list DrugSideEffect;
  drug_targets : list DrugTarget;
  user_logs : list UserLog
}.

Definition empty_db : DB := mkDB [] [] [] [] [].

Inductive Table : Set :=
  | T_drugs | T_side_effects | T_drug_side_effects | T_drug_targets.

#[global] Instance Table_eq_dec : EqDecision Table.
Proof. solve_decision. Defined.

(** the row count the emptiness check selects *)
Definition count_rows (t : Table) (d : DB) : nat :=
  match t with
  | T_drugs => length (drugs d)
  | T_side_effects => length (side_effects d)
  | T_drug_side_effects => length (drug_side_effects d)
  | T_drug_targets => length (drug_targets d)
  end.

Definition append_drugs (l : list Drug) (d : DB) : DB :=
  mkDB (drugs d ++ l) (side_effects d) (drug_side_effects d)
       (drug_targets d) (user_logs d).
Definition append_side_effects (l : list SideEffect) (d : DB) : DB :=
  mkDB (drugs d) (side_effects d ++ l) (drug_side_effects d)
       (drug_targets d) (user_logs d).
Definition append_drug_side_effects (l : list DrugSideEffect) (d : DB) : DB :=
  mkDB (drugs d) (side_effects d) (drug_side_effects d ++ l)
       (drug_targets d) (user_logs d).
Definition append_drug_targets (l : list DrugTarget) (d : DB) : DB :=
  mkDB (drugs d) (side_effects d) (drug_side_effects d)
       (drug_targets d ++ l) (user_logs d).
Definition append_user_logs (l : list UserLog) (d : DB) : DB :=
  mkDB (drugs d) (side_effects d) (drug_side_effects d)
       (drug_targets d) (user_logs d ++ l).

(** One executed INSERT: its table and the number of rows it carries. *)
Record Statement : Type := mkStatement {
  into : Table;
  nrows : nat
}.

End Store.

(** ** The pipeline's effects: store, statement journal, console *)

Module Etl.
Import Py Frame Store.

(** What the pipeline prints, one constructor per [print] of the source. *)
Inductive Msg : Type :=
  | Downloading (url : string)
  | NoValidDataFile
  | Extracting (member : string)
  | Phase1Skipped
  | Phase1Header
  | Phase1Unique (n : nat)
  | Phase1Successful
  | Phase2Skipped
  | Phase2Header
  | Phase2Catalog (n : nat)
  | Phase2Matched (n : nat)
  | Phase2Completed
  | Phase2Error (e : exn)
  | Phase3Header
  | Phase3Identified (n : nat)
  | Phase3Updated (n : nat)
  | Phase3Completed
  | Phase4Header
  | Phase4Imported (n : nat).

Record Env : Type := mkEnv {
  db : DB;
  journal : list Statement;   (* the INSERTs executed so far, oldest first *)
  out : list Msg              (* the lines printed so far, oldest first *)
}.

Definition start (d : DB) : Env := mkEnv d [] [].

(** A computation reads and updates the environment and either returns or
    raises; what was written before a raise stays written. *)
Definition M (A : Type) : Type := Env → result A * Env.

Definition ret {A} (a : A) : M A := λ env, (Ok a, env).

Definition bind {A B} (m : M A) (k : A → M B) : M B :=
  λ env,
    match m env with
    | (Ok a, env') => k a env'
    | (Raise e, env') => (Raise e, env')
    end.

Definition raise {A} (e : exn) : M A := λ env, (Raise e, env).

Definition lift {A} (r : result A) : M A :=
  match r with
  | Ok a => ret a
  | Raise e => raise e
  end.

(** [try: body except Exception as e: handler(e)] *)
Definition try_except (body : M unit) (handler : exn → M unit) : M unit :=
  λ env,
    match body env with
    | (Ok tt, env') => (Ok tt, env')
    | (Raise e, env') => handler e env'
    end.

Definition after_print (m : Msg) (env : Env) : Env :=
  mkEnv (db env) (journal env) (out env ++ [m]).

Definition print (m : Msg) : M unit := λ env, (Ok tt, after_print m env).

Definition get_db : M DB := λ env, (Ok (db env), env).

Definition statement_of {R} (t : Table) (chunk : list R) : Statement :=
  mkStatement t (length chunk).

Definition exec_insert {R} (t : Table) (append : list R → DB → DB)
    (env : Env) (chunk : list R) : Env :=
  mkEnv (append chunk (db env))
        (journal env ++ [statement_of t chunk])
        (out env).

(** A table appender adds rows at the end, batch after batch. *)
Class Appends {R} (append : list R → DB → DB) : Prop := {
  append_nil d : append [] d = d;
  append_app a b d : append (a ++ b)%list d = append b (append a d)
}.

(** The engine of [create_engine(DB_URL)], made without options, sends
    the rows handed to one execute call as INSERT statements of at most
    [page_size] rows each: consecutive runs of that many rows, the last one
    shorter. *)
Definition page_size : nat := 1000.

Definition pages {R} (batch : list R) : list (list R) :=
  insert_chunks (Some page_size) batch.

(** The INSERT statements that reach the database for a frame: pandas
    hands the frame to the engine batch by batch, the engine sends each
    batch page by page. *)
Definition inserts {R} (chunksize : option nat) (frame : list R)
  : list (list R) :=
  insert_chunks chunksize frame ≫= pages.

(** [frame.to_sql(table, engine, if_exists='append', index=False,
    chunksize=...)]; a chunksize of zero is refused with ValueError. *)
Definition to_sql {R} (t : Table) (append : list R → DB → DB)
    (chunksize : option nat) (frame : list R) : M unit :=
  λ env,
    if bool_decide (chunksize = Some 0) then (Raise ValueError, env)
    else (Ok tt,
          foldl (exec_insert t append) env (inserts chunksize frame)).

#[global] Instance M_ret : MRet M := @ret.
#[global] Instance M_bind : MBind M := λ A B k m, bind m k.

End Etl.

(** ** import_data.py *)

Module ImportData.
Import PyStr Py Frame Store Etl.

(** A member of a tar archive: its path, whether [isfile()] holds, and
    what [pd.read_csv(..., sep=',', encoding='latin1')] makes of it. *)
Record TarInfo : Type := mkTarInfo {
  name : string;
  isfile : bool;
  read_csv : result DataFrame
}.

(** What a GET on an archive URL leads to. *)
Inductive Remote : Type :=
  | Unreachable                        (* requests.get raises *)
  | NotAnArchive                       (* tarfile.open raises *)
  | Archive (members : list TarInfo).  (* tar.getmembers() *)

(** The network as the pipeline sees it. *)
Record World : Type := mkWorld {
  (* pd.read_csv(url, sep='\t', names=['stitch_id', 'common_name']) *)
  read_names : string → result (list (string * string));
  (* requests.get(url), opened as a gzip-compressed tar *)
  get : string → Remote
}.

Definition is_table_empty (t : Table) : M bool :=
  d ← get_db; ret (bool_decide (count_rows t d = 0)).

Definition valid_member (m : TarInfo) : bool :=
  isfile m && negb (startswith "._" (basename (name m))).

Definition download_and_extract_gz (w : World) (url : string)
  : M (option DataFrame) :=
  print (Downloading url) ;;
  match get w url with
  | Unreachable => raise ConnectionError
  | NotAnArchive => raise ReadError
  | Archive tar =>
      let members := filter (λ m, valid_member m = true) tar in
      match members with
      | [] => print NoValidDataFile ;; ret None
      | target_file :: _ =>
          print (Extracting (name target_file)) ;;
          df ← lift (read_csv target_file);
          ret (Some (strip_columns df))
      end
  end.

(** [df.columns] on the fetcher's result: AttributeError on [None]. *)
Definition frame_of (df : option DataFrame) : result DataFrame :=
  match df with
  | Some d => Ok d
  | None => Raise AttributeError
  end.

Definition names_url : string :=
  "https://www.pingzhang.net/bak/ddi/drug_569.txt".
Definition mono_url : string :=
  "http://snap.stanford.edu/decagon/bio-decagon-mono.tar.gz".
Definition combo_url : string :=
  "http://snap.stanford.edu/decagon/bio-decagon-combo.tar.gz".
Definition targets_url : string :=
  "http://snap.stanford.edu/decagon/bio-decagon-targets.tar.gz".

Definition drug_of (r : string * string) : Drug := mkDrug r.1 r.2.
Definition side_effect_of (r : string * string) : SideEffect :=
  mkSideEffect r.1 r.2.
Definition link_of (combo : option bool) (r : string * string)
  : DrugSideEffect := mkLink r.1 r.2 combo.
Definition target_of (r : string * string) : DrugTarget := mkTarget r.1 r.2.

Definition normalize_id (r : string * string) : string * string :=
  (normalize r.1, r.2).

Definition import_phase_1_names (w : World) : M unit :=
  empty ← is_table_empty T_drugs;
  if negb empty then print Phase1Skipped
  else
    print Phase1Header ;;
    df_names ← lift (read_names w names_url);
    let df_names := drop_dups fst df_names in
    print (Phase1Unique (length df_names)) ;;
    to_sql T_drugs append_drugs None (drug_of <$> df_names) ;;
    print Phase1Successful.

(** The [try] block of Phase 2. *)
Definition phase_2_body (df_mono : option DataFrame) : M unit :=
  df ← lift (frame_of df_mono);
  col_stitch ← lift (column_at df 0);
  col_se_id ← lift (column_at df 1);
  col_se_name ← lift (column_at df 2);
  se_catalog ← lift (set_columns2
    (drop_duplicates_subset [col_se_id]
       (getitem_cols [col_se_id; col_se_name] df)));
  to_sql T_side_effects append_side_effects None
         (side_effect_of <$> se_catalog) ;;
  print (Phase2Catalog (length se_catalog)) ;;
  drug_se ← lift (set_columns2 (getitem_cols [col_stitch; col_se_id] df));
  let drug_se := normalize_id <$> drug_se in
  d ← get_db;
  let existing_ids := (λ x, normalize (stitch_id x)) <$> drugs d in
  let drug_se_filtered := filter (λ r, r.1 ∈ existing_ids) drug_se in
  if bool_decide (0 < length drug_se_filtered) then
    print (Phase2Matched (length drug_se_filtered)) ;;
    to_sql T_drug_side_effects append_drug_side_effects (Some 1000)
           (link_of None <$> drug_se_filtered) ;;
    print Phase2Completed
  else ret tt.

Definition import_phase_2_mono (w : World) : M unit :=
  empty ← is_table_empty T_side_effects;
  if negb empty then print Phase2Skipped
  else
    print Phase2Header ;;
    df_mono ← download_and_extract_gz w mono_url;
    try_except (phase_2_body df_mono) (λ e, print (Phase2Error e)).

(** The stored identifiers, normalised, as the set Phases 3 and 4 build. *)
Definition existing_drugs_of (d : DB) : gset string :=
  list_to_set ((λ x, normalize (stitch_id x)) <$> drugs d).

Definition import_phase_3_combo (w : World) : M unit :=
  print Phase3Header ;;
  df_combo ← download_and_extract_gz w combo_url;
  df_combo ← lift (frame_of df_combo);
  col_d1 ← lift (column_at df_combo 0);
  col_d2 ← lift (column_at df_combo 1);
  col_se_id ← lift (column_at df_combo 2);
  col_se_name ← lift (column_at df_combo 3);
  d ← get_db;
  let existing_drugs := existing_drugs_of d in
  let existing_se : gset string := list_to_set (se_code <$> side_effects d) in
  i1 ← lift (series_index col_d1 df_combo);
  let df_combo := alter_column i1 normalize df_combo in
  i2 ← lift (series_index col_d2 df_combo);
  let df_combo := alter_column i2 normalize df_combo in
  let df_filtered :=
    filter_rows (λ r, r !!! i1 ∈ existing_drugs ∧ r !!! i2 ∈ existing_drugs)
                df_combo in
  print (Phase3Identified (length (rows df_filtered))) ;;
  new_se ← lift (set_columns2
    (drop_duplicates_subset [col_se_id]
       (getitem_cols [col_se_id; col_se_name] df_filtered)));
  let new_se_to_add := filter (λ r, r.1 ∉ existing_se) new_se in
  (if bool_decide (new_se_to_add ≠ []) then
     to_sql T_side_effects append_side_effects None
            (side_effect_of <$> new_se_to_add) ;;
     print (Phase3Updated (length new_se_to_add))
   else ret tt) ;;
  (* rename(columns={...}) leaves the shape alone; both selections have two
     columns here, col_d1, col_d2 and col_se_id being unique labels by now *)
  let combo_rows := drop_dups id
    ((as_pair <$> rows (getitem_cols [col_d1; col_se_id] df_filtered)) ++
     (as_pair <$> rows (getitem_cols [col_d2; col_se_id] df_filtered))) in
  to_sql T_drug_side_effects append_drug_side_effects (Some 1000)
         (link_of (Some true) <$> combo_rows) ;;
  print Phase3Completed.

Definition import_phase_4_targets (w : World) : M unit :=
  print Phase4Header ;;
  df_targets ← download_and_extract_gz w targets_url;
  df_targets ← lift (frame_of df_targets);
  col_drug ← lift (column_at df_targets 0);
  col_target ← lift (column_at df_targets 1);
  d ← get_db;
  let existing_drugs := existing_drugs_of d in
  i ← lift (series_index col_drug df_targets);
  let df_targets := alter_column i normalize df_targets in
  let df_filtered :=
    drop_duplicates (filter_rows (λ r, r !!! i ∈ existing_drugs) df_targets) in
  df_filtered ← lift (set_columns2 df_filtered);
  to_sql T_drug_targets append_drug_targets None (target_of <$> df_filtered) ;;
  print (Phase4Imported (length df_filtered)).

(** The [__main__] block. *)
Definition main (w : World) : M unit :=
  import_phase_1_names w ;;
  import_phase_2_mono w ;;
  import_phase_3_combo w ;;
  import_phase_4_targets w.

End ImportData.

(** ** Referential integrity of the link tables, as relations between the
    environment before and after a phase *)

Module Integrity.
Import PyStr Py Frame Store Etl ImportData.

(** The identifier is a [stitch_id] of the [drugs] table, as stored. *)
Definition stored_in (d : DB) (id : string) : Prop :=
  id ∈ stitch_id <$> drugs d.

(** The identifier is the normalised form of a stored [stitch_id]. *)
Definition known_to (d : DB) (id : string) : Prop :=
  ∃ x, x ∈ drugs d ∧ id = normalize (stitch_id x).

(** Between [env] and [env'] the [drugs] table did not change, rows were
    only appended to the two link tables, and the drug identifier of every
    appended row satisfies [ok] on the [drugs] table. *)
Definition links_satisfy (ok : DB → string → Prop) (env env' : Env) : Prop :=
  drugs (db env') = drugs (db env) ∧
  (∃ new, drug_side_effects (db env')
            = (drug_side_effects (db env) ++ new)%list ∧
          ∀ l, l ∈ new → ok (db env) (drug_id l)) ∧
  (∃ new, drug_targets (db env') = (drug_targets (db env) ++ new)%list ∧
          ∀ l, l ∈ new → ok (db env) (target_drug_id l)).

(** The rows the statements into table [t] carry. *)
Definition rows_into (t : Table) (stmts : list Statement) : nat :=
  sum_list_with nrows (filter (λ st, into st = t) stmts).

(** Between [env] and [env'] statements were only added to the journal,
    every added statement carries at least one and at most [bound] rows,
    and each table has grown by the rows of the statements into it. *)
Definition inserts_bounded (bound : nat) (env env' : Env) : Prop :=
  ∃ new, journal env' = (journal env ++ new)%list ∧
         (∀ st, st ∈ new → (1 ≤ nrows st ≤ bound)%nat) ∧
         (∀ t, count_rows t (db env')
               = (count_rows t (db env) + rows_into t new)%nat).

End Integrity.

(** ** Phase 3 as the specification words it, on typed rows *)

Module ComboSpec.
Import PyStr Py Frame Store Etl ImportData.

(** A row of the combination feed: drug A, drug B, side-effect code,
    side-effect name. *)
Definition combo_row : Type := string * string * string * string.

Definition drug_a (t : combo_row) : string := t.1.1.1.
Definition drug_b (t : combo_row) : string := t.1.1.2.
Definition code_of (t : combo_row) : string := t.1.2.
Definition name_of (t : combo_row) : string := t.2.

(** The row as the cells of a four-column frame. *)
Definition row4 (t : combo_row) : list string :=
  [drug_a t; drug_b t; code_of t; name_of t].

(** "Normalize drug-A and drug-B identifiers" *)
Definition normalize_drugs (t : combo_row) : combo_row :=
  (normalize (drug_a t), normalize (drug_b t), code_of t, name_of t).

(** "keep only rows where BOTH drug identifiers are already known" *)
Definition combo_surviving (d : DB) (feed : list combo_row) : list combo_row :=
  filter (λ t, drug_a t ∈ existing_drugs_of d ∧ drug_b t ∈ existing_drugs_of d)
         (normalize_drugs <$> feed).

(** "Extend SideEffect with codes present in this filtered set but absent
    from the existing catalog" *)
Definition combo_new_codes (d : DB) (surviving : list combo_row)
  : list SideEffect :=
  side_effect_of <$>
    filter (λ r, r.1 ∉ se_code <$> side_effects d)
           (drop_dups fst ((λ t, (code_of t, name_of t)) <$> surviving)).

(** "Produce link rows for drug-A and drug-B independently against the
    shared side-effect code, union them, de-duplicate exact-duplicate
    (drug, code) pairs, mark every row as combination-provenance" *)
Definition combo_links (surviving : list combo_row) : list DrugSideEffect :=
  link_of (Some true) <$>
    drop_dups id (((λ t, (drug_a t, code_of t)) <$> surviving) ++
                  ((λ t, (drug_b t, code_of t)) <$> surviving))%list.

End ComboSpec.

(** ** The SQL text operations used by main.py *)

Module Sql.
Import PyStr Py.

(** [TRIM(BOTH quote FROM s)]: the runs of single quotes at both ends go,
    quotes inside stay. *)
Definition trim_both_quote (s : string) : string := trim is_quote s.

(** A LIKE pattern: the percent sign stands for any run of characters, the
    underscore for any one character, and a backslash makes the next
    character literal; a pattern that ends in a lone backslash is refused
    by the database. *)
Inductive tok : Set :=
  | Lit (c : ascii)
  | AnyOne
  | AnyMany.

Fixpoint like_tokens (p : string) : option (list tok) :=
  match p with
  | "" => Some []
  | String c r =>
      if Ascii.eqb c "\"%char then
        match r with
        | "" => None
        | String c' r' => cons (Lit c') <$> like_tokens r'
        end
      else if Ascii.eqb c "%"%char then cons AnyMany <$> like_tokens r
      else if Ascii.eqb c "_"%char then cons AnyOne <$> like_tokens r
      else cons (Lit c) <$> like_tokens r
  end.

(** Case folding as ILIKE does it in a database with a UTF-8 locale, on the
    characters below 256: the letters A-Z and the accented capitals from
    0xC0 to 0xDE, the multiplication sign 0xD7 apart, go to the letter 32
    places up. *)
Definition lower (c : ascii) : ascii :=
  let n := N_of_ascii c in
  if ((65 <=? n) && (n <=? 90)
      || (192 <=? n) && (n <=? 222) && negb (n =? 215))%N
  then ascii_of_N (n + 32) else c.

Fixpoint like_match (p : list tok) (s : string) : bool :=
  match p with
  | [] => match s with "" => true | _ => false end
  | Lit c :: p' =>
      match s with
      | "" => false
      | String x s' => Ascii.eqb (lower c) (lower x) && like_match p' s'
      end
  | AnyOne :: p' =>
      match s with
      | "" => false
      | String _ s' => like_match p' s'
      end
  | AnyMany :: p' =>
      (fix any (s : string) : bool :=
         like_match p' s ||
         match s with
         | "" => false
         | String _ s' => any s'
         end) s
  end.

(** [s ILIKE pattern] *)
Definition ilike (s pattern : string) : result bool :=
  match like_tokens pattern with
  | Some p => Ok (like_match p s)
  | None => Raise SQLAlchemyError
  end.

(** [t] starts with [s], and [s] occurs in [t], letter case ignored. *)
Fixpoint prefix_nocase (s t : string) : bool :=
  match s, t with
  | "", _ => true
  | String _ _, "" => false
  | String a s', String b t' =>
      Ascii.eqb (lower a) (lower b) && prefix_nocase s' t'
  end.

Fixpoint contains_nocase (t s : string) : bool :=
  prefix_nocase s t ||
  match t with
  | "" => false
  | String _ t' => contains_nocase t' s
  end.

(** The pattern that matches the characters of [s] one by one. *)
Fixpoint lits (s : string) : list tok :=
  match s with
  | "" => []
  | String c r => Lit c :: lits r
  end.

(** The string holds the NUL character. The database driver refuses a
    bound text parameter that does: [db.execute] raises ValueError before
    the statement is sent. *)
Fixpoint has_nul (s : string) : bool :=
  match s with
  | "" => false
  | String c r => Ascii.eqb c "000"%char || has_nul r
  end.

(** The order in which the database returns the rows of a query without
    ORDER BY is its own choice: some arrangement of the rows. *)
Record Plan : Type := mkPlan {
  arrange : ∀ A : Type, list A → list A;
  arrange_perm : ∀ (A : Type) (l : list A), arrange A l ≡ₚ l
}.
Arguments arrange _ {A} _.

(** Two plans: the rows as the tables hold them, and in reverse. *)
Definition table_order : Plan :=
  mkPlan (λ _ l, l) (λ _ l, reflexivity l).

Definition reverse_order : Plan :=
  mkPlan (λ _ l, reverse l) (λ _ l, reverse_Permutation l).

(** No character of [s] is special in a LIKE pattern. *)
Fixpoint plain (s : string) : bool :=
  match s with
  | "" => true
  | String c r =>
      negb (Ascii.eqb c "\"%char) && negb (Ascii.eqb c "%"%char)
      && negb (Ascii.eqb c "_"%char) && plain r
  end.

End Sql.

(** ** main.py: the report endpoint *)

Module Api.
Import PyStr Py Store Sql.

Record SideEffectReport : Type := mkReport {
  drug_name : string;
  symptom : string
}.

Inductive Response : Type :=
  | Success (status message : string)
  | HTTPException (status_code : nat) (detail : string).

(** What the database does with the INSERT of this request. *)
Inductive Fault : Set :=
  | NoFault
  | ExecuteRaises    (* db.execute raises *)
  | CommitRaises.    (* db.commit raises *)

(** A session: the committed store and the rows written in the open
    transaction. *)
Record Session : Type := mkSession {
  store : DB;
  pending : list UserLog
}.

Definition open_session (d : DB) : Session := mkSession d [].

Definition execute_insert (f : Fault) (row : UserLog) (s : Session)
  : result Session :=
  match f with
  | ExecuteRaises => Raise SQLAlchemyError
  | _ => Ok (mkSession (store s) (pending s ++ [row]))
  end.

Definition commit (f : Fault) (s : Session) : result Session :=
  match f with
  | CommitRaises => Raise SQLAlchemyError
  | _ => Ok (mkSession (append_user_logs (pending s) (store s)) [])
  end.

Definition rollback (s : Session) : Session := mkSession (store s) [].

(** [db.close()] in [get_db]: what was not committed is dropped. *)
Definition close (s : Session) : DB := store (rollback s).

(** The WHERE clause of the report query on one row: the stored name,
    quotes trimmed at both ends, against the pattern. *)
Definition report_matches (p : list tok) (d : Drug) : bool :=
  like_match p (trim_both_quote (common_name d)).

(** [db.execute(query, {"name": pattern}).fetchone()]: a row that
    satisfies the WHERE clause, [None] when there is none; the endpoint
    only tests whether there is one. *)
Definition select_drug (pattern : string) (d : DB) : result (option Drug) :=
  if has_nul pattern then Raise ValueError
  else
    match like_tokens pattern with
    | None => Raise SQLAlchemyError
    | Some p => Ok (head (filter (λ x, report_matches p x = true) (drugs d)))
    end.

Definition report_row (report : SideEffectReport) : UserLog :=
  mkUserLog "SIDE_EFFECT_REPORT" (drug_name report)
    [("drug_name", drug_name report); ("reported_symptom", symptom report)].

Definition report_side_effect (f : Fault) (report : SideEffectReport)
    (d : DB) : Response * DB :=
  let s := open_session d in
  match select_drug ("%" ++ drug_name report ++ "%") d with
  | Raise _ =>
      (* not inside the try: the framework answers 500 *)
      (HTTPException 500 "Internal Server Error", close s)
  | Ok None =>
      (HTTPException 404
         ("Medication '" ++ drug_name report ++ "' not found."), close s)
  | Ok (Some drug) =>
      match execute_insert f (report_row report) s with
      | Raise _ =>
          (HTTPException 500 "Internal database error.", close (rollback s))
      | Ok s1 =>
          match commit f s1 with
          | Raise _ =>
              (HTTPException 500 "Internal database error.",
               close (rollback s1))
          | Ok s2 =>
              (Success "success" "Report saved successfully.", close s2)
          end
      end
  end.

(** The WHERE clause of [get_drug_effects] on one row: the stored name is
    compared as it is, against the stripped request wrapped in percent
    signs. *)
Definition drug_effects_matches (name : string) (d : Drug) : result bool :=
  ilike (common_name d) ("%" ++ strip name ++ "%").

End Api.

(** ** Phases 2 and 4 on typed rows, and what the pipeline keeps *)

Module PipelineSpec.
Import PyStr Py Frame Store Etl ImportData Integrity.

(** The catalog and the link rows Phase 2 builds from the rows of a frame:
    code and name of each row, the first row of each code kept; drug
    identifier, normalised, and code of each row whose drug is known, in
    feed order and with repeats. *)
Definition mono_catalog (rs : list (list string)) : list SideEffect :=
  side_effect_of <$> drop_dups fst ((λ r, (r !!! 1, r !!! 2)) <$> rs).

Definition mono_links (d : DB) (rs : list (list string))
  : list DrugSideEffect :=
  link_of None <$>
    filter (λ p, p.1 ∈ (λ x, normalize (stitch_id x)) <$> drugs d)
           (normalize_id <$> ((λ r, (r !!! 0, r !!! 1)) <$> rs)).

(** A row of the targets feed as the cells of a two-column frame, and the
    rows Phase 4 writes: identifier normalised, unknown drugs dropped,
    repeated rows written once. *)
Definition row2 (p : string * string) : list string := [p.1; p.2].

Definition target_rows (d : DB) (feed : list (string * string))
  : list DrugTarget :=
  target_of <$>
    drop_dups id (filter (λ p, p.1 ∈ existing_drugs_of d) (normalize_id <$> feed)).

(** Every table of [d] is the beginning of the same table of [d']. *)
Definition tables_grow (d d' : DB) : Prop :=
  drugs d `prefix_of` drugs d' ∧
  side_effects d `prefix_of` side_effects d' ∧
  drug_side_effects d `prefix_of` drug_side_effects d' ∧
  drug_targets d `prefix_of` drug_targets d' ∧
  user_logs d' = user_logs d.

(** The keys of the two catalog tables are free of repeats. *)
Definition keys_unique (d : DB) : Prop :=
  NoDup (stitch_id <$> drugs d) ∧ NoDup (se_code <$> side_effects d).

(** Between [env] and [env'] the tables only grew at their end, and keys
    that were free of repeats still are. *)
Definition kept (env env' : Env) : Prop :=
  tables_grow (db env) (db env') ∧
  (keys_unique (db env) → keys_unique (db env')).

(** Every row of the two link tables carries the normalised form of an
    identifier stored in [drugs]. *)
Definition links_known (d : DB) : Prop :=
  (∀ l, l ∈ drug_side_effects d → known_to d (drug_id l)) ∧
  (∀ t, t ∈ drug_targets d → known_to d (target_drug_id t)).

End PipelineSpec.

(** ** llm_service.py *)

Module LlmService.
Import PyStr Py.

(** [s.split(",")]: the pieces between the commas, one more than there are
    commas; the empty string gives one empty piece. *)
Fixpoint split_comma (s : string) : list string :=
  match s with
  | "" => [""]
  | String c r =>
      if Ascii.eqb c ","%char then "" :: split_comma r
      else
        match split_comma r with
        | [] => [String c ""]
        | piece :: pieces => String c piece :: pieces
        end
  end.

(** [",".join(pieces)] *)
Fixpoint join_comma (pieces : list string) : string :=
  match pieces with
  | [] => ""
  | [piece] => piece
  | piece :: rest => piece +:+ String "," (join_comma rest)
  end.

Fixpoint count_commas (s : string) : nat :=
  match s with
  | "" => 0
  | String c r => (if Ascii.eqb c ","%char then 1 else 0) + count_commas r
  end.

Definition no_comma (s : string) : bool :=
  all_chars (λ c, negb (Ascii.eqb c ","%char)) s.

(** What the language model service does with a request. The reply is
    text of the characters below 256, as all text here. *)
Inductive Llm : Type :=
  | MissingKey               (* get_openai_client raises ValueError *)
  | CallRaises               (* client.chat.completions.create raises *)
  | NoContent                (* message.content is None *)
  | Content (raw : string).  (* message.content *)

(** The terms returned, and whether the error line was printed. *)
Definition translate_symptoms_to_medical_terms (llm : string → Llm)
    (user_input : string) : list string * bool :=
  match llm user_input with
  | Content raw_content =>
      let terms := split_comma raw_content in
      (strip <$> terms, false)
  | MissingKey | CallRaises | NoContent => ([], true)
  end.

End LlmService.

(** ** main.py: the lookup endpoints *)

Module Lookup.
Import PyStr Py Frame Store Sql Api LlmService.

Inductive Reply (A : Type) : Type :=
  | Body (a : A)
  | Failed (status_code : nat) (detail : string).
Arguments Body {A} a.
Arguments Failed {A} status_code detail.

(** [db.execute] of a SELECT with its bound text parameters: the driver
    raises on a parameter that holds NUL, the database may raise on the
    statement. *)
Definition execute_select {A} (f : Fault) (params : list string) (rows : A)
  : result A :=
  if existsb has_nul params then Raise ValueError
  else
    match f with
    | ExecuteRaises => Raise SQLAlchemyError
    | _ => Ok rows
    end.

(** The joins of the three lookups, enumerated in the order of their FROM
    clauses; the order in which their rows come back is the plan's. *)

(** [FROM drug_side_effects dse JOIN drugs d ON dse.drug_id = d.stitch_id
    JOIN side_effects se ON dse.se_code = se.se_code] *)
Definition symptom_join (d : DB) : list (DrugSideEffect * Drug * SideEffect) :=
  dse ← drug_side_effects d;
  x ← filter (λ x, drug_id dse = stitch_id x) (drugs d);
  se ← filter (λ se, link_se_code dse = se_code se) (side_effects d);
  [(dse, x, se)].

(** [FROM side_effects se JOIN drug_side_effects dse ON se.se_code =
    dse.se_code JOIN drugs d ON dse.drug_id = d.stitch_id] *)
Definition effects_join (d : DB) : list (SideEffect * DrugSideEffect * Drug) :=
  se ← side_effects d;
  dse ← filter (λ dse, se_code se = link_se_code dse) (drug_side_effects d);
  x ← filter (λ x, drug_id dse = stitch_id x) (drugs d);
  [(se, dse, x)].

(** [FROM drug_targets dt JOIN drugs d ON dt.drug_id = d.stitch_id
    JOIN drug_side_effects dse ON d.stitch_id = dse.drug_id
    JOIN side_effects se ON dse.se_code = se.se_code] *)
Definition target_join (d : DB)
  : list (DrugTarget * Drug * DrugSideEffect * SideEffect) :=
  dt ← drug_targets d;
  x ← filter (λ x, target_drug_id dt = stitch_id x) (drugs d);
  dse ← filter (λ dse, stitch_id x = drug_id dse) (drug_side_effects d);
  se ← filter (λ se, link_se_code dse = se_code se) (side_effects d);
  [(dt, x, dse, se)].

(** [SELECT DISTINCT ...]: each row once, in the order of the plan. *)
Definition distinct {A} `{EqDecision A} (plan : Plan) (l : list A) : list A :=
  arrange plan (drop_dups id l).

(** [SELECT DISTINCT ... LIMIT n]: the first [n] of them. *)
Definition distinct_limit {A} `{EqDecision A} (plan : Plan) (n : nat)
    (l : list A) : list A :=
  take n (distinct plan l).

(** health_check *)
Definition health_check (f : Fault) (error_text : string) (d : DB)
  : Reply nat :=
  match execute_select f [] (length (drugs d)) with
  | Ok count => Body count
  | Raise _ => Failed 500 error_text   (* detail=str(e) *)
  end.

(** analyze_symptoms *)
Definition search_row (now query : string) : UserLog :=
  mkUserLog "SEARCH_ACCESS" query
    [("search_query", query); ("timestamp", now)].

(** The INSERT of the search log; of its bound parameters the query is the
    one that can hold NUL, [json.dumps] writing it as an escape. *)
Definition log_search (f : Fault) (now query : string) (s : Session)
  : result Session :=
  if has_nul query then Raise ValueError
  else execute_insert f (search_row now query) s.

(** The query run for one term. *)
Definition term_rows (plan : Plan) (term : string) (d : DB)
  : result (list (string * string)) :=
  if has_nul ("%" ++ term ++ "%") then Raise ValueError
  else
    match like_tokens ("%" ++ term ++ "%") with
    | None => Raise SQLAlchemyError
    | Some p =>
        Ok (distinct_limit plan 5
              ((λ r, (trim_both_quote (common_name r.1.2), se_name r.2)) <$>
                 filter (λ r, like_match p (se_name r.2) = true)
                        (symptom_join d)))
    end.

(** The loop over the terms: the rows of each term in turn, until a query
    raises. *)
Fixpoint search_terms (plan : Plan) (terms : list string) (d : DB)
  : result (list (string * string)) :=
  match terms with
  | [] => Ok []
  | term :: rest =>
      match term_rows plan term d with
      | Raise e => Raise e
      | Ok rows =>
          match search_terms plan rest d with
          | Raise e => Raise e
          | Ok more => Ok (rows ++ more)%list
          end
      end
  end.

Record Analysis : Type := mkAnalysis {
  user_query : string;
  semantic_matches : list string;
  possible_drugs : list (string * string)   (* drug, side_effect *)
}.

Definition analyze_symptoms (f : Fault) (plan : Plan) (llm : string → Llm)
    (now : string) (query : string) (d : DB) : Reply Analysis * DB :=
  let s := open_session d in
  match log_search f now query s with
  | Raise _ => (Failed 500 "Internal Server Error", close s)
  | Ok s1 =>
      match commit f s1 with
      | Raise _ => (Failed 500 "Internal Server Error", close s1)
      | Ok s2 =>
          let medical_terms :=
            (translate_symptoms_to_medical_terms llm query).1 in
          match search_terms plan medical_terms (store s2) with
          | Raise _ => (Failed 500 "Internal Server Error", close s2)
          | Ok search_results =>
              (Body (mkAnalysis query medical_terms search_results), close s2)
          end
      end
  end.

(** get_drug_effects *)
Definition get_drug_effects (f : Fault) (plan : Plan) (name : string) (d : DB)
  : Reply (list string) :=
  let pattern := "%" ++ strip name ++ "%" in
  match like_tokens pattern with
  | None => Failed 500 "Internal Server Error"
  | Some p =>
      match execute_select f [pattern]
              (distinct_limit plan 15
                 ((λ r, se_name r.1.1) <$>
                    filter (λ r, like_match p (common_name r.2) = true)
                           (effects_join d))) with
      | Raise _ => Failed 500 "Internal Server Error"
      | Ok results => Body results
      end
  end.

(** get_target_drugs; the error line its handler prints is left out. *)
Definition get_target_drugs (f : Fault) (plan : Plan) (protein : string)
    (side_effect : string) (d : DB) : Reply (list string) :=
  match execute_select f [protein; side_effect]
          (distinct plan
             ((λ r, trim_both_quote (common_name r.1.1.2)) <$>
                filter (λ r, protein_id r.1.1.1 = protein ∧
                             se_name r.2 = side_effect)
                       (target_join d))) with
  | Ok results => Body results
  | Raise _ =>
      Failed 500 "Database error during drill-down resolution."
  end.

(** get_top_correlations: the materialized view is not built by this
    repository; its rows, or its absence, are what the database holds.
    Among rows of equal count the database fixes no order; the stable sort
    keeps that of the view. The error line the handler prints is left
    out. *)
Record Correlation : Type := mkCorrelation {
  corr_protein_id : string;
  corr_se_name : string;
  drug_count : nat
}.

Definition more_drugs (a b : Correlation) : Prop :=
  (drug_count b ≤ drug_count a)%nat.

#[global] Instance more_drugs_dec a b : Decision (more_drugs a b) :=
  decide (drug_count b ≤ drug_count a)%nat.

Definition get_top_correlations (f : Fault)
    (mv_target_correlations : option (list Correlation))
  : Reply (list Correlation) :=
  match mv_target_correlations with
  | None => Failed 500 "Materialized view missing or unrefreshed."
  | Some view =>
      match execute_select f [] (take 25 (merge_sort more_drugs view)) with
      | Raise _ => Failed 500 "Materialized view missing or unrefreshed."
      | Ok results =>
          match results with
          | [] => Body []
          | _ => Body results
          end
      end
  end.

End Lookup.


(** ** Concrete inputs: the scenarios of the specification and others *)

Module Scenarios.
Import PyStr Py Frame Store Etl ImportData.

(** The feed of the first scenario of the specification. *)
Definition scenario_1_feed : list (string * string) :=
  [("CID001", "AspirinX"); ("CID001", "AspirinX-dup"); ("CID002", "Bcillin")].

(** A network on which only the names feed answers. *)
Definition names_only (feed : list (string * string)) : World :=
  mkWorld (λ _, Ok feed) (λ _, Unreachable).

Definition populated_db : DB :=
  mkDB [mkDrug "CID001" "AspirinX"] [mkSideEffect "SE01" "Headache"] [] [] [].

(** The three feeds of scenarios 2 to 4, as the archives would hold
    them; the combination archive also carries a metadata member and a
    directory, and its header and cells carry the stray blanks and quotes
    the normalisation is there for. *)
Definition scenario_2_frame : DataFrame :=
  mkFrame ["STITCH"; "Individual Side Effect"; "Side Effect Name"]
    [["CID001"; "SE01"; "Headache"];
     ["CID999"; "SE01"; "Headache"];
     ["CID002"; "SE02"; "Nausea"]].

Definition scenario_3_frame : DataFrame :=
  mkFrame ["STITCH 1"; "STITCH 2"; "Polypharmacy Side Effect";
           "Side Effect Name"]
    [["CID001"; "CID002"; "SE03"; "Rash"]].

Definition scenario_4_frame : DataFrame :=
  mkFrame ["STITCH"; "Gene"] [["CID001"; "P100"]; ["CID777"; "P200"]].

Definition scenario_3_archive : list TarInfo :=
  [mkTarInfo "bio/._combo.csv" true (Raise ParserError);
   mkTarInfo "bio" false (Raise ParserError);
   mkTarInfo "bio/combo.csv" true (Ok scenario_3_frame)].

Definition scenario_world : World :=
  mkWorld (λ _, Ok scenario_1_feed)
    (λ url,
       if bool_decide (url = mono_url) then
         Archive [mkTarInfo "mono.csv" true (Ok scenario_2_frame)]
       else if bool_decide (url = combo_url) then Archive scenario_3_archive
       else Archive [mkTarInfo "targets.csv" true (Ok scenario_4_frame)]).

(** An archive that holds nothing but a metadata file and a directory. *)
Definition metadata_only_archive : list TarInfo :=
  [mkTarInfo "._bio-decagon-mono.csv" true (Raise ParserError);
   mkTarInfo "data" false (Raise ParserError)].

Definition metadata_only_world : World :=
  mkWorld (λ _, Ok scenario_1_feed) (λ _, Archive metadata_only_archive).

(** A network on which the combination archive cannot be reached, all
    else being as in the scenarios. *)
Definition combo_down_world : World :=
  mkWorld (λ _, Ok scenario_1_feed)
    (λ url,
       if bool_decide (url = combo_url) then Unreachable
       else get scenario_world url).

(** The store of the scenarios after Phase 1. *)
Definition two_drugs_db : DB :=
  mkDB [mkDrug "CID001" "AspirinX"; mkDrug "CID002" "Bcillin"] [] [] [] [].

(** The store of the scenarios after Phases 1 and 2. *)
Definition after_phase_2_db : DB :=
  mkDB [mkDrug "CID001" "AspirinX"; mkDrug "CID002" "Bcillin"]
       [mkSideEffect "SE01" "Headache"; mkSideEffect "SE02" "Nausea"]
       [mkLink "CID001" "SE01" None; mkLink "CID002" "SE02" None] [] [].

(** A monotherapy archive whose header, once stripped, repeats the label
    of the drug column. *)
Definition repeated_label_world : World :=
  mkWorld (λ _, Ok scenario_1_feed)
    (λ _, Archive [mkTarInfo "mono.csv" true
                     (Ok (mkFrame ["STITCH"; "Individual Side Effect";
                                   "Side Effect Name"; " STITCH"]
                            [["CID001"; "SE01"; "Headache"; "CID001"]]))]).

(** A store with one drug, for the report endpoint. *)
Definition aspirin_db : DB :=
  mkDB [mkDrug "CID001" "'aspirin'"] [] [] [] [].

(** A store whose identifiers kept the quotes of the names feed, and a
    monotherapy archive that names the same drug without them. *)
Definition quoted_db : DB :=
  mkDB [mkDrug "'CID001'" "'AspirinX'"] [] [] [] [].

Definition quoted_world : World :=
  mkWorld (λ _, Ok [("'CID001'", "'AspirinX'")])
    (λ _, Archive [mkTarInfo "mono.csv" true
                     (Ok (mkFrame ["STITCH"; "Individual Side Effect";
                                   "Side Effect Name"]
                            [["CID001"; "SE01"; "Headache"]]))]).

(** A name with an accented letter, in capitals and in small letters (the
    characters 0xC9 and 0xE9), and a store that holds the latter. *)
Definition accented_upper : string :=
  String (ascii_of_N 201) "PHEDRINE".
Definition accented_lower : string :=
  String (ascii_of_N 233) "phedrine".
Definition accented_db : DB :=
  mkDB [mkDrug "CID009" accented_lower] [] [] [] [].

(** A store whose two identifiers kept their quotes. *)
Definition quoted_pair_db : DB :=
  mkDB [mkDrug "'CID001'" "'AspirinX'"; mkDrug "'CID002'" "'Bcillin'"]
       [] [] [] [].

(** A combination archive whose identifiers come quoted and padded. *)
Definition quoted_combo_frame : DataFrame :=
  mkFrame ["STITCH 1"; "STITCH 2"; "Polypharmacy Side Effect";
           "Side Effect Name"]
    [["'CID001'"; " CID002 "; "SE03"; "Rash"]].

Definition quoted_combo_world : World :=
  mkWorld (λ _, Ok scenario_1_feed)
    (λ _, Archive [mkTarInfo "combo.csv" true (Ok quoted_combo_frame)]).



(** A monotherapy archive whose table has two columns only. *)
Definition short_mono_world : World :=
  mkWorld (λ _, Ok scenario_1_feed)
    (λ _, Archive [mkTarInfo "mono.csv" true
                     (Ok (mkFrame ["STITCH"; "Side Effect Name"]
                            [["CID001"; "Headache"]]))]).

(** A targets archive whose table has a third column. *)
Definition three_column_targets_world : World :=
  mkWorld (λ _, Ok scenario_1_feed)
    (λ _, Archive [mkTarInfo "targets.csv" true
                     (Ok (mkFrame ["STITCH"; "Gene"; "Source"]
                            [["CID001"; "P100"; "x"]]))]).

End Scenarios.

(** ** Properties of the string operations *)

Module PyStrFacts.
Import PyStr.

Lemma replace_quote_no_quote s : no_quote (replace_quote s) = true.
Proof.
  induction s as [|c r IH]; simpl; [done|].
  destruct (is_quote c) eqn:Hc; simpl; [done|].
  by rewrite Hc, IH.
Qed.

Lemma replace_quote_fixed s : no_quote s = true → replace_quote s = s.
Proof.
  induction s as [|c r IH]; simpl; [done|].
  intros [Hc Hr]%andb_true_iff.
  apply negb_true_iff in Hc. rewrite Hc. by rewrite IH.
Qed.

Section Trim.
Context (p : ascii → bool).

Lemma ltrim_no_quote s : no_quote s = true → no_quote (ltrim p s) = true.
Proof.
  induction s as [|c r IH]; simpl; [done|].
  intros H. destruct (p c); [|done].
  apply IH. by apply andb_true_iff in H as [_ ?].
Qed.

Lemma rtrim_no_quote s : no_quote s = true → no_quote (rtrim p s) = true.
Proof.
  induction s as [|c r IH]; simpl; [done|].
  intros [Hc Hr]%andb_true_iff. specialize (IH Hr).
  destruct (rtrim p r) as [|c' r'] eqn:Hrs.
  - destruct (p c); simpl; [done|]. by rewrite Hc.
  - simpl in *. by rewrite Hc, IH.
Qed.

Lemma ltrim_head_clean s : head_clean p (ltrim p s) = true.
Proof.
  induction s as [|c r IH]; simpl; [done|].
  destruct (p c) eqn:Hc; [done|]. simpl. by rewrite Hc.
Qed.

Lemma ltrim_fixed s : head_clean p s = true → ltrim p s = s.
Proof.
  destruct s as [|c r]; simpl; [done|].
  intros Hc%negb_true_iff. by rewrite Hc.
Qed.

Lemma rtrim_head_clean s :
  head_clean p s = true → head_clean p (rtrim p s) = true.
Proof.
  destruct s as [|c r]; simpl; [done|].
  intros Hc. destruct (rtrim p r); [|done].
  apply negb_true_iff in Hc. rewrite Hc. simpl. by rewrite Hc.
Qed.

Lemma rtrim_tail_clean s : tail_clean p (rtrim p s) = true.
Proof.
  induction s as [|c r IH]; simpl; [done|].
  destruct (rtrim p r) as [|c' r'] eqn:Hrs.
  - destruct (p c) eqn:Hc; simpl; [done|]. by rewrite Hc.
  - exact IH.
Qed.

Lemma rtrim_idem s : rtrim p (rtrim p s) = rtrim p s.
Proof.
  induction s as [|c r IH]; simpl; [done|].
  destruct (rtrim p r) as [|c' r'] eqn:Hrs.
  - destruct (p c) eqn:Hc; simpl; [done|]. by rewrite Hc.
  - simpl. simpl in IH. by rewrite IH.
Qed.

Lemma trim_idem s : trim p (trim p s) = trim p s.
Proof.
  unfold trim.
  rewrite (ltrim_fixed (rtrim p (ltrim p s))).
  - apply rtrim_idem.
  - apply rtrim_head_clean, ltrim_head_clean.
Qed.

(** What is cut off at either end consists of characters that satisfy
    [p]. *)
Lemma ltrim_split s :
  ∃ a, s = (a +:+ ltrim p s) ∧ all_chars p a = true.
Proof.
  induction s as [|c r (a & Hr & Ha)]; simpl; [by exists ""|].
  destruct (p c) eqn:Hc.
  - exists (String c a). simpl. rewrite Hc, Ha. split; [|done].
    change (String c r = String c (a +:+ ltrim p r)). by rewrite <- Hr.
  - by exists "".
Qed.

Lemma rtrim_split s :
  ∃ b, s = (rtrim p s +:+ b) ∧ all_chars p b = true.
Proof.
  induction s as [|c r (b & Hr & Hb)]; simpl; [by exists ""|].
  destruct (rtrim p r) as [|c' r'] eqn:Hrs.
  - simpl in Hr. subst r. destruct (p c) eqn:Hc.
    + exists (String c b). simpl. by rewrite Hc, Hb.
    + by exists b.
  - exists b. split; [|done].
    change (String c r = String c (String c' r' +:+ b)). by rewrite <- Hr.
Qed.

(** [trim p s] is [s] without the runs of [p]-characters at its two ends,
    and has no such character left at either end. *)
Lemma trim_spec s :
  ∃ a b, s = (a +:+ trim p s +:+ b) ∧
         all_chars p a = true ∧ all_chars p b = true ∧
         head_clean p (trim p s) = true ∧ tail_clean p (trim p s) = true.
Proof.
  destruct (ltrim_split s) as (a & Hs & Ha).
  destruct (rtrim_split (ltrim p s)) as (b & Hl & Hb).
  exists a, b. unfold trim. repeat split; try done.
  - by rewrite <- Hl.
  - apply rtrim_head_clean, ltrim_head_clean.
  - apply rtrim_tail_clean.
Qed.

Lemma trim_no_quote s : no_quote s = true → no_quote (trim p s) = true.
Proof. intros H. by apply rtrim_no_quote, ltrim_no_quote. Qed.
End Trim.

Lemma strip_idem s : strip (strip s) = strip s.
Proof. apply trim_idem. Qed.

Lemma normalize_no_quote s : no_quote (normalize s) = true.
Proof. apply trim_no_quote, replace_quote_no_quote. Qed.

Lemma normalize_clean s : clean_id (normalize s) = true.
Proof.
  unfold clean_id. rewrite normalize_no_quote. unfold normalize, strip, trim.
  by rewrite rtrim_head_clean, rtrim_tail_clean by apply ltrim_head_clean.
Qed.

End PyStrFacts.

(** ** Properties of the pandas operations *)

Module FrameFacts.
Import Py Frame.
Local Open Scope list_scope.
Local Open Scope nat_scope.

Section DropDups.
Context {A K : Type} `{EqDecision K} (key : A → K).
Implicit Types l : list A.

Lemma drop_dups_sublist l : drop_dups key l `sublist_of` l.
Proof.
  induction l as [|x l IH]; simpl; [done|].
  apply sublist_skip. etrans; [apply sublist_filter|done].
Qed.

Lemma drop_dups_NoDup l : NoDup (key <$> drop_dups key l).
Proof.
  induction l as [|x l IH]; simpl; [constructor|].
  apply NoDup_cons. split.
  - intros (y & Hy & Hin)%list_elem_of_fmap.
    apply list_elem_of_filter in Hin as [Hne _]. by apply Hne.
  - refine (sublist_NoDup _ _ IH _). apply fmap_sublist, sublist_filter.
Qed.

(** A row survives exactly when it is the first of the input with its
    key. *)
Lemma drop_dups_first l x :
  x ∈ drop_dups key l ↔
  ∃ l1 l2, l = l1 ++ x :: l2 ∧ key x ∉ key <$> l1.
Proof.
  induction l as [|a l IH]; simpl.
  - split; [by intros ?%elem_of_nil|].
    intros (l1 & l2 & Heq & _). by destruct l1.
  - rewrite elem_of_cons, list_elem_of_filter, IH. split.
    + intros [->|(Hne & l1 & l2 & -> & Hnin)].
      * exists [], l. split; [done|]. simpl. apply not_elem_of_nil.
      * exists (a :: l1), l2. split; [done|].
        simpl. apply not_elem_of_cons. done.
    + intros (l1 & l2 & Heq & Hnin). destruct l1 as [|b l1].
      * simpl in Heq. injection Heq as -> ->. by left.
      * simpl in Heq. injection Heq as -> ->. right.
        simpl in Hnin. apply not_elem_of_cons in Hnin as [Hne Hnin].
        split; [done|]. by exists l1, l2.
Qed.

Lemma drop_dups_elem_of l x : x ∈ drop_dups key l → x ∈ l.
Proof. intros Hx. eapply elem_of_sublist; [done|apply drop_dups_sublist]. Qed.

(** Every key of the input is still there. *)
Lemma drop_dups_keys l k : k ∈ key <$> drop_dups key l ↔ k ∈ key <$> l.
Proof.
  induction l as [|a l IH]; simpl; [done|].
  rewrite !elem_of_cons, <- IH. split.
  - intros [->|(y & -> & Hy)%list_elem_of_fmap]; [by left|].
    apply list_elem_of_filter in Hy as [_ Hy].
    right. by apply list_elem_of_fmap_2.
  - intros [->|(y & -> & Hy)%list_elem_of_fmap]; [by left|].
    destruct (decide (key y = key a)) as [->|Hne]; [by left|].
    right. apply list_elem_of_fmap_2, list_elem_of_filter. done.
Qed.

Lemma filter_all (P : A → Prop) `{∀ x, Decision (P x)} l :
  (∀ x, x ∈ l → P x) → filter P l = l.
Proof.
  induction l as [|a l IH]; intros Hall; [done|].
  rewrite filter_cons_True by (apply Hall; left).
  f_equal. apply IH. intros x Hx. apply Hall. by right.
Qed.

(** A list whose keys are already distinct is left alone. *)
Lemma drop_dups_id l : NoDup (key <$> l) → drop_dups key l = l.
Proof.
  induction l as [|a l IH]; simpl; [done|].
  intros [Hnin Hnd]%NoDup_cons. rewrite (IH Hnd). f_equal.
  apply filter_all. intros x Hx Heq. apply Hnin. rewrite <- Heq.
  by apply list_elem_of_fmap_2.
Qed.
End DropDups.

(** [drop_dups] goes through a change of representation that respects
    the keys. *)
Lemma drop_dups_fmap {A B K1 K2} `{EqDecision K1, EqDecision K2}
    (f : A → B) (k1 : A → K1) (k2 : B → K2) (l : list A) :
  (∀ x y, k2 (f x) = k2 (f y) ↔ k1 x = k1 y) →
  f <$> drop_dups k1 l = drop_dups k2 (f <$> l).
Proof.
  intros Hk. induction l as [|a l IH]; csimpl; [done|].
  f_equal. rewrite <- IH. clear IH.
  induction (drop_dups k1 l) as [|b m IHm]; [done|].
  destruct (decide (k1 b = k1 a)) as [Heq|Hne].
  - rewrite filter_cons_False by (intros Hn; by apply Hn).
    csimpl. rewrite filter_cons_False; [done|].
    intros Hn. apply Hn. by apply Hk.
  - rewrite filter_cons_True by done. csimpl.
    rewrite filter_cons_True; [by rewrite IHm|].
    intros Heq. apply Hne. by apply Hk.
Qed.

Section Chunks.
Context {A : Type}.
Implicit Types l : list A.

Lemma concat_filter_nonempty (L : list (list A)) :
  concat (filter (λ ch, ch ≠ []) L) = concat L.
Proof.
  induction L as [|ch L IH]; [done|].
  destruct ch as [|a ch].
  - rewrite filter_cons_False by (intros Hn; by apply Hn). done.
  - rewrite filter_cons_True by done. simpl. by rewrite IH.
Qed.

Lemma slices_concat c l k :
  concat ((λ i, slice (i * c) (min ((i + 1) * c) (length l)) l) <$> seq 0 k)
  = take (k * c) l.
Proof.
  induction k as [|k IH]; [done|].
  rewrite seq_S, fmap_app, concat_app, IH. simpl. rewrite app_nil_r.
  unfold slice.
  destruct (decide (k * c ≤ length l)) as [Hle|Hgt].
  - rewrite take_take_drop.
    destruct (decide ((k + 1) * c ≤ length l)).
    + f_equal. lia.
    + rewrite !take_ge by lia. done.
  - rewrite drop_ge by lia. rewrite take_nil, app_nil_r.
    rewrite !take_ge by lia. done.
Qed.

(** The batches, put end to end, are the frame. *)
Lemma insert_chunks_concat cs l :
  cs ≠ Some 0 → concat (insert_chunks cs l) = l.
Proof.
  intros Hcs. unfold insert_chunks. case_bool_decide as Hn.
  - by destruct l.
  - rewrite concat_filter_nonempty, slices_concat.
    apply take_ge.
    set (c := default (length l) cs).
    assert (c ≠ 0) by (destruct cs as [[|?]|]; simpl in *; subst c; simpl; congruence).
    pose proof (Nat.div_mod_eq (length l) c).
    pose proof (Nat.mod_upper_bound (length l) c). nia.
Qed.

(** No batch is larger than the chunk size. *)
Lemma insert_chunks_bound c l ch :
  ch ∈ insert_chunks (Some c) l → length ch ≤ c.
Proof.
  unfold insert_chunks. case_bool_decide; [by intros ?%elem_of_nil|].
  intros [_ Hin]%list_elem_of_filter.
  apply list_elem_of_fmap in Hin as (i & -> & _).
  unfold slice. rewrite length_take. simpl. lia.
Qed.

(** Without a chunk size the frame goes out as one batch. *)
Lemma insert_chunks_None l : l ≠ [] → insert_chunks None l = [l].
Proof.
  intros Hl. unfold insert_chunks.
  case_bool_decide as Hn; [by destruct l|]. simpl.
  rewrite Nat.div_same by done. simpl. unfold slice. simpl.
  rewrite Nat.add_0_r, Nat.min_id, Nat.sub_0_r.
  rewrite take_ge by done. rewrite drop_all, take_nil. simpl.
  rewrite filter_cons_True by done.
  by rewrite filter_cons_False by (intros Hx; by apply Hx).
Qed.

Lemma insert_chunks_nil cs : insert_chunks cs (@nil A) = [].
Proof. done. Qed.

Lemma insert_chunks_nonempty cs l ch : ch ∈ insert_chunks cs l → ch ≠ [].
Proof.
  unfold insert_chunks. case_bool_decide; [by intros ?%elem_of_nil|].
  by intros [? _]%list_elem_of_filter.
Qed.

(** A frame of at most [c] rows is one batch. *)
Lemma insert_chunks_page c l :
  l ≠ [] → length l ≤ c → insert_chunks (Some c) l = [l].
Proof.
  intros Hl Hlen. unfold insert_chunks.
  case_bool_decide as Hn; [by destruct l|]. simpl.
  destruct (decide (length l = c)) as [<-|Hlt].
  - apply insert_chunks_None in Hl. unfold insert_chunks in Hl.
    by rewrite bool_decide_eq_false_2 in Hl by done.
  - rewrite Nat.div_small by lia. simpl. unfold slice. simpl.
    rewrite Nat.add_0_r, Nat.sub_0_r, Nat.min_r by lia.
    rewrite take_ge by done. by rewrite filter_cons_True by done.
Qed.
End Chunks.

End FrameFacts.

(** ** Properties of the effect layer *)

Module EtlFacts.
Import Py Frame Store Etl FrameFacts.
Local Open Scope list_scope.
Local Open Scope nat_scope.

#[global] Instance append_drugs_ok : Appends append_drugs.
Proof.
  split; intros; destruct d; unfold append_drugs; simpl;
    by rewrite ?app_nil_r, ?app_assoc.
Qed.
#[global] Instance append_side_effects_ok : Appends append_side_effects.
Proof.
  split; intros; destruct d; unfold append_side_effects; simpl;
    by rewrite ?app_nil_r, ?app_assoc.
Qed.
#[global] Instance append_drug_side_effects_ok :
  Appends append_drug_side_effects.
Proof.
  split; intros; destruct d; unfold append_drug_side_effects; simpl;
    by rewrite ?app_nil_r, ?app_assoc.
Qed.
#[global] Instance append_drug_targets_ok : Appends append_drug_targets.
Proof.
  split; intros; destruct d; unfold append_drug_targets; simpl;
    by rewrite ?app_nil_r, ?app_assoc.
Qed.

Lemma foldl_exec_insert {R} t (append : list R → DB → DB) `{!Appends append}
    chunks env :
  foldl (exec_insert t append) env chunks =
  mkEnv (append (concat chunks) (db env))
        (journal env ++ (statement_of t <$> chunks)) (out env).
Proof.
  revert env. induction chunks as [|ch chunks IH]; intros env; simpl.
  - rewrite append_nil, app_nil_r. by destruct env.
  - rewrite IH. simpl. rewrite append_app, <- app_assoc. done.
Qed.

Lemma concat_bind_pages {R} (batches : list (list R)) :
  concat (batches ≫= pages) = concat batches.
Proof.
  induction batches as [|b batches IH]; [done|].
  rewrite bind_cons, concat_app, IH. simpl. f_equal.
  by apply insert_chunks_concat.
Qed.

(** The statements of a frame carry its rows, in order. *)
Lemma inserts_concat {R} cs (frame : list R) :
  cs ≠ Some 0 → concat (inserts cs frame) = frame.
Proof.
  intros Hcs. unfold inserts. rewrite concat_bind_pages.
  by apply insert_chunks_concat.
Qed.

(** No statement is empty and none carries more than a page. *)
Lemma inserts_bound {R} cs (frame : list R) ch :
  ch ∈ inserts cs frame → 0 < length ch ≤ page_size.
Proof.
  unfold inserts. intros (b & Hch & _)%list_elem_of_bind. split.
  - apply insert_chunks_nonempty in Hch. destruct ch; [done|simpl; lia].
  - by eapply insert_chunks_bound.
Qed.

Lemma inserts_nil {R} cs : inserts cs (@nil R) = [].
Proof. done. Qed.

(** A frame of at most a page, written without chunk size, is one
    statement. *)
Lemma inserts_small {R} (frame : list R) :
  frame ≠ [] → length frame ≤ page_size → inserts None frame = [frame].
Proof.
  intros Hne Hlen. unfold inserts. rewrite insert_chunks_None by done.
  rewrite bind_singleton. by apply insert_chunks_page.
Qed.

(** The statements of one [to_sql]: all into its table, none empty, none
    above a page, together as many rows as the frame has. *)
Lemma statements_of_frame {R} (t : Table) cs (frame : list R) :
  cs ≠ Some 0 →
  (∀ st, st ∈ statement_of t <$> inserts cs frame →
         into st = t ∧ 1 ≤ nrows st ≤ 1000) ∧
  sum_list_with nrows (statement_of t <$> inserts cs frame) = length frame.
Proof.
  intros Hcs. split.
  - intros st (ch & -> & Hch)%list_elem_of_fmap.
    apply inserts_bound in Hch. unfold page_size in Hch. simpl.
    split; [done|lia].
  - rewrite <- (inserts_concat cs frame Hcs) at 2.
    induction (inserts cs frame) as [|ch chs IH]; [done|].
    csimpl. by rewrite IH, length_app.
Qed.

(** What [to_sql] does to the environment. *)
Lemma to_sql_run {R} t (append : list R → DB → DB) `{!Appends append}
    cs frame env :
  cs ≠ Some 0 →
  to_sql t append cs frame env =
  (Ok tt, mkEnv (append frame (db env))
                (journal env ++ (statement_of t <$> inserts cs frame))
                (out env)).
Proof.
  intros Hcs. unfold to_sql. rewrite bool_decide_eq_false_2; [|done].
  rewrite foldl_exec_insert, inserts_concat; done.
Qed.

Lemma bind_run {A B} (m : M A) (k : A → M B) env :
  (m ≫= k) env =
  match m env with
  | (Ok a, env') => k a env'
  | (Raise e, env') => (Raise e, env')
  end.
Proof. done. Qed.

Lemma print_run m env :
  print m env = (Ok tt, mkEnv (db env) (journal env) (out env ++ [m])).
Proof. done. Qed.

Lemma ret_run {A} (a : A) env : ret a env = (Ok a, env).
Proof. done. Qed.

Lemma raise_run {A} e env : raise (A:=A) e env = (Raise e, env).
Proof. done. Qed.

Ltac run :=
  repeat (rewrite ?bind_run, ?print_run, ?ret_run, ?raise_run,
            ?(to_sql_run _ _ _ _ _) by done; simpl).

End EtlFacts.

(** ** Normalisation *)

Module NormalizeFacts.
Import PyStr PyStrFacts Store ImportData.

(** C7. Identifier normalisation (single quotes removed, then whitespace
    trimmed at both ends) is idempotent; hence the value Phase 2 compares
    for a fetched identifier [x] is the value it computes for a stored
    identifier, whether the store holds [x] as fetched or already
    normalised. *)
Theorem normalize_idempotent (x : string) :
  normalize (normalize x) = normalize x ∧
  (∀ code name,
     (normalize_id (x, code)).1 = normalize (stitch_id (mkDrug x name)) ∧
     (normalize_id (x, code)).1
       = normalize (stitch_id (mkDrug (normalize x) name))).
Proof.
  assert (Hidem : normalize (normalize x) = normalize x).
  { unfold normalize at 1.
    rewrite replace_quote_fixed by apply normalize_no_quote.
    unfold normalize. apply strip_idem. }
  split; [exact Hidem|]. intros code name. simpl. by rewrite Hidem.
Qed.

End NormalizeFacts.

(** ** Phase 1 and the idempotency gates *)

Module Phase1Facts.
Import PyStr Py Frame Store Etl ImportData Scenarios FrameFacts EtlFacts.
Local Open Scope list_scope.
Local Open Scope nat_scope.

(** Phase 1 on an empty [drugs] table, step by step. *)
Lemma phase_1_run w env feed :
  drugs (db env) = [] →
  read_names w names_url = Ok feed →
  import_phase_1_names w env =
  (Ok tt,
   mkEnv (append_drugs (drug_of <$> drop_dups fst feed) (db env))
         (journal env ++
            (statement_of T_drugs
               <$> inserts None (drug_of <$> drop_dups fst feed)))
         (out env ++ [Phase1Header; Phase1Unique (length (drop_dups fst feed));
                      Phase1Successful])).
Proof.
  intros Hempty Hfeed. unfold import_phase_1_names, is_table_empty.
  run. rewrite Hempty. run. rewrite Hfeed. run.
  by rewrite <- ?app_assoc.
Qed.

(** C3. From an empty [drugs] table Phase 1 returns normally and leaves in
    [drugs] exactly the feed rows that are the first with their identifier,
    in feed order, the other tables untouched; on the three-row feed of the
    scenario that is CID001 with AspirinX and CID002 with Bcillin. *)
Theorem phase_1_keeps_first_occurrence w env feed :
  drugs (db env) = [] →
  read_names w names_url = Ok feed →
  ∃ env',
    import_phase_1_names w env = (Ok tt, env') ∧
    drugs (db env') = drug_of <$> drop_dups fst feed ∧
    NoDup (stitch_id <$> drugs (db env')) ∧
    drop_dups fst feed `sublist_of` feed ∧
    (∀ r, r ∈ drop_dups fst feed ↔
          ∃ l1 l2, feed = l1 ++ r :: l2 ∧ r.1 ∉ fst <$> l1) ∧
    side_effects (db env') = side_effects (db env) ∧
    drug_side_effects (db env') = drug_side_effects (db env) ∧
    drug_targets (db env') = drug_targets (db env) ∧
    (feed = scenario_1_feed →
     drugs (db env') = [mkDrug "CID001" "AspirinX"; mkDrug "CID002" "Bcillin"]).
Proof.
  intros Hempty Hfeed. eexists. split; [by apply phase_1_run|].
  simpl. rewrite Hempty. simpl. repeat split.
  - rewrite <- list_fmap_compose.
    apply (drop_dups_NoDup fst feed).
  - apply drop_dups_sublist.
  - by apply drop_dups_first.
  - by apply drop_dups_first.
  - by intros ->.
Qed.

Lemma phase_1_keeps_first_occurrence_witness :
  ∃ env',
    import_phase_1_names (names_only scenario_1_feed) (start empty_db)
      = (Ok tt, env') ∧
    drugs (db env') = [mkDrug "CID001" "AspirinX"; mkDrug "CID002" "Bcillin"].
Proof.
  destruct (phase_1_keeps_first_occurrence (names_only scenario_1_feed)
              (start empty_db) scenario_1_feed eq_refl eq_refl)
    as (env' & Hrun & _ & _ & _ & _ & _ & _ & _ & Hscenario).
  exists env'. split; [exact Hrun|]. by apply Hscenario.
Defined.

(** C2. With a populated [drugs] table Phase 1, and with a populated
    [side_effects] table Phase 2, returns normally having executed no
    statement and changed no table; only the skip line is printed. *)
Theorem populated_phase_is_skipped w env :
  (drugs (db env) ≠ [] →
   import_phase_1_names w env =
   (Ok tt, mkEnv (db env) (journal env) (out env ++ [Phase1Skipped]))) ∧
  (side_effects (db env) ≠ [] →
   import_phase_2_mono w env =
   (Ok tt, mkEnv (db env) (journal env) (out env ++ [Phase2Skipped]))).
Proof.
  split; intros Hne.
  - unfold import_phase_1_names, is_table_empty. run.
    destruct (drugs (db env)); done.
  - unfold import_phase_2_mono, is_table_empty. run.
    destruct (side_effects (db env)); done.
Qed.

Lemma populated_phase_is_skipped_witness :
  import_phase_1_names (names_only scenario_1_feed) (start populated_db)
    = (Ok tt, mkEnv populated_db [] [Phase1Skipped]) ∧
  import_phase_2_mono (names_only scenario_1_feed) (start populated_db)
    = (Ok tt, mkEnv populated_db [] [Phase2Skipped]).
Proof.
  destruct (populated_phase_is_skipped (names_only scenario_1_feed)
              (start populated_db)) as [H1 H2].
  split; [apply H1|apply H2]; simpl; discriminate.
Defined.

End Phase1Facts.

(** ** The archive fetcher *)

Module FetcherFacts.
Import PyStr Py Frame Store Etl ImportData Scenarios FrameFacts EtlFacts.
Local Open Scope list_scope.

Lemma basename_from_spec s cur :
  (no_slash s = true ∧ basename_from cur s = cur) ∨
  (∃ a b, s = (a +:+ "/" +:+ b) ∧ no_slash b = true ∧ basename_from cur s = b).
Proof.
  revert cur. induction s as [|c r IH]; intros cur; simpl; [by left|].
  destruct (Ascii.eqb c "/") eqn:Hc; simpl.
  - apply Ascii.eqb_eq in Hc as ->. right.
    destruct (IH r) as [[Hns Hb]|(a & b & -> & Hns & Hb)].
    + exists EmptyString, r. by rewrite Hb.
    + exists (String "/" a), b. by rewrite Hb.
  - destruct (IH cur) as [[Hns Hb]|(a & b & -> & Hns & Hb)].
    + by left.
    + right. by exists (String c a), b.
Qed.

(** [basename p] is [p] itself when [p] has no slash, and otherwise what
    follows the last slash of [p]. *)
Lemma basename_spec p :
  (no_slash p = true ∧ basename p = p) ∨
  (∃ dir, p = (dir +:+ "/" +:+ basename p) ∧ no_slash (basename p) = true).
Proof.
  destruct (basename_from_spec p p) as [?|(a & b & Hp & Hns & Hb)]; [by left|].
  right. exists a. unfold basename. by rewrite Hb.
Qed.

(** The fetcher touches neither the tables nor the journal. *)
Lemma download_env w url env r env' :
  download_and_extract_gz w url env = (r, env') →
  db env' = db env ∧ journal env' = journal env.
Proof.
  unfold download_and_extract_gz. run. destruct (get w url); run.
  - by intros [= <- <-].
  - by intros [= <- <-].
  - destruct (filter _ members) as [|m rest]; run; [by intros [= <- <-]|].
    destruct (read_csv m); run; by intros [= <- <-].
Qed.



End FetcherFacts.

(** ** Phases 2 to 4 only link drugs they know *)

Module IntegrityFacts.
Import PyStr Py Frame Store Etl ImportData Integrity Scenarios.
Import FrameFacts EtlFacts FetcherFacts.
Local Open Scope list_scope.
Local Open Scope nat_scope.
#[local] Opaque to_sql.

Lemma elem_of_positions name (cols : list string) i :
  i ∈ positions name cols ↔ cols !! i = Some name.
Proof.
  unfold positions. rewrite list_elem_of_fmap. split.
  - intros ([j x] & -> & Hin). apply list_elem_of_filter in Hin as [Heq Hin].
    simpl in Heq. subst x.
    by apply elem_of_lookup_imap in Hin as (k & y & [= -> ->] & Hl).
  - intros Hl. exists (i, name). split; [done|].
    apply list_elem_of_filter. split; [done|].
    by apply (elem_of_lookup_imap_2 pair).
Qed.

(** A label read at position [j] and used as a Series sits at [j]. *)
Lemma series_index_at df j c i :
  column_at df j = Ok c → series_index c df = Ok i → i = j.
Proof.
  unfold column_at, series_index. intros Hc Hi.
  destruct (columns df !! j) as [c'|] eqn:Hj; [|done].
  injection Hc as ->.
  destruct (positions c (columns df)) as [|i' [|]] eqn:Hp; try done.
  injection Hi as ->.
  apply elem_of_positions in Hj. rewrite Hp in Hj.
  by apply list_elem_of_singleton in Hj.
Qed.

Lemma series_index_positions df c i :
  series_index c df = Ok i → positions c (columns df) = [i].
Proof.
  unfold series_index. intros Hi.
  destruct (positions c (columns df)) as [|i' [|]]; try done.
  by injection Hi as ->.
Qed.

Lemma elem_of_existing_drugs d id :
  id ∈ existing_drugs_of d ↔ known_to d id.
Proof.
  unfold existing_drugs_of, known_to.
  rewrite elem_of_list_to_set, list_elem_of_fmap.
  split; intros (x & ? & ?); by exists x.
Qed.

Section Leaves.
Context (ok : DB → string → Prop).

Lemma links_same_db env env' : db env' = db env → links_satisfy ok env env'.
Proof.
  intros Hdb. unfold links_satisfy. rewrite Hdb. split; [done|].
  split; exists []; (split; [by rewrite app_nil_r|by intros ? ?%elem_of_nil]).
Qed.

Lemma links_catalog_only env env' se :
  db env' = append_side_effects se (db env) → links_satisfy ok env env'.
Proof.
  intros Hdb. unfold links_satisfy. rewrite Hdb. split; [done|].
  split; exists []; (split; [by rewrite app_nil_r|by intros ? ?%elem_of_nil]).
Qed.

Lemma links_appended env env' se new :
  db env' = append_drug_side_effects new (append_side_effects se (db env)) →
  (∀ l, l ∈ new → ok (db env) (drug_id l)) →
  links_satisfy ok env env'.
Proof.
  intros Hdb Hok. unfold links_satisfy. rewrite Hdb. split; [done|]. split.
  - by exists new.
  - exists []. split; [by rewrite app_nil_r|by intros ? ?%elem_of_nil].
Qed.

Lemma targets_appended env env' new :
  db env' = append_drug_targets new (db env) →
  (∀ l, l ∈ new → ok (db env) (target_drug_id l)) →
  links_satisfy ok env env'.
Proof.
  intros Hdb Hok. unfold links_satisfy. rewrite Hdb. split; [done|]. split.
  - exists []. split; [by rewrite app_nil_r|by intros ? ?%elem_of_nil].
  - by exists new.
Qed.
End Leaves.

Lemma phase_4_links_known w env :
  links_satisfy known_to env (import_phase_4_targets w env).2.
Proof.
  unfold import_phase_4_targets. run.
  destruct (download_and_extract_gz w targets_url _) as [r env1] eqn:Hdl.
  apply download_env in Hdl as [Hdb Hj].
  destruct env1 as [d1 j1 o1]. simpl in Hdb, Hj. subst d1 j1.
  destruct r as [[df|]|e]; run; try by apply links_same_db.
  destruct (column_at df 0) as [c0|] eqn:Hc0; run; try by apply links_same_db.
  destruct (column_at df 1) as [c1|] eqn:Hc1; run; try by apply links_same_db.
  destruct (series_index c0 df) as [i|] eqn:Hi; run;
    try by apply links_same_db.
  assert (i = 0) as -> by eauto using series_index_at.
  unfold set_columns2. simpl. case_bool_decide; run;
    try by apply links_same_db.
  eapply targets_appended; [done|].
  intros l (p & -> & Hp)%list_elem_of_fmap.
  apply list_elem_of_fmap in Hp as (r & -> & Hr).
  apply drop_dups_elem_of, list_elem_of_filter in Hr as [Hr _].
  simpl. by apply elem_of_existing_drugs.
Qed.

Lemma links_satisfy_db ok env0 env env1 env' :
  db env = db env0 → db env' = db env1 →
  links_satisfy ok env env1 → links_satisfy ok env0 env'.
Proof. unfold links_satisfy. by intros -> ->. Qed.

Lemma phase_2_body_links_known df_mono env :
  links_satisfy known_to env (phase_2_body df_mono env).2.
Proof.
  unfold phase_2_body. destruct df_mono as [df|]; run;
    try by apply links_same_db.
  destruct (column_at df 0) as [c0|]; run; try by apply links_same_db.
  destruct (column_at df 1) as [c1|]; run; try by apply links_same_db.
  destruct (column_at df 2) as [c2|]; run; try by apply links_same_db.
  destruct (set_columns2 (drop_duplicates_subset _ _)) as [se_catalog|]; run;
    try by apply links_same_db.
  destruct (set_columns2 (getitem_cols _ _)) as [drug_se|]; run;
    try by eapply links_catalog_only.
  case_bool_decide; run; try by eapply links_catalog_only.
  eapply links_appended; [done|].
  intros l (p & -> & Hp)%list_elem_of_fmap.
  apply list_elem_of_filter in Hp as [Hp _].
  apply list_elem_of_fmap in Hp as (x & Hx & Hin). by exists x.
Qed.

Lemma phase_2_links_known w env :
  links_satisfy known_to env (import_phase_2_mono w env).2.
Proof.
  unfold import_phase_2_mono, is_table_empty. run.
  case_bool_decide; run; try by apply links_same_db.
  destruct (download_and_extract_gz w mono_url _) as [r env1] eqn:Hdl.
  apply download_env in Hdl as [Hdb Hj].
  destruct env1 as [d1 j1 o1]. simpl in Hdb, Hj. subst d1 j1.
  destruct r as [df_mono|e]; run; try by apply links_same_db.
  unfold try_except.
  match goal with
  | |- context [phase_2_body df_mono ?e] =>
      pose proof (phase_2_body_links_known df_mono e) as Hbody;
      destruct (phase_2_body df_mono e) as [[[]|e'] env2]; simpl in *
  end.
  - by eapply links_satisfy_db.
  - by eapply links_satisfy_db.
Qed.

Lemma phase_3_links_known w env :
  links_satisfy known_to env (import_phase_3_combo w env).2.
Proof.
  unfold import_phase_3_combo. run.
  destruct (download_and_extract_gz w combo_url _) as [r env1] eqn:Hdl.
  apply download_env in Hdl as [Hdb Hj].
  destruct env1 as [d1 j1 o1]. simpl in Hdb, Hj. subst d1 j1.
  destruct r as [[df|]|e]; run; try by apply links_same_db.
  destruct (column_at df 0) as [c0|] eqn:Hc0; run; try by apply links_same_db.
  destruct (column_at df 1) as [c1|] eqn:Hc1; run; try by apply links_same_db.
  destruct (column_at df 2) as [c2|] eqn:Hc2; run; try by apply links_same_db.
  destruct (column_at df 3) as [c3|] eqn:Hc3; run; try by apply links_same_db.
  destruct (series_index c0 df) as [i1|] eqn:Hi1; run;
    try by apply links_same_db.
  destruct (series_index c1 _) as [i2|] eqn:Hi2; run;
    try by apply links_same_db.
  apply series_index_positions in Hi1, Hi2. simpl in Hi2.
  assert (Hknown : ∀ l,
    l ∈ link_of (Some true) <$> drop_dups id
      ((as_pair <$> rows (getitem_cols [c0; c2]
          (filter_rows (λ r, r !!! i1 ∈ existing_drugs_of (db env) ∧
                             r !!! i2 ∈ existing_drugs_of (db env))
             (alter_column i2 normalize (alter_column i1 normalize df))))) ++
       (as_pair <$> rows (getitem_cols [c1; c2]
          (filter_rows (λ r, r !!! i1 ∈ existing_drugs_of (db env) ∧
                             r !!! i2 ∈ existing_drugs_of (db env))
             (alter_column i2 normalize (alter_column i1 normalize df)))))) →
    known_to (db env) (drug_id l)).
  { intros l (p & -> & Hp)%list_elem_of_fmap.
    apply drop_dups_elem_of in Hp. simpl.
    apply elem_of_existing_drugs.
    apply elem_of_app in Hp as [Hp|Hp];
      apply list_elem_of_fmap in Hp as (r & -> & Hr); simpl in Hr;
      apply list_elem_of_fmap in Hr as (r' & -> & Hr');
      apply list_elem_of_filter in Hr' as [[H1 H2] _];
      rewrite ?Hi1, ?Hi2; simpl; done. }
  destruct (set_columns2 _) as [new_se|]; run; try by apply links_same_db.
  case_bool_decide; run.
  - eapply links_appended; [done|]. exact Hknown.
  - eapply (links_appended _ _ _ []); [simpl|exact Hknown].
    by rewrite append_nil.
Qed.

(** Where the store holds its identifiers in normalised form, the two
    readings of "known" agree. *)
Lemma known_is_stored d id :
  (∀ x, x ∈ drugs d → normalize (stitch_id x) = stitch_id x) →
  known_to d id → stored_in d id.
Proof.
  intros Hnorm (x & Hx & ->). unfold stored_in.
  rewrite (Hnorm x Hx). by apply list_elem_of_fmap_2.
Qed.

(** What Phases 2, 3 and 4 do guarantee: they leave [drugs] as it is and
    only append to the link tables, and the drug identifier of every row
    they append is the normalised form of an identifier stored in [drugs];
    this holds whether the phase returns or raises. *)
Lemma links_reference_normalized_drugs w env :
  links_satisfy known_to env (import_phase_2_mono w env).2 ∧
  links_satisfy known_to env (import_phase_3_combo w env).2 ∧
  links_satisfy known_to env (import_phase_4_targets w env).2.
Proof.
  split; [apply phase_2_links_known|].
  split; [apply phase_3_links_known|apply phase_4_links_known].
Qed.

(** With a store that holds normalised identifiers the appended rows
    reference stored identifiers. *)
Lemma links_reference_stored_drugs w env :
  (∀ x, x ∈ drugs (db env) → normalize (stitch_id x) = stitch_id x) →
  links_satisfy stored_in env (import_phase_2_mono w env).2 ∧
  links_satisfy stored_in env (import_phase_3_combo w env).2 ∧
  links_satisfy stored_in env (import_phase_4_targets w env).2.
Proof.
  intros Hnorm.
  destruct (links_reference_normalized_drugs w env) as (H2 & H3 & H4).
  assert (Hweaken : ∀ env', links_satisfy known_to env env' →
                            links_satisfy stored_in env env').
  { intros env' (Hd & (n1 & Hn1 & Hk1) & (n2 & Hn2 & Hk2)).
    split; [done|]. split.
    - exists n1. split; [done|]. intros l Hl. by apply known_is_stored, Hk1.
    - exists n2. split; [done|]. intros l Hl. by apply known_is_stored, Hk2. }
  auto.
Qed.

(** C1. The invariant fails on the code: Phase 1 stores the identifier as
    the names feed gives it, here in quotes, while Phase 2 compares and
    inserts the identifier without them; the link row it appends carries
    an identifier that no row of [drugs] has. *)
Theorem quoted_store_link_is_not_stored :
  db (import_phase_1_names quoted_world (start empty_db)).2 = quoted_db ∧
  drug_side_effects (db (import_phase_2_mono quoted_world (start quoted_db)).2)
    = [mkLink "CID001" "SE01" None] ∧
  ¬ stored_in quoted_db "CID001" ∧
  ¬ links_satisfy stored_in (start quoted_db)
      (import_phase_2_mono quoted_world (start quoted_db)).2.
Proof.
  assert (Hnot : ¬ stored_in quoted_db "CID001").
  { unfold stored_in. simpl. intros Hin.
    apply list_elem_of_singleton in Hin. discriminate Hin. }
  split; [by vm_compute|]. split; [by vm_compute|]. split; [exact Hnot|].
  intros (_ & (new & Hnew & Hok) & _).
  vm_compute in Hnew. subst new.
  apply Hnot, (Hok (mkLink "CID001" "SE01" None)). left.
Qed.

End IntegrityFacts.

(** ** Batching of the inserts *)

Module ChunkFacts.
Import PyStr Py Frame Store Etl ImportData Integrity Scenarios.
Import FrameFacts EtlFacts FetcherFacts Phase1Facts.
Local Open Scope list_scope.
Local Open Scope nat_scope.
#[local] Opaque to_sql inserts.

(** An appender writes to one table. *)
Class Writes {R} (t : Table) (append : list R → DB → DB) : Prop :=
  writes frame d t' :
    count_rows t' (append frame d)
    = count_rows t' d + (if decide (t' = t) then length frame else 0).

#[local] Instance append_drugs_writes : Writes T_drugs append_drugs.
Proof. intros frame d []; simpl; rewrite ?length_app; lia. Qed.
#[local] Instance append_side_effects_writes :
  Writes T_side_effects append_side_effects.
Proof. intros frame d []; simpl; rewrite ?length_app; lia. Qed.
#[local] Instance append_drug_side_effects_writes :
  Writes T_drug_side_effects append_drug_side_effects.
Proof. intros frame d []; simpl; rewrite ?length_app; lia. Qed.
#[local] Instance append_drug_targets_writes :
  Writes T_drug_targets append_drug_targets.
Proof. intros frame d []; simpl; rewrite ?length_app; lia. Qed.

Lemma rows_into_app t s1 s2 :
  rows_into t (s1 ++ s2) = rows_into t s1 + rows_into t s2.
Proof.
  unfold rows_into. by rewrite filter_app, sum_list_with_app.
Qed.

(** The statements of one table carry the rows of their batches, and none
    of another table. *)
Lemma rows_into_statements {R} t t' (batches : list (list R)) :
  rows_into t' (statement_of t <$> batches)
  = if decide (t' = t) then length (concat batches) else 0.
Proof.
  unfold rows_into. induction batches as [|b batches IH]; csimpl.
  - by destruct (decide (t' = t)).
  - destruct (decide (t' = t)) as [->|Hne].
    + rewrite filter_cons_True by done. csimpl.
      rewrite IH, length_app. done.
    + rewrite filter_cons_False by (simpl; congruence). exact IH.
Qed.

Section Bounded.
Context (bound : nat).
Abbreviation R := (inserts_bounded bound).

Lemma ib_same env env' :
  db env' = db env → journal env' = journal env → R env env'.
Proof.
  intros Hd Hj. exists []. rewrite Hd, Hj, app_nil_r. split_and!; [done| |].
  - by intros ? ?%elem_of_nil.
  - intros t. unfold rows_into. simpl. lia.
Qed.

Lemma ib_trans env env1 env2 : R env env1 → R env1 env2 → R env env2.
Proof.
  intros (n1 & H1 & Hok1 & Hc1) (n2 & H2 & Hok2 & Hc2).
  exists (n1 ++ n2). split_and!.
  - by rewrite H2, H1, app_assoc.
  - intros st [?|?]%elem_of_app; eauto.
  - intros t. rewrite Hc2, Hc1, rows_into_app. lia.
Qed.

(** One [to_sql] keeps the account. *)
Lemma ib_step {A} t (append : list A → DB → DB) `{!Writes t append}
    env d j o cs frame :
  page_size ≤ bound → cs ≠ Some 0 →
  R env (mkEnv d j o) →
  R env (mkEnv (append frame d)
               (j ++ (statement_of t <$> inserts cs frame)) o).
Proof.
  intros Hbound Hcs (new & Hj & Hok & Hc). simpl in Hj, Hc.
  exists (new ++ (statement_of t <$> inserts cs frame)). split_and!.
  - simpl. by rewrite Hj, app_assoc.
  - intros st [Hst|(ch & -> & Hch)%list_elem_of_fmap]%elem_of_app; [eauto|].
    apply inserts_bound in Hch. simpl. lia.
  - intros t'. simpl. rewrite writes, Hc, rows_into_app, rows_into_statements.
    rewrite inserts_concat by done. lia.
Qed.

Lemma ib_env env env1 env' :
  db env' = db env1 → journal env' = journal env1 → R env env1 → R env env'.
Proof.
  intros Hd Hj (new & Hnew & Hok & Hc). exists new. by rewrite Hd, Hj.
Qed.

(** Sequencing keeps the account. *)
Lemma ib_bind {A B} (m : M A) (k : A → M B) env :
  R env (m env).2 → (∀ a env1, R env1 (k a env1).2) →
  R env ((m ≫= k) env).2.
Proof.
  intros Hm Hk. rewrite bind_run.
  destruct (m env) as [[a|e] env1]; simpl in *; [|done].
  eapply ib_trans; [exact Hm|apply Hk].
Qed.
End Bounded.

Ltac ib_leaf :=
  simpl;
  repeat (eapply ib_step; [tc_solve|assumption|done|]);
  by apply ib_same.

Section Phases.
Context (bound : nat) (Hbound : page_size ≤ bound).

Lemma phase_1_bounded w env :
  inserts_bounded bound env (import_phase_1_names w env).2.
Proof.
  unfold import_phase_1_names, is_table_empty. run.
  case_bool_decide; run; [|ib_leaf].
  destruct (read_names w names_url); run; ib_leaf.
Qed.

Lemma phase_2_body_bounded df_mono env :
  inserts_bounded bound env (phase_2_body df_mono env).2.
Proof.
  unfold phase_2_body. destruct df_mono as [df|]; run; [|ib_leaf].
  destruct (column_at df 0) as [c0|]; run; [|ib_leaf].
  destruct (column_at df 1) as [c1|]; run; [|ib_leaf].
  destruct (column_at df 2) as [c2|]; run; [|ib_leaf].
  destruct (set_columns2 (drop_duplicates_subset _ _)) as [se_catalog|]; run;
    [|ib_leaf].
  destruct (set_columns2 (getitem_cols _ _)) as [drug_se|]; run; [|ib_leaf].
  case_bool_decide; run; ib_leaf.
Qed.

Lemma phase_2_bounded w env :
  inserts_bounded bound env (import_phase_2_mono w env).2.
Proof.
  unfold import_phase_2_mono, is_table_empty. run.
  case_bool_decide; run; [|ib_leaf].
  destruct (download_and_extract_gz w mono_url _) as [r env1] eqn:Hdl.
  apply download_env in Hdl as [Hdb Hj].
  destruct env1 as [d1 j1 o1]. simpl in Hdb, Hj. subst d1 j1.
  destruct r as [df_mono|e]; run; [|ib_leaf].
  unfold try_except.
  match goal with
  | |- context [phase_2_body df_mono ?e] =>
      pose proof (phase_2_body_bounded df_mono e) as Hbody;
      destruct (phase_2_body df_mono e) as [[[]|e'] env2]; simpl in *
  end.
  - eapply ib_env, ib_trans; [| | |exact Hbody]; [done|done|by apply ib_same].
  - eapply ib_env, ib_trans; [| | |exact Hbody]; [done|done|by apply ib_same].
Qed.

Lemma phase_3_bounded w env :
  inserts_bounded bound env (import_phase_3_combo w env).2.
Proof.
  unfold import_phase_3_combo. run.
  destruct (download_and_extract_gz w combo_url _) as [r env1] eqn:Hdl.
  apply download_env in Hdl as [Hdb Hj].
  destruct env1 as [d1 j1 o1]. simpl in Hdb, Hj. subst d1 j1.
  destruct r as [[df|]|e]; run; [|ib_leaf..].
  destruct (column_at df 0) as [c0|]; run; [|ib_leaf].
  destruct (column_at df 1) as [c1|]; run; [|ib_leaf].
  destruct (column_at df 2) as [c2|]; run; [|ib_leaf].
  destruct (column_at df 3) as [c3|]; run; [|ib_leaf].
  destruct (series_index c0 df) as [i1|]; run; [|ib_leaf].
  destruct (series_index c1 _) as [i2|]; run; [|ib_leaf].
  destruct (set_columns2 _) as [new_se|]; run; [|ib_leaf].
  case_bool_decide; run; ib_leaf.
Qed.

Lemma phase_4_bounded w env :
  inserts_bounded bound env (import_phase_4_targets w env).2.
Proof.
  unfold import_phase_4_targets. run.
  destruct (download_and_extract_gz w targets_url _) as [r env1] eqn:Hdl.
  apply download_env in Hdl as [Hdb Hj].
  destruct env1 as [d1 j1 o1]. simpl in Hdb, Hj. subst d1 j1.
  destruct r as [[df|]|e]; run; [|ib_leaf..].
  destruct (column_at df 0) as [c0|]; run; [|ib_leaf].
  destruct (column_at df 1) as [c1|]; run; [|ib_leaf].
  destruct (series_index c0 df) as [i|]; run; [|ib_leaf].
  destruct (set_columns2 _) as [pairs|]; run; ib_leaf.
Qed.
End Phases.

(** C8. Every INSERT statement the pipeline sends carries at least one and
    at most 1000 rows, in each phase and over the whole run, whatever the
    feeds hold and however the run ends; and the statements account for
    the tables: each table has grown by the number of rows the statements
    into it carry, so no row is written outside such a statement. *)
Theorem every_insert_is_bounded w env :
  inserts_bounded 1000 env (main w env).2 ∧
  inserts_bounded 1000 env (import_phase_1_names w env).2 ∧
  inserts_bounded 1000 env (import_phase_2_mono w env).2 ∧
  inserts_bounded 1000 env (import_phase_3_combo w env).2 ∧
  inserts_bounded 1000 env (import_phase_4_targets w env).2.
Proof.
  assert (page_size ≤ 1000) as Hb by done.
  split_and!; [|by apply phase_1_bounded|by apply phase_2_bounded
              |by apply phase_3_bounded|by apply phase_4_bounded].
  unfold main. apply ib_bind; [by apply phase_1_bounded|]. intros _ e1.
  apply ib_bind; [by apply phase_2_bounded|]. intros _ e2.
  apply ib_bind; [by apply phase_3_bounded|]. intros _ e3.
  by apply phase_4_bounded.
Qed.

(** A frame of 1001 rows written without a chunk size reaches the database
    as a statement of 1000 rows and one of a single row. *)
Example thousand_and_one_rows :
  journal (to_sql T_drugs append_drugs None
             (replicate 1001 (mkDrug "CID" "name")) (start empty_db)).2
  = [mkStatement T_drugs 1000; mkStatement T_drugs 1].
Proof. by vm_compute. Qed.

End ChunkFacts.

(** ** Where failures are caught *)

Module ErrorFacts.
Import PyStr Py Frame Store Etl ImportData Integrity Scenarios.
Import FrameFacts EtlFacts FetcherFacts Phase1Facts.
Local Open Scope list_scope.
Local Open Scope nat_scope.
#[local] Opaque to_sql.

Lemma column_at_short df i :
  length (columns df) ≤ i → column_at df i = Raise IndexError.
Proof.
  intros Hlen. unfold column_at. by rewrite lookup_ge_None_2.
Qed.

Lemma column_at_Ok df i :
  i < length (columns df) → ∃ c, column_at df i = Ok c.
Proof.
  intros Hlen. unfold column_at.
  destruct (lookup_lt_is_Some_2 (columns df) i Hlen) as [c ->]. by exists c.
Qed.

(** A fetch that fails leaves the fetcher as an exception. *)
Lemma download_raises w url env :
  (get w url = Unreachable →
   (download_and_extract_gz w url env).1 = Raise ConnectionError) ∧
  (get w url = NotAnArchive →
   (download_and_extract_gz w url env).1 = Raise ReadError).
Proof.
  unfold download_and_extract_gz. split; intros ->; by run.
Qed.

(** C5, as stated, fails: with the combination archive out of reach the
    orchestrator ends on the exception of Phase 3 and Phase 4 is never
    started. *)
Lemma unreachable_combo_ends_the_run :
  (main combo_down_world (start empty_db)).1 = Raise ConnectionError ∧
  Forall (λ m, m ≠ Phase4Header)
         (out (main combo_down_world (start empty_db)).2) ∧
  drug_targets (db (main combo_down_world (start empty_db)).2) = [].
Proof.
  split; [by vm_compute|]. split; [|by vm_compute].
  vm_compute. repeat constructor; discriminate.
Qed.

(** C5, amended. The one handler of the pipeline is around the processing
    block of Phase 2: once the fetcher has returned, Phase 2 returns
    normally, and whatever its block raised (the fetcher gave no table, the
    table has fewer than three columns) is printed; Phase 2 raises exactly
    when its fetch does. The orchestrator runs the four phases in sequence
    with no handler of its own, so it goes on after a phase exactly when
    the phase returns, and ends with the exception of the first phase that
    raises; the failures of Phases 1, 3 and 4 (feed or archive out of
    reach, body that is no archive, no table, too few columns) leave the
    phase as exceptions. *)
Theorem only_the_phase_2_block_is_guarded w env :
  (∀ df_mono env0,
     side_effects (db env) = [] →
     download_and_extract_gz w mono_url (after_print Phase2Header env)
       = (Ok df_mono, env0) →
     ∃ env',
       import_phase_2_mono w env = (Ok tt, env') ∧
       (∀ e env_b, phase_2_body df_mono env0 = (Raise e, env_b) →
                   env' = after_print (Phase2Error e) env_b) ∧
       (df_mono = None → env' = after_print (Phase2Error AttributeError) env0) ∧
       (∀ df, df_mono = Some df → length (columns df) < 3 →
              env' = after_print (Phase2Error IndexError) env0)) ∧
  (∀ e, (import_phase_2_mono w env).1 = Raise e ↔
        side_effects (db env) = [] ∧
        (download_and_extract_gz w mono_url
           (after_print Phase2Header env)).1 = Raise e) ∧
  main w env =
    match import_phase_1_names w env with
    | (Raise e, env1) => (Raise e, env1)
    | (Ok _, env1) =>
        match import_phase_2_mono w env1 with
        | (Raise e, env2) => (Raise e, env2)
        | (Ok _, env2) =>
            match import_phase_3_combo w env2 with
            | (Raise e, env3) => (Raise e, env3)
            | (Ok _, env3) => import_phase_4_targets w env3
            end
        end
    end ∧
  (∀ e, drugs (db env) = [] → read_names w names_url = Raise e →
        (import_phase_1_names w env).1 = Raise e) ∧
  (get w combo_url = Unreachable →
   (import_phase_3_combo w env).1 = Raise ConnectionError) ∧
  (get w combo_url = NotAnArchive →
   (import_phase_3_combo w env).1 = Raise ReadError) ∧
  (get w targets_url = Unreachable →
   (import_phase_4_targets w env).1 = Raise ConnectionError) ∧
  (get w targets_url = NotAnArchive →
   (import_phase_4_targets w env).1 = Raise ReadError) ∧
  (∀ df env0,
     download_and_extract_gz w combo_url (after_print Phase3Header env)
       = (Ok df, env0) →
     match df with
     | None => (import_phase_3_combo w env).1 = Raise AttributeError
     | Some d => length (columns d) < 4 →
                 (import_phase_3_combo w env).1 = Raise IndexError
     end) ∧
  (∀ df env0,
     download_and_extract_gz w targets_url (after_print Phase4Header env)
       = (Ok df, env0) →
     match df with
     | None => (import_phase_4_targets w env).1 = Raise AttributeError
     | Some d => length (columns d) < 2 →
                 (import_phase_4_targets w env).1 = Raise IndexError
     end).
Proof.
  assert (Hshort : ∀ df e0, length (columns df) < 3 →
                   phase_2_body (Some df) e0 = (Raise IndexError, e0)).
  { intros df e0 Hlen. unfold phase_2_body. run.
    destruct (decide (length (columns df) = 0)) as [H0|H0].
    { rewrite column_at_short by lia. by run. }
    destruct (column_at_Ok df 0) as [c0 ->]; [lia|]. run.
    destruct (decide (length (columns df) = 1)) as [H1|H1].
    { rewrite column_at_short by lia. by run. }
    destruct (column_at_Ok df 1) as [c1 ->]; [lia|]. run.
    rewrite column_at_short by lia. by run. }
  assert (Henter : side_effects (db env) = [] →
    import_phase_2_mono w env =
    (let r := download_and_extract_gz w mono_url
                (after_print Phase2Header env) in
     match r.1 with
     | Ok df_mono =>
         try_except (phase_2_body df_mono) (λ e, print (Phase2Error e)) r.2
     | Raise e => (Raise e, r.2)
     end)).
  { intros Hempty. unfold import_phase_2_mono, is_table_empty. run.
    rewrite Hempty. run. fold (after_print Phase2Header env).
    by destruct (download_and_extract_gz w mono_url _) as [[df|e] e0]. }
  split.
  { intros df_mono env0 Hempty Hdl. rewrite (Henter Hempty), Hdl.
    cbn [fst snd]. unfold try_except.
    destruct (phase_2_body df_mono env0) as [[[]|e] env_b] eqn:Hbody.
    - eexists. split; [reflexivity|]. split_and!.
      + intros e' env_b' Heq. by simplify_eq.
      + intros ->. by compute in Hbody.
      + intros df -> Hlen. rewrite Hshort in Hbody by done. by simplify_eq.
    - eexists. split; [reflexivity|]. split_and!.
      + intros e' env_b' Heq. by simplify_eq.
      + intros ->. compute in Hbody. by simplify_eq.
      + intros df -> Hlen. rewrite Hshort in Hbody by done. by simplify_eq. }
  split.
  { intros e. split.
    - intros Hraise.
      destruct (side_effects (db env)) as [|s ss] eqn:Hempty.
      + split; [done|]. rewrite Henter in Hraise by done.
        cbv zeta in Hraise.
        destruct (download_and_extract_gz w mono_url _) as [[df|e0] e1];
          cbn [fst snd] in *; [|by simplify_eq].
        unfold try_except in Hraise.
        by destruct (phase_2_body df e1) as [[[]|e'] env_b].
      + unfold import_phase_2_mono, is_table_empty in Hraise.
        revert Hraise. run. by rewrite Hempty.
    - intros [Hempty Hdl]. rewrite Henter by done. cbv zeta.
      destruct (download_and_extract_gz w mono_url _) as [[df|e0] e1];
        cbn [fst snd] in *; by simplify_eq. }
  split.
  { unfold main. rewrite bind_run.
    destruct (import_phase_1_names w env) as [[[]|e1] env1]; [|done].
    rewrite bind_run.
    destruct (import_phase_2_mono w env1) as [[[]|e2] env2]; [|done].
    rewrite bind_run.
    by destruct (import_phase_3_combo w env2) as [[[]|e3] env3]. }
  split.
  { intros e Hempty Hfeed. unfold import_phase_1_names, is_table_empty.
    run. rewrite Hempty. run. rewrite Hfeed. by run. }
  assert (Hfetch : ∀ url m (k : option DataFrame → M unit) x,
    (download_and_extract_gz w url (after_print m env)).1 = Raise x →
    ((print m ;; df ← download_and_extract_gz w url; k df) env).1 = Raise x).
  { intros url m k x Hdl. run. fold (after_print m env).
    destruct (download_and_extract_gz w url _) as [[df|e] env0]; simpl in *;
      by simplify_eq. }
  split; [intros Hget; apply Hfetch; by apply download_raises|].
  split; [intros Hget; apply Hfetch; by apply download_raises|].
  split; [intros Hget; apply Hfetch; by apply download_raises|].
  split; [intros Hget; apply Hfetch; by apply download_raises|].
  split.
  - intros df env0 Hdl. unfold import_phase_3_combo. run.
    fold (after_print Phase3Header env). rewrite Hdl.
    destruct df as [d|]; run; [|done]. intros Hlen.
    destruct (decide (length (columns d) = 0)) as [H0|H0].
    { rewrite column_at_short by lia. by run. }
    destruct (column_at_Ok d 0) as [c0 ->]; [lia|]. run.
    destruct (decide (length (columns d) = 1)) as [H1|H1].
    { rewrite column_at_short by lia. by run. }
    destruct (column_at_Ok d 1) as [c1 ->]; [lia|]. run.
    destruct (decide (length (columns d) = 2)) as [H2|H2].
    { rewrite column_at_short by lia. by run. }
    destruct (column_at_Ok d 2) as [c2 ->]; [lia|]. run.
    rewrite column_at_short by lia. by run.
  - intros df env0 Hdl. unfold import_phase_4_targets. run.
    fold (after_print Phase4Header env). rewrite Hdl.
    destruct df as [d|]; run; [|done]. intros Hlen.
    destruct (decide (length (columns d) = 0)) as [H0|H0].
    { rewrite column_at_short by lia. by run. }
    destruct (column_at_Ok d 0) as [c0 ->]; [lia|]. run.
    rewrite column_at_short by lia. by run.
Qed.

Lemma only_the_phase_2_block_is_guarded_witness :
  (import_phase_3_combo combo_down_world (start empty_db)).1
    = Raise ConnectionError ∧
  import_phase_2_mono short_mono_world (start empty_db) =
    (Ok tt,
     mkEnv empty_db []
       [Phase2Header; Downloading mono_url; Extracting "mono.csv";
        Phase2Error IndexError]) ∧
  import_phase_2_mono metadata_only_world (start empty_db) =
    (Ok tt,
     mkEnv empty_db []
       [Phase2Header; Downloading mono_url; NoValidDataFile;
        Phase2Error AttributeError]).
Proof.
  split_and!.
  - destruct (only_the_phase_2_block_is_guarded combo_down_world
                (start empty_db)) as (_ & _ & _ & _ & Hdown & _).
    apply Hdown. reflexivity.
  - destruct (only_the_phase_2_block_is_guarded short_mono_world
                (start empty_db)) as (Hcaught & _).
    destruct (Hcaught
                (Some (mkFrame ["STITCH"; "Side Effect Name"]
                         [["CID001"; "Headache"]]))
                (mkEnv empty_db []
                   [Phase2Header; Downloading mono_url;
                    Extracting "mono.csv"]) eq_refl eq_refl)
      as (env' & Hrun & _ & _ & Hshort).
    rewrite Hrun. f_equal. apply (Hshort _ eq_refl). simpl. lia.
  - destruct (only_the_phase_2_block_is_guarded metadata_only_world
                (start empty_db)) as (Hcaught & _).
    destruct (Hcaught None
                (mkEnv empty_db []
                   [Phase2Header; Downloading mono_url; NoValidDataFile])
                eq_refl eq_refl)
      as (env' & Hrun & _ & Hnone & _).
    rewrite Hrun. f_equal. by apply Hnone.
Defined.

End ErrorFacts.

(** ** The report endpoint and the display names *)

Module ApiFacts.
Import PyStr Py Frame Store Etl ImportData Scenarios Sql Api.
Import PyStrFacts FrameFacts EtlFacts Phase1Facts.
Local Open Scope list_scope.

(** A pattern that ends in a percent sign is never refused. *)
Lemma like_tokens_percent s :
  (∃ p, like_tokens (s +:+ "%") = Some p) ∧
  (∀ c, ∃ p, like_tokens (String c s +:+ "%") = Some p).
Proof.
  induction s as [|a r [IH1 IH2]].
  - split; [by eexists|]. intros c. simpl.
    destruct (Ascii.eqb c "\"); [by eexists|].
    destruct (Ascii.eqb c "%"); [by eexists|].
    destruct (Ascii.eqb c "_"); by eexists.
  - split; [apply IH2|]. intros c.
    change (String c (String a r) +:+ "%")
      with (String c (String a (r +:+ "%"))).
    cbn [like_tokens]. destruct IH1 as [p1 Hp1].
    destruct (IH2 a) as [p2 Hp2].
    change (String a r +:+ "%") with (String a (r +:+ "%")) in Hp2.
    destruct (Ascii.eqb c "\").
    { rewrite Hp1. by eexists. }
    cbn [like_tokens] in Hp2. rewrite Hp2.
    destruct (Ascii.eqb c "%"); [by eexists|].
    destruct (Ascii.eqb c "_"); by eexists.
Qed.

Lemma like_tokens_wrapped name :
  ∃ p, like_tokens ("%" +:+ name +:+ "%") = Some (AnyMany :: p) ∧
       like_tokens (name +:+ "%") = Some p.
Proof.
  destruct (like_tokens_percent name) as [[p Hp] _]. exists p.
  split; [|done].
  change ("%" +:+ name +:+ "%") with (String "%" (name +:+ "%")).
  cbn [like_tokens]. by rewrite Hp.
Qed.

Lemma like_tokens_plain name :
  plain name = true → like_tokens (name +:+ "%") = Some (lits name ++ [AnyMany]).
Proof.
  induction name as [|c r IH]; [done|]. simpl.
  intros [[[H1 H2]%andb_true_iff H3]%andb_true_iff H4]%andb_true_iff.
  apply negb_true_iff in H1, H2, H3.
  change (String c r +:+ "%") with (String c (r +:+ "%")).
  cbn [like_tokens]. rewrite H1, H2, H3, (IH H4). done.
Qed.

Lemma like_match_any t : like_match [AnyMany] t = true.
Proof. induction t as [|c t IH]; [done|]. simpl. exact IH. Qed.

Lemma like_match_lits name t :
  like_match (lits name ++ [AnyMany]) t = prefix_nocase name t.
Proof.
  revert t. induction name as [|c r IH]; intros t.
  - rewrite like_match_any. by destruct t.
  - destruct t as [|x t]; [done|]. simpl. by rewrite <- IH.
Qed.

Lemma like_match_contains name t :
  like_match (AnyMany :: lits name ++ [AnyMany]) t = contains_nocase t name.
Proof.
  induction t as [|x t IH].
  - simpl. rewrite like_match_lits. by rewrite orb_false_r.
  - simpl. rewrite like_match_lits. f_equal. exact IH.
Qed.

Lemma has_nul_app a b : has_nul (a +:+ b) = has_nul a || has_nul b.
Proof.
  induction a as [|c a IH]; [done|].
  change (String c a +:+ b) with (String c (a +:+ b)). simpl.
  by rewrite IH, orb_assoc.
Qed.

(** The percent signs around a name add no NUL. *)
Lemma has_nul_wrapped name : has_nul ("%" +:+ name +:+ "%") = has_nul name.
Proof.
  change ("%" +:+ name +:+ "%") with (String "%" (name +:+ "%")).
  simpl. rewrite has_nul_app. simpl. by rewrite orb_false_r.
Qed.

Lemma select_drug_nul name d :
  has_nul name = true →
  select_drug ("%" +:+ name +:+ "%") d = Raise ValueError.
Proof. intros Hn. unfold select_drug. by rewrite has_nul_wrapped, Hn. Qed.

Lemma select_drug_wrapped name d :
  has_nul name = false →
  ∃ p, like_tokens (name +:+ "%") = Some p ∧
       select_drug ("%" +:+ name +:+ "%") d =
       Ok (head (filter (λ x, report_matches (AnyMany :: p) x = true)
                        (drugs d))).
Proof.
  intros Hn. destruct (like_tokens_wrapped name) as (p & Hp & Hp'). exists p.
  split; [done|]. unfold select_drug. by rewrite has_nul_wrapped, Hn, Hp.
Qed.

Lemma head_filter_None {A} (P : A → Prop) `{∀ x, Decision (P x)} (l : list A) :
  head (filter P l) = None ↔ ∀ x, x ∈ l → ¬ P x.
Proof.
  induction l as [|a l IH]; [by split; [intros _ ? ?%elem_of_nil|]|].
  destruct (decide (P a)) as [Ha|Ha].
  - rewrite filter_cons_True by done. split; [done|].
    intros Hall. destruct (Hall a); [by left|done].
  - rewrite filter_cons_False by done. rewrite IH. split.
    + intros Hall x [->|Hx]%elem_of_cons; eauto.
    + intros Hall x Hx. apply Hall. by right.
Qed.

(** C10, as stated, fails: [a_pirin] is no part of [aspirin], yet the
    report is accepted and logged, the underscore standing for any one
    character in the pattern. *)
Lemma wildcard_report_is_accepted :
  (∀ x, x ∈ drugs aspirin_db →
        contains_nocase (trim_both_quote (common_name x)) "a_pirin" = false) ∧
  report_side_effect NoFault (mkReport "a_pirin" "rash") aspirin_db =
  (Success "success" "Report saved successfully.",
   append_user_logs [report_row (mkReport "a_pirin" "rash")] aspirin_db).
Proof.
  split; [|by vm_compute].
  intros x Hx. apply list_elem_of_singleton in Hx as ->. by vm_compute.
Qed.

(** C10, amended. A reported name that holds the NUL character makes the
    lookup query raise, outside the handler of the endpoint: the answer is
    the 500 of the framework and nothing is written. Any other name is
    matched against the stored names, quotes trimmed at both ends, as the
    ILIKE pattern made of the reported name between two percent signs, a
    pattern the database never refuses. When no row matches, the answer is
    404 and nothing is written; when a row matches and the database takes
    the insert, exactly one row is appended to [user_logs] and the answer
    is the success message; when the insert or the commit raises, the
    answer is 500 and the store is as before. For a reported name without
    percent sign, underscore and backslash the match is containment of the
    name in the trimmed stored name, letter case ignored as the database
    folds it. *)
Theorem report_side_effect_outcomes f report d :
  if has_nul (drug_name report) then
    report_side_effect f report d
    = (HTTPException 500 "Internal Server Error", d)
  else
  ∃ p,
    like_tokens ("%" +:+ drug_name report +:+ "%") = Some p ∧
    ((∀ x, x ∈ drugs d → report_matches p x = false) →
     report_side_effect f report d =
     (HTTPException 404
        ("Medication '" +:+ drug_name report +:+ "' not found."), d)) ∧
    ((∃ x, x ∈ drugs d ∧ report_matches p x = true) →
     (f = NoFault →
      report_side_effect f report d =
      (Success "success" "Report saved successfully.",
       append_user_logs [report_row report] d)) ∧
     (f ≠ NoFault →
      report_side_effect f report d =
      (HTTPException 500 "Internal database error.", d))) ∧
    (plain (drug_name report) = true →
     ∀ x, report_matches p x =
          contains_nocase (trim_both_quote (common_name x))
                          (drug_name report)).
Proof.
  destruct (has_nul (drug_name report)) eqn:Hnul.
  { unfold report_side_effect.
    change (("%" ++ drug_name report ++ "%")%string)
      with ("%" +:+ drug_name report +:+ "%").
    by rewrite select_drug_nul. }
  destruct (select_drug_wrapped (drug_name report) d Hnul) as (p & Hp & Hsel).
  exists (AnyMany :: p). split.
  { change ("%" +:+ drug_name report +:+ "%")
      with (String "%" (drug_name report +:+ "%")).
    cbn [like_tokens]. by rewrite Hp. }
  unfold report_side_effect.
  change (("%" ++ drug_name report ++ "%")%string)
    with ("%" +:+ drug_name report +:+ "%").
  rewrite Hsel. split; [|split].
  - intros Hnone.
    assert (head (filter (λ x, report_matches (AnyMany :: p) x = true)
                         (drugs d)) = None) as ->; [|done].
    apply head_filter_None. intros x Hx. rewrite (Hnone x Hx). discriminate.
  - intros (x & Hx & Hm).
    destruct (head _) as [drug|] eqn:Hhead.
    + split; [by intros ->|]. by destruct f.
    + pose proof (proj1 (head_filter_None _ _) Hhead x Hx) as Hn.
      by destruct Hn.
  - intros Hplain x. unfold report_matches.
    rewrite (like_tokens_plain _ Hplain) in Hp. injection Hp as <-.
    apply like_match_contains.
Qed.

Lemma report_side_effect_outcomes_witness :
  report_side_effect NoFault (mkReport "ASPIRIN" "rash") aspirin_db =
    (Success "success" "Report saved successfully.",
     append_user_logs [report_row (mkReport "ASPIRIN" "rash")] aspirin_db) ∧
  report_side_effect CommitRaises (mkReport "ASPIRIN" "rash") aspirin_db =
    (HTTPException 500 "Internal database error.", aspirin_db) ∧
  report_side_effect NoFault (mkReport "ibuprofen" "rash") aspirin_db =
    (HTTPException 404 "Medication 'ibuprofen' not found.", aspirin_db) ∧
  report_side_effect NoFault (mkReport (String "000" "") "rash") aspirin_db =
    (HTTPException 500 "Internal Server Error", aspirin_db) ∧
  report_side_effect NoFault (mkReport accented_upper "rash") accented_db =
    (Success "success" "Report saved successfully.",
     append_user_logs [report_row (mkReport accented_upper "rash")]
       accented_db).
Proof.
  split_and!.
  - pose proof (report_side_effect_outcomes NoFault
                  (mkReport "ASPIRIN" "rash") aspirin_db) as H.
    cbn [drug_name] in H. destruct H as (p & Hp & _ & Hfound & _).
    vm_compute in Hp. injection Hp as <-.
    apply Hfound; [|reflexivity].
    exists (mkDrug "CID001" "'aspirin'"). split; [left|reflexivity].
  - pose proof (report_side_effect_outcomes CommitRaises
                  (mkReport "ASPIRIN" "rash") aspirin_db) as H.
    cbn [drug_name] in H. destruct H as (p & Hp & _ & Hfound & _).
    vm_compute in Hp. injection Hp as <-.
    apply Hfound; [|discriminate].
    exists (mkDrug "CID001" "'aspirin'"). split; [left|reflexivity].
  - pose proof (report_side_effect_outcomes NoFault
                  (mkReport "ibuprofen" "rash") aspirin_db) as H.
    cbn [drug_name] in H. destruct H as (p & Hp & Hnone & _).
    vm_compute in Hp. injection Hp as <-.
    apply Hnone. intros x Hx.
    apply list_elem_of_singleton in Hx. rewrite Hx. reflexivity.
  - exact (report_side_effect_outcomes NoFault
             (mkReport (String "000" "") "rash") aspirin_db).
  - pose proof (report_side_effect_outcomes NoFault
                  (mkReport accented_upper "rash") accented_db) as H.
    cbn [drug_name] in H. destruct H as (p & Hp & _ & Hfound & _).
    vm_compute in Hp. injection Hp as <-.
    apply Hfound; [|reflexivity].
    exists (mkDrug "CID009" accented_lower). split; [left|reflexivity].
Defined.

Lemma response_same_when_trimmed_names_agree f report d d' :
  Forall2 (λ x y, trim_both_quote (common_name x)
                  = trim_both_quote (common_name y)) (drugs d) (drugs d') →
  (report_side_effect f report d).1 = (report_side_effect f report d').1.
Proof.
  intros Hagree. unfold report_side_effect.
  change (("%" ++ drug_name report ++ "%")%string)
    with ("%" +:+ drug_name report +:+ "%").
  destruct (has_nul (drug_name report)) eqn:Hnul.
  { by rewrite !select_drug_nul. }
  destruct (select_drug_wrapped (drug_name report) d Hnul) as (p & Hp & ->).
  destruct (select_drug_wrapped (drug_name report) d' Hnul)
    as (p' & Hp' & ->).
  rewrite Hp in Hp'. injection Hp' as <-.
  assert (Hhead :
    head (filter (λ x, report_matches (AnyMany :: p) x = true) (drugs d)) = None
    ↔ head (filter (λ x, report_matches (AnyMany :: p) x = true) (drugs d'))
      = None).
  { induction Hagree as [|x y l l' Hxy _ IH]; [done|].
    assert (report_matches (AnyMany :: p) x = report_matches (AnyMany :: p) y)
      as Hm by (unfold report_matches; by rewrite Hxy).
    destruct (report_matches (AnyMany :: p) y) eqn:Hy.
    - rewrite !filter_cons_True by done. done.
    - rewrite !filter_cons_False by (rewrite ?Hm, ?Hy; discriminate). done. }
  destruct (head (filter _ (drugs d))) as [x|] eqn:H1;
    destruct (head (filter _ (drugs d'))) as [y|] eqn:H2; try done.
  - by destruct f.
  - destruct Hhead as [_ Hh]. by specialize (Hh eq_refl).
  - destruct Hhead as [Hh _]. by specialize (Hh eq_refl).
Qed.

(** C9, as stated, fails: Phase 1 stores the display name as the feed
    gives it, quotes included. *)
Lemma quoted_name_is_stored_as_fetched :
  ¬ ∀ x, x ∈ drugs (db (import_phase_1_names quoted_world
                          (start empty_db)).2) →
         no_quote (common_name x) = true.
Proof.
  intros Hall. specialize (Hall (mkDrug "'CID001'" "'AspirinX'")).
  assert (no_quote "'AspirinX'" = true) as Hq
    by (apply Hall; vm_compute; left).
  discriminate Hq.
Qed.

(** C9, amended. Phase 1 stores each display name exactly as fetched; the
    quotes are taken off when the name is read: the report endpoint
    compares the stored name with the single quotes at its two ends
    trimmed, so its answer is the same for two stores whose names agree
    once trimmed, and the trimmed name is the stored name without the runs
    of quotes at its ends. *)
Theorem names_stored_raw_and_trimmed_on_read w env feed f report d d' s :
  (drugs (db env) = [] → read_names w names_url = Ok feed →
   ∀ x, x ∈ drugs (db (import_phase_1_names w env).2) ↔
        (stitch_id x, common_name x) ∈ drop_dups fst feed) ∧
  (∀ p x, report_matches p x = like_match p (trim_both_quote (common_name x))) ∧
  (Forall2 (λ x y, trim_both_quote (common_name x)
                   = trim_both_quote (common_name y)) (drugs d) (drugs d') →
   (report_side_effect f report d).1 = (report_side_effect f report d').1) ∧
  (∃ a b, s = (a +:+ trim_both_quote s +:+ b) ∧
          all_chars is_quote a = true ∧ all_chars is_quote b = true ∧
          head_clean is_quote (trim_both_quote s) = true ∧
          tail_clean is_quote (trim_both_quote s) = true).
Proof.
  split; [|split; [done|split]].
  - intros Hempty Hfeed x. rewrite (phase_1_run _ _ feed) by done.
    simpl. rewrite Hempty. simpl. rewrite list_elem_of_fmap. split.
    + intros (r & -> & Hr). by destruct r.
    + intros Hx. exists (stitch_id x, common_name x). split; [|done].
      by destruct x.
  - apply response_same_when_trimmed_names_agree.
  - apply trim_spec.
Qed.

Lemma names_stored_raw_and_trimmed_on_read_witness :
  mkDrug "'CID001'" "'AspirinX'"
    ∈ drugs (db (import_phase_1_names quoted_world (start empty_db)).2) ∧
  (report_side_effect NoFault (mkReport "aspirin" "rash") aspirin_db).1
  = (report_side_effect NoFault (mkReport "aspirin" "rash")
       (mkDB [mkDrug "CID001" "aspirin"] [] [] [] [])).1.
Proof.
  destruct (names_stored_raw_and_trimmed_on_read quoted_world
              (start empty_db) [("'CID001'", "'AspirinX'")] NoFault
              (mkReport "aspirin" "rash") aspirin_db
              (mkDB [mkDrug "CID001" "aspirin"] [] [] [] []) "'aspirin'")
    as (Hraw & _ & Hsame & _).
  split.
  - apply Hraw; [reflexivity|reflexivity|]. vm_compute. left.
  - apply Hsame. simpl. repeat constructor.
Defined.

(** The lookup of [get_drug_effects] compares the stored name as it is:
    a request for a quote finds the drug stored in quotes, which the
    report endpoint does not. *)
Example drug_effects_compares_raw_name :
  drug_effects_matches "'" (mkDrug "CID001" "'aspirin'") = Ok true ∧
  select_drug "%'%" aspirin_db = Ok None.
Proof. by vm_compute. Qed.

End ApiFacts.

(** ** Phase 3 on a well-formed combination feed *)

Module ComboFacts.
Import PyStr Py Frame Store Etl ImportData Integrity Scenarios ComboSpec.
Import FrameFacts EtlFacts FetcherFacts IntegrityFacts.
Local Open Scope list_scope.
Local Open Scope nat_scope.
#[local] Opaque to_sql.

Lemma filter_imap_absent name (cols : list string) k :
  name ∉ cols →
  filter (λ p : nat * string, p.2 = name) (imap (λ i x, (k + i, x)) cols) = [].
Proof.
  revert k. induction cols as [|c cols IH]; intros k Hnin; [done|].
  apply not_elem_of_cons in Hnin as [Hne Hnin]. rewrite imap_cons.
  rewrite filter_cons_False by (simpl; congruence).
  rewrite (imap_ext _ (λ i x, (S k + i, x)))
    by (intros; simpl; f_equal; lia).
  by apply IH.
Qed.

Lemma filter_imap_unique name (cols : list string) k i :
  NoDup cols → cols !! i = Some name →
  filter (λ p : nat * string, p.2 = name) (imap (λ i x, (k + i, x)) cols)
  = [(k + i, name)].
Proof.
  revert k i. induction cols as [|c cols IH]; intros k i Hnd Hi; [done|].
  apply NoDup_cons in Hnd as [Hnin Hnd]. rewrite imap_cons.
  rewrite (imap_ext _ (λ i x, (S k + i, x)))
    by (intros; simpl; f_equal; lia).
  destruct i as [|i]; simpl in Hi.
  - injection Hi as ->. rewrite filter_cons_True by done.
    by rewrite filter_imap_absent.
  - rewrite filter_cons_False.
    + rewrite (IH (S k) i) by done. do 2 f_equal. lia.
    + simpl. intros ->. apply Hnin. by eapply list_elem_of_lookup_2.
Qed.

(** In a header without repeated labels a label stands for its one
    position. *)
Lemma positions_unique name (cols : list string) i :
  NoDup cols → cols !! i = Some name → positions name cols = [i].
Proof.
  intros Hnd Hi. unfold positions.
  rewrite (imap_ext pair (λ i x, (0 + i, x))) by done.
  by rewrite (filter_imap_unique name cols 0 i).
Qed.

Lemma filter_fmap {A B} (f : A → B) (P : B → Prop) `{∀ y, Decision (P y)}
    (l : list A) :
  filter P (f <$> l) = f <$> filter (λ x, P (f x)) l.
Proof.
  induction l as [|a l IH]; [done|]. csimpl.
  destruct (decide (P (f a))).
  - rewrite !filter_cons_True by done. csimpl. by rewrite IH.
  - rewrite !filter_cons_False by done. done.
Qed.

Section Selection.
Context (cols : list string) (rs : list (list string)).
Context (a b : string) (i j : nat).
Hypothesis (Hnd : NoDup cols).
Hypothesis (Hi : cols !! i = Some a) (Hj : cols !! j = Some b).

Lemma getitem_cols_two :
  getitem_cols [a; b] (mkFrame cols rs)
  = mkFrame [a; b] ((λ r, [r !!! i; r !!! j]) <$> rs).
Proof.
  unfold getitem_cols. simpl.
  rewrite (positions_unique a cols i), (positions_unique b cols j) by done.
  simpl. unfold take_cells. simpl.
  by rewrite (list_lookup_total_correct cols i a),
             (list_lookup_total_correct cols j b).
Qed.

Lemma pairs_of_selection :
  as_pair <$> rows (getitem_cols [a; b] (mkFrame cols rs))
  = (λ r, (r !!! i, r !!! j)) <$> rs.
Proof.
  rewrite getitem_cols_two. simpl. rewrite <- list_fmap_compose.
  by apply list_fmap_ext.
Qed.

Lemma catalog_of_selection :
  i ≠ j →
  set_columns2 (drop_duplicates_subset [a] (getitem_cols [a; b] (mkFrame cols rs)))
  = Ok (drop_dups fst ((λ r, (r !!! i, r !!! j)) <$> rs)).
Proof.
  intros Hij. rewrite getitem_cols_two.
  assert (a ≠ b) as Hab.
  { intros ->. apply Hij. by eapply NoDup_lookup. }
  unfold drop_duplicates_subset, set_columns2. simpl.
  rewrite (positions_unique a [a; b] 0); [| |done].
  2:{ apply NoDup_cons. split; [|apply NoDup_singleton].
      by intros ?%list_elem_of_singleton. }
  simpl. f_equal.
  rewrite (drop_dups_fmap as_pair (take_cells [0]) fst).
  - f_equal. rewrite <- list_fmap_compose. by apply list_fmap_ext.
  - intros x y. unfold take_cells, as_pair. simpl. split; congruence.
Qed.
End Selection.

Lemma normalized_rows (feed : list combo_row) :
  alter normalize 1 <$> (alter normalize 0 <$> (row4 <$> feed))
  = row4 <$> (normalize_drugs <$> feed).
Proof.
  rewrite <- !list_fmap_compose. apply list_fmap_ext.
  by intros _ [[[x y] c] n] _.
Qed.

Lemma surviving_rows d (feed : list combo_row) :
  filter (λ r : list string,
            r !!! 0 ∈ existing_drugs_of d ∧ r !!! 1 ∈ existing_drugs_of d)
         (row4 <$> (normalize_drugs <$> feed))
  = row4 <$> combo_surviving d feed.
Proof. unfold combo_surviving. by rewrite filter_fmap. Qed.

Lemma filtered_frame d cols (feed : list combo_row) :
  filter_rows (λ r, r !!! 0 ∈ existing_drugs_of d ∧ r !!! 1 ∈ existing_drugs_of d)
    (alter_column 1 normalize
       (alter_column 0 normalize (mkFrame cols (row4 <$> feed))))
  = mkFrame cols (row4 <$> combo_surviving d feed).
Proof.
  unfold filter_rows, alter_column. simpl.
  by rewrite normalized_rows, surviving_rows.
Qed.

Lemma series_index_unique cols rs c i :
  NoDup cols → cols !! i = Some c → series_index c (mkFrame cols rs) = Ok i.
Proof.
  intros Hnd Hi. unfold series_index. simpl.
  by rewrite (positions_unique c cols i).
Qed.

Lemma column_at_lookup cols rs c i :
  cols !! i = Some c → column_at (mkFrame cols rs) i = Ok c.
Proof. intros Hi. unfold column_at. simpl. by rewrite Hi. Qed.

Lemma alter_column_frame i f cols rs :
  alter_column i f (mkFrame cols rs) = mkFrame cols (alter f i <$> rs).
Proof. done. Qed.

#[local] Opaque getitem_cols filter_rows alter_column drop_duplicates_subset
  set_columns2 series_index column_at.

(** Phase 3 on a fetched frame of four distinct columns: it returns, and
    the store afterwards is the store before with the new codes and the
    link rows of the specification appended. *)
Lemma phase_3_run w env df env0 (feed : list combo_row) c0 c1 c2 c3 :
  download_and_extract_gz w combo_url (after_print Phase3Header env)
    = (Ok (Some df), env0) →
  columns df = [c0; c1; c2; c3] → NoDup [c0; c1; c2; c3] →
  rows df = row4 <$> feed →
  ∃ env',
    import_phase_3_combo w env = (Ok tt, env') ∧
    db env' =
    append_drug_side_effects (combo_links (combo_surviving (db env) feed))
      (append_side_effects
         (combo_new_codes (db env) (combo_surviving (db env) feed)) (db env)).
Proof.
  intros Hdl Hcols Hnd Hrows.
  pose proof (download_env _ _ _ _ _ Hdl) as [Hdb _]. simpl in Hdb.
  destruct env0 as [d0 j0 o0]. simpl in Hdb. subst d0.
  destruct df as [cols rs]. simpl in Hcols, Hrows. subst cols rs.
  unfold import_phase_3_combo. run. fold (after_print Phase3Header env).
  rewrite Hdl. run.
  rewrite (column_at_lookup _ _ c0 0) by done. run.
  rewrite (column_at_lookup _ _ c1 1) by done. run.
  rewrite (column_at_lookup _ _ c2 2) by done. run.
  rewrite (column_at_lookup _ _ c3 3) by done. run.
  rewrite (series_index_unique _ _ c0 0) by done. run.
  rewrite alter_column_frame.
  rewrite (series_index_unique _ _ c1 1) by done. run.
  rewrite <- alter_column_frame, !filtered_frame.
  rewrite (catalog_of_selection [c0; c1; c2; c3] _ c2 c3 2 3) by done.
  rewrite (pairs_of_selection [c0; c1; c2; c3] _ c0 c2 0 2) by done.
  rewrite (pairs_of_selection [c0; c1; c2; c3] _ c1 c2 1 2) by done.
  rewrite <- !list_fmap_compose.
  assert (Hcat :
    filter (λ r : string * string,
              r.1 ∉ (list_to_set (se_code <$> side_effects (db env))
                       : gset string))
      (drop_dups fst
         ((λ r : list string, (r !!! 2, r !!! 3)) ∘ row4
            <$> combo_surviving (db env) feed))
    = filter (λ r, r.1 ∉ se_code <$> side_effects (db env))
        (drop_dups fst
           ((λ t, (code_of t, name_of t)) <$> combo_surviving (db env) feed))).
  { apply list_filter_iff. intros r. by rewrite elem_of_list_to_set. }
  run. rewrite Hcat. clear Hcat.
  case_bool_decide as Hnew; run.
  - eexists. split; [reflexivity|]. done.
  - eexists. split; [reflexivity|]. simpl.
    unfold combo_new_codes. rewrite Hnew.
    by rewrite (append_nil (append:=append_side_effects)).
Qed.

Lemma elem_of_drop_dups_id {A} `{EqDecision A} (l : list A) x :
  x ∈ drop_dups id l ↔ x ∈ l.
Proof.
  pose proof (drop_dups_keys id l x) as Hk. by rewrite !list_fmap_id in Hk.
Qed.

Lemma NoDup_drop_dups_id {A} `{EqDecision A} (l : list A) :
  NoDup (drop_dups id l).
Proof.
  pose proof (drop_dups_NoDup id l) as Hk. by rewrite list_fmap_id in Hk.
Qed.

Lemma elem_of_surviving d feed t :
  t ∈ combo_surviving d feed ↔
  ∃ r, r ∈ feed ∧ t = normalize_drugs r ∧
       known_to d (drug_a t) ∧ known_to d (drug_b t).
Proof.
  unfold combo_surviving.
  rewrite list_elem_of_filter, list_elem_of_fmap, !elem_of_existing_drugs.
  split.
  - intros ([Ha Hb] & r & -> & Hr). by exists r.
  - intros (r & Hr & -> & Ha & Hb). split; [done|]. by exists r.
Qed.

Lemma new_codes_spec d surviving :
  NoDup (se_code <$> combo_new_codes d surviving) ∧
  (∀ code, code ∈ se_code <$> combo_new_codes d surviving ↔
           code ∈ code_of <$> surviving ∧ code ∉ se_code <$> side_effects d) ∧
  (∀ e, e ∈ combo_new_codes d surviving →
        ∃ t, t ∈ surviving ∧ se_code e = code_of t ∧ se_name e = name_of t).
Proof.
  unfold combo_new_codes.
  set (L := (λ t, (code_of t, name_of t)) <$> surviving).
  assert (HL : fst <$> L = code_of <$> surviving).
  { unfold L. rewrite <- list_fmap_compose. by apply list_fmap_ext. }
  rewrite <- list_fmap_compose.
  change (se_code ∘ side_effect_of) with (@fst string string).
  split; [|split].
  - refine (sublist_NoDup _ _ (drop_dups_NoDup fst L) _).
    apply fmap_sublist, sublist_filter.
  - intros code. rewrite <- HL, <- (drop_dups_keys fst L). split.
    + intros (r & -> & [Hr Hin]%list_elem_of_filter)%list_elem_of_fmap.
      split; [by apply list_elem_of_fmap_2|done].
    + intros [(r & -> & Hin)%list_elem_of_fmap Hnew].
      apply list_elem_of_fmap_2, list_elem_of_filter. done.
  - intros e (r & -> & [_ Hin]%list_elem_of_filter)%list_elem_of_fmap.
    apply drop_dups_elem_of in Hin.
    apply list_elem_of_fmap in Hin as (t & -> & Ht). by exists t.
Qed.

Lemma links_spec surviving :
  NoDup (combo_links surviving) ∧
  (∀ l, l ∈ combo_links surviving ↔
        is_combo l = Some true ∧
        ∃ t, t ∈ surviving ∧ link_se_code l = code_of t ∧
             (drug_id l = drug_a t ∨ drug_id l = drug_b t)).
Proof.
  unfold combo_links. split.
  - apply NoDup_fmap_2; [|apply NoDup_drop_dups_id].
    intros [x1 y1] [x2 y2] Heq. by injection Heq as -> ->.
  - intros l. rewrite list_elem_of_fmap. split.
    + intros (r & -> & Hr). split; [done|].
      apply elem_of_drop_dups_id, elem_of_app in Hr as [Hr|Hr];
        apply list_elem_of_fmap in Hr as (t & -> & Ht); exists t; simpl; auto.
    + intros (Hcombo & t & Ht & Hcode & Hdrug).
      exists (drug_id l, link_se_code l). split.
      { destruct l as [x y z]. simpl in *. by subst z. }
      apply elem_of_drop_dups_id, elem_of_app. rewrite Hcode.
      destruct Hdrug as [->| ->]; [left|right].
      * by apply (list_elem_of_fmap_2 (λ t, (drug_a t, code_of t))).
      * by apply (list_elem_of_fmap_2 (λ t, (drug_b t, code_of t))).
Qed.

(** C4, as stated, fails: on a store that holds its two identifiers in
    quotes Phase 3 keeps the row of CID001 and CID002 and links both,
    although neither identifier, normalised or not, is in the [drugs]
    table. *)
Lemma phase_3_keeps_row_of_unstored_drugs :
  drug_side_effects
    (db (import_phase_3_combo scenario_world (start quoted_pair_db)).2)
    = [mkLink "CID001" "SE03" (Some true);
       mkLink "CID002" "SE03" (Some true)] ∧
  ¬ stored_in quoted_pair_db "CID001" ∧
  ¬ stored_in quoted_pair_db "CID002" ∧
  normalize "CID001" = "CID001" ∧ normalize "CID002" = "CID002".
Proof.
  split; [by vm_compute|].
  split_and!; [| |done..]; unfold stored_in; simpl; intros Hin;
    repeat (apply elem_of_cons in Hin as [Hin|Hin]; [discriminate Hin|]);
    by apply elem_of_nil in Hin.
Qed.

(** C4, amended. On a combination frame of four distinct columns Phase 3
    returns and appends, and appends only, this: the rows kept are the feed
    rows, both identifiers normalised, for which each of the two is the
    normalised form of an identifier stored in [drugs] (the stored
    identifiers are normalised for the comparison as the fetched ones are;
    they are the stored identifiers themselves only when the store holds
    them normalised); [side_effects] gains one entry for each code of a
    kept row that the catalog did not have, and no other; and
    [drug_side_effects] gains, flagged as combination, exactly the pairs
    (drug A, code) and (drug B, code) of the kept rows, each once, the drug
    identifier free of quotes and of whitespace at its ends. For a single
    row of CID001 and CID002, quoted or padded or plain, with SE03 and
    Rash, both drugs known and SE03 new, these are SE03 and the two links
    CID001/SE03 and CID002/SE03. *)
Theorem phase_3_links_both_drugs w env df env0 (feed : list combo_row)
    c0 c1 c2 c3 :
  download_and_extract_gz w combo_url (after_print Phase3Header env)
    = (Ok (Some df), env0) →
  columns df = [c0; c1; c2; c3] → NoDup [c0; c1; c2; c3] →
  rows df = row4 <$> feed →
  let surviving := combo_surviving (db env) feed in
  let new_codes := combo_new_codes (db env) surviving in
  let links := combo_links surviving in
  ∃ env',
    import_phase_3_combo w env = (Ok tt, env') ∧
    drugs (db env') = drugs (db env) ∧
    drug_targets (db env') = drug_targets (db env) ∧
    side_effects (db env') = side_effects (db env) ++ new_codes ∧
    drug_side_effects (db env') = drug_side_effects (db env) ++ links ∧
    (∀ t, t ∈ surviving ↔
          ∃ r, r ∈ feed ∧ t = normalize_drugs r ∧
               known_to (db env) (drug_a t) ∧ known_to (db env) (drug_b t)) ∧
    ((∀ x, x ∈ drugs (db env) → normalize (stitch_id x) = stitch_id x) →
     ∀ t, t ∈ surviving →
          stored_in (db env) (drug_a t) ∧ stored_in (db env) (drug_b t)) ∧
    NoDup (se_code <$> new_codes) ∧
    (∀ code, code ∈ se_code <$> new_codes ↔
             code ∈ code_of <$> surviving ∧
             code ∉ se_code <$> side_effects (db env)) ∧
    (∀ e, e ∈ new_codes →
          ∃ t, t ∈ surviving ∧ se_code e = code_of t ∧ se_name e = name_of t) ∧
    NoDup links ∧
    (∀ l, l ∈ links ↔
          is_combo l = Some true ∧
          ∃ t, t ∈ surviving ∧ link_se_code l = code_of t ∧
               (drug_id l = drug_a t ∨ drug_id l = drug_b t)) ∧
    (∀ l, l ∈ links →
          clean_id (drug_id l) = true ∧ known_to (db env) (drug_id l) ∧
          ∃ r, r ∈ feed ∧ link_se_code l = code_of r ∧
               (drug_id l = normalize (drug_a r) ∨
                drug_id l = normalize (drug_b r))) ∧
    (∀ a b, normalize a = "CID001" → normalize b = "CID002" →
     feed = [(a, b, "SE03", "Rash")] →
     known_to (db env) "CID001" → known_to (db env) "CID002" →
     "SE03" ∉ se_code <$> side_effects (db env) →
     new_codes = [mkSideEffect "SE03" "Rash"] ∧
     links = [mkLink "CID001" "SE03" (Some true);
              mkLink "CID002" "SE03" (Some true)]).
Proof.
  intros Hdl Hcols Hnd Hrows surviving new_codes links.
  destruct (phase_3_run _ _ _ _ _ _ _ _ _ Hdl Hcols Hnd Hrows)
    as (env' & Hrun & Hdb).
  exists env'. split; [exact Hrun|]. rewrite Hdb. simpl.
  destruct (new_codes_spec (db env) surviving) as (Hn1 & Hn2 & Hn3).
  destruct (links_spec surviving) as (Hl1 & Hl2).
  repeat (split; [done|]).
  split; [apply elem_of_surviving|].
  split.
  { intros Hnorm t (r & _ & _ & Ha & Hb)%elem_of_surviving.
    split; by apply known_is_stored. }
  repeat (split; [done|]).
  split.
  { intros l (_ & t & Ht & Hcode & Hid)%Hl2.
    apply elem_of_surviving in Ht as (r & Hr & -> & Ha & Hb).
    unfold normalize_drugs, drug_a, drug_b in *. simpl in *.
    destruct Hid as [->| ->].
    - split_and!; [apply PyStrFacts.normalize_clean|done|].
      exists r. split_and!; [done|done|by left].
    - split_and!; [apply PyStrFacts.normalize_clean|done|].
      exists r. split_and!; [done|done|by right]. }
  intros a b Hna Hnb -> Ha Hb Hnew.
  assert (surviving = [("CID001", "CID002", "SE03", "Rash")]) as Hs.
  { unfold surviving, combo_surviving. csimpl.
    unfold normalize_drugs, drug_a, drug_b, code_of, name_of. simpl.
    rewrite Hna, Hnb.
    apply elem_of_existing_drugs in Ha, Hb.
    by rewrite filter_cons_True. }
  unfold new_codes, links. rewrite Hs.
  unfold combo_new_codes, combo_links. simpl.
  rewrite filter_cons_True by done. by split.
Qed.

Lemma phase_3_links_both_drugs_witness :
  ∃ env',
    import_phase_3_combo quoted_combo_world (start after_phase_2_db)
      = (Ok tt, env') ∧
    side_effects (db env') =
      side_effects after_phase_2_db ++ [mkSideEffect "SE03" "Rash"] ∧
    drug_side_effects (db env') =
      drug_side_effects after_phase_2_db ++
      [mkLink "CID001" "SE03" (Some true); mkLink "CID002" "SE03" (Some true)].
Proof.
  destruct (phase_3_links_both_drugs quoted_combo_world
              (start after_phase_2_db)
              (strip_columns quoted_combo_frame)
              (mkEnv after_phase_2_db []
                 [Phase3Header; Downloading combo_url;
                  Extracting "combo.csv"])
              [("'CID001'", " CID002 ", "SE03", "Rash")]
              "STITCH 1" "STITCH 2" "Polypharmacy Side Effect"
              "Side Effect Name")
    as (env' & Hrun & _ & _ & Hse & Hlinks & _ & _ & _ & _ & _ & _ & _ & _
        & Hscen).
  - reflexivity.
  - reflexivity.
  - repeat (apply NoDup_cons; split;
            [rewrite ?elem_of_cons, elem_of_nil; intros Hd;
             repeat (destruct Hd as [Hd|Hd]; [discriminate Hd|]); exact Hd|]).
    apply NoDup_nil_2.
  - reflexivity.
  - destruct (Hscen "'CID001'" " CID002 ") as [Hc Hl].
    + reflexivity.
    + reflexivity.
    + reflexivity.
    + exists (mkDrug "CID001" "AspirinX"). split; [left|reflexivity].
    + exists (mkDrug "CID002" "Bcillin"). split; [right; left|reflexivity].
    + simpl. rewrite !elem_of_cons, elem_of_nil. intros Hd.
      repeat (destruct Hd as [Hd|Hd]; [discriminate Hd|]). exact Hd.
    + exists env'. split; [exact Hrun|]. rewrite Hse, Hlinks, Hc, Hl. done.
Defined.

End ComboFacts.

(** ** Column selection on any frame *)

Module SelectionFacts.
Import PyStr Py Frame Store Etl ImportData Integrity.
Import FrameFacts EtlFacts IntegrityFacts.
Local Open Scope list_scope.
Local Open Scope nat_scope.

Lemma column_at_Some df i c : column_at df i = Ok c ↔ columns df !! i = Some c.
Proof.
  unfold column_at. destruct (columns df !! i); split; intros H;
    by simplify_eq.
Qed.

Lemma length_take_cells idx r : length (take_cells idx r) = length idx.
Proof. unfold take_cells. by rewrite length_fmap. Qed.

Lemma columns_getitem_two a b df :
  columns (getitem_cols [a; b] df)
  = take_cells (positions a (columns df) ++ positions b (columns df))
               (columns df).
Proof. unfold getitem_cols. simpl. by rewrite app_nil_r. Qed.

(** A selection of two labels read from the header has two columns only
    when each label stands at one position. *)
Lemma two_columns_unique df a b i j :
  column_at df i = Ok a → column_at df j = Ok b →
  length (columns (getitem_cols [a; b] df)) = 2 →
  positions a (columns df) = [i] ∧ positions b (columns df) = [j].
Proof.
  intros Hi%column_at_Some Hj%column_at_Some.
  rewrite columns_getitem_two, length_take_cells, length_app.
  apply elem_of_positions in Hi, Hj.
  destruct (positions a (columns df)) as [|x [|x' pa]];
    destruct (positions b (columns df)) as [|y [|y' pb]];
    simpl; intros Hlen; try lia;
    try (by apply elem_of_nil in Hi); try (by apply elem_of_nil in Hj).
  apply list_elem_of_singleton in Hi, Hj. by subst.
Qed.

Lemma getitem_two_at df a b i j :
  positions a (columns df) = [i] → positions b (columns df) = [j] →
  getitem_cols [a; b] df
  = mkFrame [a; b] ((λ r, [r !!! i; r !!! j]) <$> rows df).
Proof.
  intros Ha Hb. unfold getitem_cols. simpl. rewrite Ha, Hb. simpl.
  assert (columns df !! i = Some a) as Hi
    by (apply elem_of_positions; rewrite Ha; left).
  assert (columns df !! j = Some b) as Hj
    by (apply elem_of_positions; rewrite Hb; left).
  unfold take_cells. simpl.
  by rewrite (list_lookup_total_correct _ i a),
             (list_lookup_total_correct _ j b).
Qed.

Lemma distinct_labels df a b i j :
  positions a (columns df) = [i] → positions b (columns df) = [j] →
  i ≠ j → a ≠ b.
Proof. intros Ha Hb Hij ->. rewrite Ha in Hb. by simplify_eq. Qed.

Lemma positions_first a b : a ≠ b → positions a [a; b] = [0].
Proof.
  intros Hab. unfold positions. simpl.
  rewrite filter_cons_True by done.
  rewrite filter_cons_False by (simpl; congruence). done.
Qed.

(** The catalog selection: when it goes through, it is the two cells of
    each row, the first row of each key kept. *)
Lemma catalog_selection df a b i j l :
  column_at df i = Ok a → column_at df j = Ok b → i ≠ j →
  set_columns2 (drop_duplicates_subset [a] (getitem_cols [a; b] df)) = Ok l →
  l = drop_dups fst ((λ r, (r !!! i, r !!! j)) <$> rows df).
Proof.
  intros Hi Hj Hij Hl.
  assert (length (columns (getitem_cols [a; b] df)) = 2) as Hlen.
  { unfold set_columns2 in Hl. case_bool_decide as H; [exact H|done]. }
  destruct (two_columns_unique df a b i j Hi Hj Hlen) as [Ha Hb].
  rewrite (getitem_two_at df a b i j Ha Hb) in Hl.
  unfold set_columns2, drop_duplicates_subset in Hl. simpl in Hl.
  rewrite positions_first in Hl by eauto using distinct_labels.
  simpl in Hl. injection Hl as <-.
  rewrite (drop_dups_fmap as_pair (take_cells [0]) fst).
  - f_equal. rewrite <- list_fmap_compose. by apply list_fmap_ext.
  - intros x y. unfold take_cells, as_pair. simpl. split; congruence.
Qed.

Lemma catalog_selection_NoDup df a b i j l :
  column_at df i = Ok a → column_at df j = Ok b → i ≠ j →
  set_columns2 (drop_duplicates_subset [a] (getitem_cols [a; b] df)) = Ok l →
  NoDup (fst <$> l).
Proof.
  intros Hi Hj Hij Hl. rewrite (catalog_selection _ _ _ _ _ _ Hi Hj Hij Hl).
  apply drop_dups_NoDup.
Qed.

Lemma catalog_selection_at df a b i j :
  positions a (columns df) = [i] → positions b (columns df) = [j] → i ≠ j →
  set_columns2 (drop_duplicates_subset [a] (getitem_cols [a; b] df))
  = Ok (drop_dups fst ((λ r, (r !!! i, r !!! j)) <$> rows df)).
Proof.
  intros Ha Hb Hij. rewrite (getitem_two_at df a b i j Ha Hb).
  unfold set_columns2, drop_duplicates_subset. simpl.
  rewrite positions_first by eauto using distinct_labels. simpl. f_equal.
  rewrite (drop_dups_fmap as_pair (take_cells [0]) fst).
  - f_equal. rewrite <- list_fmap_compose. by apply list_fmap_ext.
  - intros x y. unfold take_cells, as_pair. simpl. split; congruence.
Qed.

Lemma pairs_selection_at df a b i j :
  positions a (columns df) = [i] → positions b (columns df) = [j] →
  set_columns2 (getitem_cols [a; b] df)
  = Ok ((λ r, (r !!! i, r !!! j)) <$> rows df).
Proof.
  intros Ha Hb. rewrite (getitem_two_at df a b i j Ha Hb).
  unfold set_columns2. simpl. f_equal.
  rewrite <- list_fmap_compose. by apply list_fmap_ext.
Qed.

(** A label that stands at two positions makes the selection too wide for
    the assignment of two names. *)
Lemma repeated_label_selection df a b i j k :
  column_at df i = Ok a → column_at df j = Ok b →
  columns df !! k = Some a → k ≠ i →
  set_columns2 (getitem_cols [a; b] df) = Raise ValueError.
Proof.
  intros Hi Hj Hk Hki. unfold set_columns2.
  case_bool_decide as Hlen; [|done].
  destruct (two_columns_unique df a b i j Hi Hj Hlen) as [Ha _].
  apply elem_of_positions in Hk. rewrite Ha in Hk.
  by apply list_elem_of_singleton in Hk.
Qed.

End SelectionFacts.

(** ** Phase 2 on a fetched monotherapy frame *)

Module Phase2Facts.
Import PyStr Py Frame Store Etl ImportData Integrity PipelineSpec Scenarios.
Import FrameFacts EtlFacts FetcherFacts IntegrityFacts ComboFacts SelectionFacts.
Local Open Scope list_scope.
Local Open Scope nat_scope.
#[local] Opaque to_sql.
#[local] Opaque getitem_cols drop_duplicates_subset set_columns2 column_at.

(** The block of Phase 2 when the labels of the code and name columns
    stand at one position each: the catalog is written, and then either
    the links (the label of the drug column is unique too) or nothing (it
    is repeated, and the block ends on ValueError). *)
Lemma phase_2_body_run df env c0 c1 c2 :
  column_at df 0 = Ok c0 → column_at df 1 = Ok c1 → column_at df 2 = Ok c2 →
  positions c1 (columns df) = [1] → positions c2 (columns df) = [2] →
  (positions c0 (columns df) = [0] →
   ∃ o,
     phase_2_body (Some df) env =
     (Ok tt,
      mkEnv (append_drug_side_effects (mono_links (db env) (rows df))
               (append_side_effects (mono_catalog (rows df)) (db env)))
            (journal env ++
             (statement_of T_side_effects
                <$> inserts None (mono_catalog (rows df))) ++
             (statement_of T_drug_side_effects
                <$> inserts (Some 1000) (mono_links (db env) (rows df))))
            o)) ∧
  (∀ k, columns df !! k = Some c0 → k ≠ 0 →
   phase_2_body (Some df) env =
   (Raise ValueError,
    mkEnv (append_side_effects (mono_catalog (rows df)) (db env))
          (journal env ++
           (statement_of T_side_effects
              <$> inserts None (mono_catalog (rows df))))
          (out env ++ [Phase2Catalog (length (mono_catalog (rows df)))]))).
Proof.
  intros H0 H1 H2 Hp1 Hp2.
  split.
  - intros Hp0. unfold phase_2_body. run. rewrite H0. run. rewrite H1. run.
    rewrite H2. run.
    rewrite (catalog_selection_at df c1 c2 1 2) by done. run.
    rewrite (pairs_selection_at df c0 c1 0 1) by done. run.
    fold (mono_catalog (rows df)).
    change (link_of None <$> filter _ _) with (mono_links (db env) (rows df)).
    case_bool_decide as Hlen; run.
    + eexists. by rewrite <- app_assoc.
    + assert (mono_links (db env) (rows df) = []) as Hnil.
      { unfold mono_links. destruct (filter _ _); [done|]. simpl in Hlen. lia. }
      rewrite Hnil. simpl. rewrite app_nil_r.
      rewrite (append_nil (append:=append_drug_side_effects)). by eexists.
  - intros k Hk Hk0. unfold phase_2_body. run. rewrite H0. run. rewrite H1.
    run. rewrite H2. run.
    rewrite (catalog_selection_at df c1 c2 1 2) by done. run.
    rewrite (repeated_label_selection df c0 c1 0 1 k) by done. run.
    unfold mono_catalog, after_print. simpl. by rewrite length_fmap.
Qed.

Lemma positions_cons (c x : string) cols :
  positions c (x :: cols) =
  (if decide (x = c) then [0] else []) ++ (S <$> positions c cols).
Proof.
  unfold positions. rewrite imap_cons, filter_cons. simpl.
  assert (fst <$> filter (λ p : nat * string, p.2 = c) (imap (pair ∘ S) cols)
          = S <$> (fst <$> filter (λ p : nat * string, p.2 = c)
                                  (imap pair cols))) as E.
  { assert (imap (pair ∘ S) cols = prod_map S id <$> imap pair cols) as ->.
    { rewrite fmap_imap. by apply imap_ext. }
    rewrite (filter_fmap (prod_map S id)), <- !list_fmap_compose.
    rewrite (list_filter_iff (λ x : nat * string, (prod_map S id x).2 = c)
                             (λ p : nat * string, p.2 = c)) by done.
    by apply list_fmap_ext. }
  case_decide; csimpl; by rewrite E.
Qed.

Lemma positions_absent (c : string) cols : c ∉ cols → positions c cols = [].
Proof.
  intros Hnin. unfold positions.
  rewrite (imap_ext pair (λ i x, (0 + i, x))) by done.
  by rewrite filter_imap_absent.
Qed.

(** The positions of a label that does not occur after the first three. *)
Lemma positions_of_three (c c0 c1 c2 : string) rest :
  c ∉ rest →
  positions c (c0 :: c1 :: c2 :: rest) =
  (if decide (c0 = c) then [0] else []) ++
  (if decide (c1 = c) then [1] else []) ++
  (if decide (c2 = c) then [2] else []).
Proof.
  intros Hrest. rewrite !positions_cons, positions_absent by done.
  repeat case_decide; done.
Qed.

(** Phase 2 past its gate and its fetch. *)
Lemma phase_2_enter w env df env0 :
  side_effects (db env) = [] →
  download_and_extract_gz w mono_url (after_print Phase2Header env)
    = (Ok df, env0) →
  import_phase_2_mono w env =
  try_except (phase_2_body df) (λ e, print (Phase2Error e)) env0 ∧
  db env0 = db env ∧ journal env0 = journal env.
Proof.
  intros Hempty Hdl. split; [|by apply download_env in Hdl].
  unfold import_phase_2_mono, is_table_empty. run. rewrite Hempty. run.
  fold (after_print Phase2Header env). by rewrite Hdl.
Qed.

Lemma elem_of_mono_links d rs l :
  l ∈ mono_links d rs ↔
  is_combo l = None ∧ known_to d (drug_id l) ∧
  ∃ r, r ∈ rs ∧ drug_id l = normalize (r !!! 0) ∧ link_se_code l = r !!! 1.
Proof.
  unfold mono_links. rewrite list_elem_of_fmap. split.
  - intros (p & -> & [Hk Hp]%list_elem_of_filter).
    apply list_elem_of_fmap in Hp as (q & -> & Hq).
    apply list_elem_of_fmap in Hq as (r & -> & Hr).
    split; [done|]. split; [|by exists r].
    apply list_elem_of_fmap in Hk as (x & Hx & Hin). by exists x.
  - intros (Hc & (x & Hx & Hid) & r & Hr & Hd & Hcode).
    exists (drug_id l, link_se_code l). split.
    { destruct l as [a b c]. simpl in *. by subst c. }
    apply list_elem_of_filter. split.
    + simpl. rewrite Hid.
      by apply (list_elem_of_fmap_2 (λ x, normalize (stitch_id x))).
    + rewrite Hd, Hcode.
      apply (list_elem_of_fmap_2' normalize_id _ (r !!! 0, r !!! 1));
        [|done].
      by apply (list_elem_of_fmap_2 (λ r, (r !!! 0, r !!! 1))).
Qed.

Lemma length_mono_links d rs :
  length (mono_links d rs) =
  length (filter (λ r : list string,
                    normalize (r !!! 0)
                      ∈ (λ x, normalize (stitch_id x)) <$> drugs d) rs).
Proof.
  unfold mono_links. rewrite length_fmap, <- list_fmap_compose.
  rewrite (filter_fmap _ _ rs). by rewrite length_fmap.
Qed.

Lemma mono_catalog_codes rs :
  NoDup (se_code <$> mono_catalog rs) ∧
  ∀ code, code ∈ se_code <$> mono_catalog rs ↔ ∃ r, r ∈ rs ∧ r !!! 1 = code.
Proof.
  unfold mono_catalog. rewrite <- list_fmap_compose.
  change (se_code ∘ side_effect_of) with (@fst string string). split.
  - apply drop_dups_NoDup.
  - intros code. rewrite drop_dups_keys, <- list_fmap_compose.
    rewrite list_elem_of_fmap. split; intros (r & ? & ?); by exists r.
Qed.

(** X1. Past its gate, on a fetched frame whose first three labels are
    distinct from every other label, Phase 2 returns; [side_effects] is
    then the catalog of the frame, one entry per code, carrying the name of
    the first row with that code; and [drug_side_effects] gains one link
    without combination flag for every row whose normalised drug
    identifier is known, in feed order, repeated rows giving repeated
    links. *)
Theorem phase_2_builds_catalog_and_links w env df env0 c0 c1 c2 rest :
  side_effects (db env) = [] →
  download_and_extract_gz w mono_url (after_print Phase2Header env)
    = (Ok (Some df), env0) →
  columns df = c0 :: c1 :: c2 :: rest → NoDup (columns df) →
  ∃ env',
    import_phase_2_mono w env = (Ok tt, env') ∧
    drugs (db env') = drugs (db env) ∧
    drug_targets (db env') = drug_targets (db env) ∧
    side_effects (db env') = mono_catalog (rows df) ∧
    drug_side_effects (db env')
      = drug_side_effects (db env) ++ mono_links (db env) (rows df) ∧
    NoDup (se_code <$> side_effects (db env')) ∧
    (∀ code, code ∈ se_code <$> side_effects (db env') ↔
             ∃ r, r ∈ rows df ∧ r !!! 1 = code) ∧
    (∀ e, e ∈ side_effects (db env') ↔
          ∃ before r after,
            rows df = before ++ r :: after ∧
            e = mkSideEffect (r !!! 1) (r !!! 2) ∧
            ∀ r', r' ∈ before → r' !!! 1 ≠ r !!! 1) ∧
    (∀ l, l ∈ mono_links (db env) (rows df) ↔
          is_combo l = None ∧ known_to (db env) (drug_id l) ∧
          ∃ r, r ∈ rows df ∧ drug_id l = normalize (r !!! 0) ∧
               link_se_code l = r !!! 1) ∧
    length (mono_links (db env) (rows df)) =
    length (filter (λ r : list string,
                      normalize (r !!! 0)
                        ∈ (λ x, normalize (stitch_id x)) <$> drugs (db env))
                   (rows df)).
Proof.
  intros Hempty Hdl Hcols Hnd.
  destruct (phase_2_enter _ _ _ _ Hempty Hdl) as (Hrun & Hdb & Hj).
  assert (Hl : ∀ i c, (c0 :: c1 :: c2 :: rest) !! i = Some c →
                      columns df !! i = Some c) by (by rewrite Hcols).
  destruct (phase_2_body_run df env0 c0 c1 c2) as [Hok _];
    try (apply column_at_Some, Hl; done);
    try (apply positions_unique; [done|by apply Hl]).
  destruct Hok as [o Hbody]; [apply positions_unique; [done|by apply Hl]|].
  eexists. split.
  { rewrite Hrun. unfold try_except. by rewrite Hbody. }
  simpl. rewrite Hdb, Hempty. simpl.
  destruct (mono_catalog_codes (rows df)) as [Hnd' Hcodes].
  repeat (split; [done|]).
  split; [|split; [apply elem_of_mono_links|apply length_mono_links]].
  intros e. unfold mono_catalog. rewrite list_elem_of_fmap. split.
  - intros (p & -> & Hp). apply drop_dups_first in Hp as (l1 & l2 & Heq & Hnin).
    apply fmap_app_inv in Heq as (before & rest' & -> & Hrest & ->).
    destruct rest' as [|r after]; [done|]. csimpl in Hrest.
    injection Hrest as -> ->. exists before, r, after.
    split; [done|]. split; [done|]. intros r' Hr' Heq. apply Hnin.
    rewrite <- list_fmap_compose. simpl. rewrite <- Heq.
    by apply (list_elem_of_fmap_2 (λ r, r !!! 1)).
  - intros (before & r & after & Hrows & -> & Hfirst).
    exists (r !!! 1, r !!! 2). split; [done|].
    apply drop_dups_first.
    exists ((λ r, (r !!! 1, r !!! 2)) <$> before),
           ((λ r, (r !!! 1, r !!! 2)) <$> after).
    split; [by rewrite Hrows, fmap_app|].
    rewrite <- list_fmap_compose. simpl.
    intros (r' & Heq & Hr')%list_elem_of_fmap. by apply (Hfirst r').
Qed.

Lemma phase_2_builds_catalog_and_links_witness :
  ∃ env',
    import_phase_2_mono scenario_world (start two_drugs_db) = (Ok tt, env') ∧
    side_effects (db env') =
      [mkSideEffect "SE01" "Headache"; mkSideEffect "SE02" "Nausea"] ∧
    drug_side_effects (db env') =
      [mkLink "CID001" "SE01" None; mkLink "CID002" "SE02" None].
Proof.
  destruct (phase_2_builds_catalog_and_links scenario_world
              (start two_drugs_db) scenario_2_frame
              (mkEnv two_drugs_db []
                 [Phase2Header; Downloading mono_url; Extracting "mono.csv"])
              "STITCH" "Individual Side Effect" "Side Effect Name" [])
    as (env' & Hrun & _ & _ & Hse & Hlinks & _).
  - reflexivity.
  - reflexivity.
  - reflexivity.
  - simpl. repeat (apply NoDup_cons; split;
            [rewrite ?elem_of_cons, elem_of_nil; intros Hd;
             repeat (destruct Hd as [Hd|Hd]; [discriminate Hd|]); exact Hd|]).
    apply NoDup_nil_2.
  - exists env'. split; [exact Hrun|]. rewrite Hse, Hlinks. split; reflexivity.
Defined.

(** X2. When Phase 2 runs while no drug of the feed is known (the [drugs]
    table is still empty, say), it writes the catalog, in statements into
    [side_effects] of at most 1000 rows each, and no link; the catalog
    being there, every later run of Phase 2 is
    skipped, whatever has been added to [drugs] in between, so the links of
    the monotherapy feed are never written. *)
Theorem phase_2_without_known_drug_closes_its_gate w env df env0
    c0 c1 c2 rest :
  side_effects (db env) = [] →
  download_and_extract_gz w mono_url (after_print Phase2Header env)
    = (Ok (Some df), env0) →
  columns df = c0 :: c1 :: c2 :: rest → NoDup (columns df) →
  rows df ≠ [] →
  (∀ r, r ∈ rows df → ¬ known_to (db env) (normalize (r !!! 0))) →
  ∃ env',
    import_phase_2_mono w env = (Ok tt, env') ∧
    side_effects (db env') = mono_catalog (rows df) ∧
    side_effects (db env') ≠ [] ∧
    drug_side_effects (db env') = drug_side_effects (db env) ∧
    (∃ new, journal env' = journal env ++ new ∧ new ≠ [] ∧
            (∀ st, st ∈ new → into st = T_side_effects ∧ 1 ≤ nrows st ≤ 1000) ∧
            sum_list_with nrows new = length (side_effects (db env'))) ∧
    ∀ w' env'',
      side_effects (db env'') = side_effects (db env') →
      import_phase_2_mono w' env'' = (Ok tt, after_print Phase2Skipped env'').
Proof.
  intros Hempty Hdl Hcols Hnd Hrows Hunknown.
  destruct (phase_2_enter _ _ _ _ Hempty Hdl) as (Hrun & Hdb & Hj).
  assert (Hl : ∀ i c, (c0 :: c1 :: c2 :: rest) !! i = Some c →
                      columns df !! i = Some c) by (by rewrite Hcols).
  destruct (phase_2_body_run df env0 c0 c1 c2) as [Hok _];
    try (apply column_at_Some, Hl; done);
    try (apply positions_unique; [done|by apply Hl]).
  destruct Hok as [o Hbody]; [apply positions_unique; [done|by apply Hl]|].
  assert (mono_links (db env) (rows df) = []) as Hnone.
  { apply elem_of_nil_inv. intros l (_ & Hk & r & Hr & Hid & _)%elem_of_mono_links.
    apply (Hunknown r Hr). by rewrite <- Hid. }
  assert (mono_catalog (rows df) ≠ []) as Hcat.
  { unfold mono_catalog. destruct (rows df); [done|]. simpl. discriminate. }
  eexists. split.
  { rewrite Hrun. unfold try_except. by rewrite Hbody. }
  simpl. rewrite Hdb, Hj, Hempty, Hnone. simpl.
  rewrite ?inserts_nil. simpl. rewrite ?app_nil_r.
  repeat (split; [done|]).
  destruct (statements_of_frame T_side_effects None (mono_catalog (rows df)))
    as [Hst Hsum]; [done|].
  split.
  { eexists. split; [done|]. split; [|by split].
    intros Hnil. rewrite Hnil in Hsum. simpl in Hsum.
    by destruct (mono_catalog (rows df)). }
  intros w' env'' Hsame. unfold import_phase_2_mono, is_table_empty. run.
  rewrite Hsame. simpl. by destruct (mono_catalog (rows df)).
Qed.

Lemma phase_2_without_known_drug_closes_its_gate_witness :
  ∃ env',
    import_phase_2_mono scenario_world (start empty_db) = (Ok tt, env') ∧
    drug_side_effects (db env') = [] ∧
    import_phase_2_mono scenario_world
      (mkEnv (append_drugs (drugs two_drugs_db) (db env')) (journal env')
             (out env'))
    = (Ok tt,
       after_print Phase2Skipped
         (mkEnv (append_drugs (drugs two_drugs_db) (db env')) (journal env')
                (out env'))).
Proof.
  destruct (phase_2_without_known_drug_closes_its_gate scenario_world
              (start empty_db) scenario_2_frame
              (mkEnv empty_db []
                 [Phase2Header; Downloading mono_url; Extracting "mono.csv"])
              "STITCH" "Individual Side Effect" "Side Effect Name" [])
    as (env' & Hrun & _ & _ & Hlinks & _ & Hskip).
  - reflexivity.
  - reflexivity.
  - reflexivity.
  - simpl. repeat (apply NoDup_cons; split;
            [rewrite ?elem_of_cons, elem_of_nil; intros Hd;
             repeat (destruct Hd as [Hd|Hd]; [discriminate Hd|]); exact Hd|]).
    apply NoDup_nil_2.
  - discriminate.
  - intros r _ (x & Hx & _). simpl in Hx. by apply elem_of_nil in Hx.
  - exists env'. split; [exact Hrun|]. split; [exact Hlinks|].
    apply Hskip. reflexivity.
Defined.

(** X3. When the label of the drug column also stands on a later column,
    the catalog is written first and stays written, the selection of the
    link columns then fails, the failure is printed and Phase 2 returns
    normally without a link. *)
Theorem phase_2_keeps_catalog_when_links_fail w env df env0 c0 c1 c2 rest :
  side_effects (db env) = [] →
  download_and_extract_gz w mono_url (after_print Phase2Header env)
    = (Ok (Some df), env0) →
  columns df = c0 :: c1 :: c2 :: rest →
  c0 ∈ rest → c1 ∉ c0 :: c2 :: rest → c2 ∉ c0 :: c1 :: rest →
  ∃ env',
    import_phase_2_mono w env = (Ok tt, env') ∧
    side_effects (db env') = mono_catalog (rows df) ∧
    drug_side_effects (db env') = drug_side_effects (db env) ∧
    out env' =
      out env0 ++ [Phase2Catalog (length (mono_catalog (rows df)));
                   Phase2Error ValueError].
Proof.
  intros Hempty Hdl Hcols Hc0 Hc1 Hc2.
  destruct (phase_2_enter _ _ _ _ Hempty Hdl) as (Hrun & Hdb & Hj).
  apply not_elem_of_cons in Hc1 as [H10 [H12 Hr1]%not_elem_of_cons].
  apply not_elem_of_cons in Hc2 as [H20 [H21 Hr2]%not_elem_of_cons].
  apply list_elem_of_lookup in Hc0 as [k Hk].
  destruct (phase_2_body_run df env0 c0 c1 c2) as [_ Hfail];
    rewrite ?column_at_Some, ?Hcols; try done.
  { rewrite positions_of_three by done. by repeat case_decide. }
  { rewrite positions_of_three by done. by repeat case_decide. }
  specialize (Hfail (3 + k)). rewrite Hcols in Hfail. simpl in Hfail.
  specialize (Hfail Hk). rewrite Hrun. unfold try_except.
  rewrite Hfail by done. run. eexists. split; [reflexivity|]. simpl.
  rewrite Hdb, Hempty. simpl. by rewrite <- app_assoc.
Qed.

Lemma phase_2_keeps_catalog_when_links_fail_witness :
  ∃ env',
    import_phase_2_mono repeated_label_world (start two_drugs_db)
      = (Ok tt, env') ∧
    side_effects (db env') = [mkSideEffect "SE01" "Headache"] ∧
    drug_side_effects (db env') = [].
Proof.
  destruct (phase_2_keeps_catalog_when_links_fail repeated_label_world
              (start two_drugs_db)
              (mkFrame ["STITCH"; "Individual Side Effect"; "Side Effect Name";
                        "STITCH"]
                 [["CID001"; "SE01"; "Headache"; "CID001"]])
              (mkEnv two_drugs_db []
                 [Phase2Header; Downloading mono_url; Extracting "mono.csv"])
              "STITCH" "Individual Side Effect" "Side Effect Name" ["STITCH"])
    as (env' & Hrun & Hse & Hlinks & _).
  - reflexivity.
  - reflexivity.
  - reflexivity.
  - left.
  - rewrite !elem_of_cons, elem_of_nil. intros Hd.
    repeat (destruct Hd as [Hd|Hd]; [discriminate Hd|]). exact Hd.
  - rewrite !elem_of_cons, elem_of_nil. intros Hd.
    repeat (destruct Hd as [Hd|Hd]; [discriminate Hd|]). exact Hd.
  - exists env'. split; [exact Hrun|]. rewrite Hse, Hlinks. split; reflexivity.
Defined.

End Phase2Facts.

(** ** Phase 4 on a fetched targets frame *)

Module Phase4Facts.
Import PyStr Py Frame Store Etl ImportData Integrity PipelineSpec Scenarios.
Import FrameFacts EtlFacts FetcherFacts IntegrityFacts ComboFacts SelectionFacts.
Import Phase2Facts.
Local Open Scope list_scope.
Local Open Scope nat_scope.
#[local] Opaque to_sql.

Lemma target_frame_rows d (feed : list (string * string)) :
  as_pair <$>
    drop_dups id
      (filter (λ r : list string, r !!! 0 ∈ existing_drugs_of d)
              (alter normalize 0 <$> (row2 <$> feed)))
  = drop_dups id (filter (λ p, p.1 ∈ existing_drugs_of d) (normalize_id <$> feed)).
Proof.
  assert (alter normalize 0 <$> (row2 <$> feed) = row2 <$> (normalize_id <$> feed))
    as ->.
  { rewrite <- !list_fmap_compose. apply list_fmap_ext. by intros _ [a b] _. }
  rewrite (filter_fmap row2).
  rewrite <- (drop_dups_fmap row2 id id).
  - rewrite <- list_fmap_compose. etrans; [|apply list_fmap_id].
    apply list_fmap_ext. by intros _ [a b] _.
  - intros [a b] [a' b']. unfold row2. simpl. split; congruence.
Qed.

Lemma length_target_rows d feed :
  length (target_rows d feed)
  = length (drop_dups id (filter (λ p, p.1 ∈ existing_drugs_of d)
                                 (normalize_id <$> feed))).
Proof. unfold target_rows. by rewrite length_fmap. Qed.

(** X4. On a fetched frame of two distinct columns Phase 4 returns and
    appends to [drug_targets], in statements into that table of at most
    1000 rows each, the rows of the feed whose normalised drug identifier
    is known, each (drug, target) pair once; no other table changes. *)
Theorem phase_4_appends_known_targets w env df env0 c0 c1
    (feed : list (string * string)) :
  download_and_extract_gz w targets_url (after_print Phase4Header env)
    = (Ok (Some df), env0) →
  columns df = [c0; c1] → c0 ≠ c1 → rows df = row2 <$> feed →
  ∃ env',
    import_phase_4_targets w env = (Ok tt, env') ∧
    drugs (db env') = drugs (db env) ∧
    side_effects (db env') = side_effects (db env) ∧
    drug_side_effects (db env') = drug_side_effects (db env) ∧
    drug_targets (db env') = drug_targets (db env) ++ target_rows (db env) feed ∧
    (∃ new, journal env' = journal env ++ new ∧
            (∀ st, st ∈ new → into st = T_drug_targets ∧ 1 ≤ nrows st ≤ 1000) ∧
            sum_list_with nrows new = length (target_rows (db env) feed)) ∧
    NoDup (target_rows (db env) feed) ∧
    (∀ t, t ∈ target_rows (db env) feed ↔
          known_to (db env) (target_drug_id t) ∧
          ∃ p, p ∈ feed ∧ target_drug_id t = normalize p.1 ∧
               protein_id t = p.2).
Proof.
  intros Hdl Hcols Hne Hrows.
  pose proof (download_env _ _ _ _ _ Hdl) as [Hdb Hj]. simpl in Hdb, Hj.
  destruct env0 as [d0 j0 o0]. simpl in Hdb, Hj. subst d0 j0.
  destruct df as [cols rs]. simpl in Hcols, Hrows. subst cols rs.
  assert (NoDup [c0; c1]) as Hnd.
  { apply NoDup_cons. split; [|apply NoDup_singleton].
    by intros ?%list_elem_of_singleton. }
  eexists. split.
  { unfold import_phase_4_targets. run. fold (after_print Phase4Header env).
    rewrite Hdl. run.
    rewrite (series_index_unique _ _ c0 0) by done. run.
    unfold set_columns2. simpl. rewrite target_frame_rows. run.
    reflexivity. }
  simpl. fold (target_rows (db env) feed). repeat (split; [done|]). split.
  { destruct (statements_of_frame T_drug_targets None
                (target_rows (db env) feed)) as [Hst Hsum]; [done|].
    eexists. split; [done|]. by split. }
  split.
  - unfold target_rows. apply NoDup_fmap_2; [|apply NoDup_drop_dups_id].
    intros [a b] [a' b'] Heq. by injection Heq as -> ->.
  - intros t. unfold target_rows.
    rewrite list_elem_of_fmap. split.
    + intros (p & -> & Hp). apply (proj1 (elem_of_drop_dups_id _ _)) in Hp.
      apply list_elem_of_filter in Hp as [Hk Hp].
      apply list_elem_of_fmap in Hp as (q & -> & Hq).
      split; [by apply elem_of_existing_drugs|]. by exists q.
    + intros (Hk & p & Hp & Hid & Hprot).
      exists (target_drug_id t, protein_id t). split; [by destruct t|].
      apply elem_of_drop_dups_id, list_elem_of_filter. split.
      * by apply elem_of_existing_drugs.
      * rewrite Hid, Hprot. by apply (list_elem_of_fmap_2 normalize_id).
Qed.

Lemma phase_4_appends_known_targets_witness :
  ∃ env',
    import_phase_4_targets scenario_world (start two_drugs_db) = (Ok tt, env') ∧
    drug_targets (db env') = [mkTarget "CID001" "P100"].
Proof.
  destruct (phase_4_appends_known_targets scenario_world (start two_drugs_db)
              scenario_4_frame
              (mkEnv two_drugs_db []
                 [Phase4Header; Downloading targets_url;
                  Extracting "targets.csv"])
              "STITCH" "Gene" [("CID001", "P100"); ("CID777", "P200")])
    as (env' & Hrun & _ & _ & _ & Htargets & _).
  - reflexivity.
  - reflexivity.
  - discriminate.
  - reflexivity.
  - exists env'. split; [exact Hrun|]. rewrite Htargets. reflexivity.
Defined.

(** X5. A targets frame with a third column stops Phase 4: the assignment
    of the two column names raises ValueError after the fetch, and no
    table and no statement is added. *)
Theorem phase_4_refuses_a_third_column w env df env0 c0 c1 c2 rest :
  download_and_extract_gz w targets_url (after_print Phase4Header env)
    = (Ok (Some df), env0) →
  columns df = c0 :: c1 :: c2 :: rest → c0 ∉ c1 :: c2 :: rest →
  import_phase_4_targets w env = (Raise ValueError, env0) ∧
  db env0 = db env ∧ journal env0 = journal env.
Proof.
  intros Hdl Hcols Hc0.
  pose proof (download_env _ _ _ _ _ Hdl) as [Hdb Hj]. simpl in Hdb, Hj.
  split; [|done].
  unfold import_phase_4_targets. run. fold (after_print Phase4Header env).
  rewrite Hdl. run. unfold column_at. rewrite Hcols. run.
  unfold series_index. rewrite Hcols, positions_cons, positions_absent by done.
  rewrite decide_True by done. run.
  unfold set_columns2. simpl. rewrite Hcols. by run.
Qed.

Lemma phase_4_refuses_a_third_column_witness :
  (import_phase_4_targets three_column_targets_world (start two_drugs_db)).1
  = Raise ValueError.
Proof.
  destruct (phase_4_refuses_a_third_column three_column_targets_world
              (start two_drugs_db)
              (mkFrame ["STITCH"; "Gene"; "Source"] [["CID001"; "P100"; "x"]])
              (mkEnv two_drugs_db []
                 [Phase4Header; Downloading targets_url;
                  Extracting "targets.csv"])
              "STITCH" "Gene" "Source" []) as [Hrun _].
  - reflexivity.
  - reflexivity.
  - rewrite !elem_of_cons, elem_of_nil. intros Hd.
    repeat (destruct Hd as [Hd|Hd]; [discriminate Hd|]). exact Hd.
  - by rewrite Hrun.
Defined.

End Phase4Facts.

(** ** What every run of the pipeline keeps *)

Module InvariantFacts.
Import PyStr Py Frame Store Etl ImportData Integrity PipelineSpec Scenarios.
Import FrameFacts EtlFacts FetcherFacts IntegrityFacts ComboFacts SelectionFacts.
Local Open Scope list_scope.
Local Open Scope nat_scope.
#[local] Opaque to_sql.

Lemma tables_grow_refl d : tables_grow d d.
Proof. by repeat split. Qed.

Lemma tables_grow_trans d1 d2 d3 :
  tables_grow d1 d2 → tables_grow d2 d3 → tables_grow d1 d3.
Proof.
  intros (A1 & A2 & A3 & A4 & A5) (B1 & B2 & B3 & B4 & B5).
  repeat split; by etrans.
Qed.

Lemma kept_same env env' : db env' = db env → kept env env'.
Proof.
  intros Hdb. unfold kept. rewrite Hdb. split; [apply tables_grow_refl|done].
Qed.

Lemma kept_trans env1 env2 env3 : kept env1 env2 → kept env2 env3 → kept env1 env3.
Proof.
  intros [G1 K1] [G2 K2]. split; [by eapply tables_grow_trans|auto].
Qed.

Lemma kept_links env env' l :
  db env' = append_drug_side_effects l (db env) → kept env env'.
Proof.
  intros Hdb. unfold kept. rewrite Hdb. split; [|done].
  repeat split; try done. simpl. by apply prefix_app_r.
Qed.

Lemma kept_targets env env' l :
  db env' = append_drug_targets l (db env) → kept env env'.
Proof.
  intros Hdb. unfold kept. rewrite Hdb. split; [|done].
  repeat split; try done. simpl. by apply prefix_app_r.
Qed.

(** New catalog entries keep the codes free of repeats when their own
    codes are, and none of them is in the catalog yet. *)
Lemma kept_catalog env env' (new : list (string * string)) :
  db env' = append_side_effects (side_effect_of <$> new) (db env) →
  NoDup (fst <$> new) →
  (∀ p, p ∈ new → p.1 ∉ se_code <$> side_effects (db env)) →
  kept env env'.
Proof.
  intros Hdb Hnd Hfresh. unfold kept. rewrite Hdb. split.
  - repeat split; try done. simpl. by apply prefix_app_r.
  - intros [Hd Hs]. split; [done|]. simpl. rewrite fmap_app.
    apply NoDup_app. split; [done|]. rewrite <- list_fmap_compose.
    split; [|done].
    intros code Hold (p & -> & Hp)%list_elem_of_fmap. by apply (Hfresh p).
Qed.

Lemma kept_drugs env env' (new : list (string * string)) :
  db env' = append_drugs (drug_of <$> new) (db env) →
  drugs (db env) = [] → NoDup (fst <$> new) →
  kept env env'.
Proof.
  intros Hdb Hempty Hnd. unfold kept. rewrite Hdb. split.
  - repeat split; try done. simpl. by apply prefix_app_r.
  - intros [Hd Hs]. split; [|done]. simpl. rewrite Hempty. simpl.
    by rewrite <- list_fmap_compose.
Qed.

Lemma column_at_filtered df P `{∀ r, Decision (P r)} i1 i2 f g i :
  column_at (filter_rows P (alter_column i2 g (alter_column i1 f df))) i
  = column_at df i.
Proof. done. Qed.

#[local] Opaque getitem_cols drop_duplicates_subset set_columns2
  filter_rows alter_column column_at series_index.

Lemma phase_1_kept w env : kept env (import_phase_1_names w env).2.
Proof.
  unfold import_phase_1_names, is_table_empty. run.
  case_bool_decide as Hempty; run; [|by apply kept_same].
  destruct (read_names w names_url) as [feed|e]; run; [|by apply kept_same].
  eapply kept_drugs; [done| |apply drop_dups_NoDup].
  by destruct (drugs (db env)).
Qed.

Lemma phase_2_body_kept df_mono env :
  side_effects (db env) = [] → kept env (phase_2_body df_mono env).2.
Proof.
  intros Hempty. unfold phase_2_body. destruct df_mono as [df|]; run;
    [|by apply kept_same].
  destruct (column_at df 0) as [c0|] eqn:H0; run; [|by apply kept_same].
  destruct (column_at df 1) as [c1|] eqn:H1; run; [|by apply kept_same].
  destruct (column_at df 2) as [c2|] eqn:H2; run; [|by apply kept_same].
  destruct (set_columns2 (drop_duplicates_subset _ _)) as [se_catalog|] eqn:Hcat;
    run; [|by apply kept_same].
  assert (kept env (mkEnv (append_side_effects (side_effect_of <$> se_catalog)
                             (db env)) [] [])) as Hk.
  { eapply kept_catalog; [done| |].
    - by eapply (catalog_selection_NoDup df c1 c2 1 2).
    - intros p _. rewrite Hempty. apply not_elem_of_nil. }
  destruct (set_columns2 (getitem_cols _ _)) as [drug_se|]; run.
  - case_bool_decide; run.
    + eapply kept_trans; [exact Hk|]. by eapply kept_links.
    + eapply kept_trans; [exact Hk|]. by apply kept_same.
  - eapply kept_trans; [exact Hk|]. by apply kept_same.
Qed.

Lemma phase_2_kept w env : kept env (import_phase_2_mono w env).2.
Proof.
  unfold import_phase_2_mono, is_table_empty. run.
  case_bool_decide as Hempty; run; [|by apply kept_same].
  destruct (download_and_extract_gz w mono_url _) as [r env1] eqn:Hdl.
  apply download_env in Hdl as [Hdb Hj].
  destruct env1 as [d1 j1 o1]. simpl in Hdb, Hj. subst d1 j1.
  destruct r as [df_mono|e]; run; [|by apply kept_same].
  unfold try_except.
  match goal with
  | |- context [phase_2_body df_mono ?e] =>
      pose proof (phase_2_body_kept df_mono e) as Hbody;
      destruct (phase_2_body df_mono e) as [[[]|e'] env2]; simpl in *
  end.
  - eapply kept_trans; [|apply Hbody]; [by apply kept_same|].
    by destruct (side_effects (db env)).
  - eapply kept_trans; [apply (kept_same env (mkEnv (db env) [] [])); done|].
    eapply kept_trans; [apply (Hbody)|by apply kept_same].
    by destruct (side_effects (db env)).
Qed.

Lemma phase_3_kept w env : kept env (import_phase_3_combo w env).2.
Proof.
  unfold import_phase_3_combo. run.
  destruct (download_and_extract_gz w combo_url _) as [r env1] eqn:Hdl.
  apply download_env in Hdl as [Hdb Hj].
  destruct env1 as [d1 j1 o1]. simpl in Hdb, Hj. subst d1 j1.
  destruct r as [[df|]|e]; run; try by apply kept_same.
  destruct (column_at df 0) as [c0|] eqn:H0; run; [|by apply kept_same].
  destruct (column_at df 1) as [c1|] eqn:H1; run; [|by apply kept_same].
  destruct (column_at df 2) as [c2|] eqn:H2; run; [|by apply kept_same].
  destruct (column_at df 3) as [c3|] eqn:H3; run; [|by apply kept_same].
  destruct (series_index c0 df) as [i1|]; run; [|by apply kept_same].
  destruct (series_index c1 _) as [i2|]; run; [|by apply kept_same].
  destruct (set_columns2 _) as [new_se|] eqn:Hnew; run; [|by apply kept_same].
  apply (catalog_selection_NoDup _ c2 c3 2 3) in Hnew;
    [|by rewrite column_at_filtered..|done].
  case_bool_decide; run.
  - match goal with
    | |- context [append_side_effects (side_effect_of <$> ?l) (db env)] =>
        apply (kept_trans _
                 (mkEnv (append_side_effects (side_effect_of <$> l) (db env))
                        [] []))
    end; [|by eapply kept_links].
    eapply kept_catalog; [done| |].
    + refine (sublist_NoDup _ _ Hnew _). apply fmap_sublist, sublist_filter.
    + intros p [Hp _]%list_elem_of_filter.
      by rewrite elem_of_list_to_set in Hp.
  - by eapply kept_links.
Qed.

Lemma phase_4_kept w env : kept env (import_phase_4_targets w env).2.
Proof.
  unfold import_phase_4_targets. run.
  destruct (download_and_extract_gz w targets_url _) as [r env1] eqn:Hdl.
  apply download_env in Hdl as [Hdb Hj].
  destruct env1 as [d1 j1 o1]. simpl in Hdb, Hj. subst d1 j1.
  destruct r as [[df|]|e]; run; try by apply kept_same.
  destruct (column_at df 0) as [c0|]; run; [|by apply kept_same].
  destruct (column_at df 1) as [c1|]; run; [|by apply kept_same].
  destruct (series_index c0 df) as [i|]; run; [|by apply kept_same].
  destruct (set_columns2 _) as [pairs|]; run; [|by apply kept_same].
  by eapply kept_targets.
Qed.

Lemma kept_bind {A B} (m : M A) (k : A → M B) env :
  kept env (m env).2 → (∀ a env1, kept env1 (k a env1).2) →
  kept env ((m ≫= k) env).2.
Proof.
  intros Hm Hk. rewrite bind_run.
  destruct (m env) as [[a|e] env1]; simpl in *; [|done].
  eapply kept_trans; [exact Hm|apply Hk].
Qed.

(** X6. Whatever the network answers and whether the run returns or ends
    on an exception, the pipeline only appends: every table afterwards
    begins with the table before, and [user_logs] is not touched. In
    particular no row is ever deleted or rewritten. *)
Theorem pipeline_only_appends w env :
  tables_grow (db env) (db (main w env).2).
Proof.
  assert (kept env (main w env).2) as [Hg _]; [|exact Hg].
  unfold main. apply kept_bind; [apply phase_1_kept|]. intros _ e1.
  apply kept_bind; [apply phase_2_kept|]. intros _ e2.
  apply kept_bind; [apply phase_3_kept|]. intros _ e3.
  apply phase_4_kept.
Qed.

(** X7. The pipeline keeps the keys of the two catalog tables free of
    repeats: when no [stitch_id] and no [se_code] occurs twice before a
    run, none does after it, whatever the feeds hold. *)
Theorem pipeline_keeps_keys_unique w env :
  keys_unique (db env) → keys_unique (db (main w env).2).
Proof.
  assert (kept env (main w env).2) as [_ Hk]; [|exact Hk].
  unfold main. apply kept_bind; [apply phase_1_kept|]. intros _ e1.
  apply kept_bind; [apply phase_2_kept|]. intros _ e2.
  apply kept_bind; [apply phase_3_kept|]. intros _ e3.
  apply phase_4_kept.
Qed.

Lemma pipeline_keeps_keys_unique_witness :
  keys_unique (db (main scenario_world (start empty_db)).2).
Proof.
  apply pipeline_keeps_keys_unique. split; simpl; apply NoDup_nil_2.
Defined.

End InvariantFacts.

(** ** Running a phase a second time *)

Module RerunFacts.
Import PyStr Py Frame Store Etl ImportData Integrity ComboSpec PipelineSpec Scenarios.
Import FrameFacts EtlFacts Phase1Facts FetcherFacts ComboFacts.
Local Open Scope list_scope.
Local Open Scope nat_scope.
#[local] Opaque to_sql.

(** What the fetcher returns depends on the network only, not on the
    state it is called in. *)
Lemma download_result w url env1 env2 :
  (download_and_extract_gz w url env1).1 = (download_and_extract_gz w url env2).1.
Proof.
  unfold download_and_extract_gz. run. destruct (get w url); run; try done.
  destruct (filter _ members) as [|m rest]; run; [done|].
  destruct (read_csv m); by run.
Qed.

Lemma filter_none {A} (P : A → Prop) `{∀ x, Decision (P x)} (l : list A) :
  (∀ x, x ∈ l → ¬ P x) → filter P l = [].
Proof.
  intros Hno. induction l as [|a l IH]; [done|].
  rewrite filter_cons. destruct (decide (P a)) as [Ha|_].
  - destruct (Hno a); [left|done].
  - apply IH. intros x Hx. apply Hno. by right.
Qed.

Lemma surviving_after_phase_3 d d' feed :
  drugs d' = drugs d → combo_surviving d' feed = combo_surviving d feed.
Proof.
  intros Hd. unfold combo_surviving, existing_drugs_of. by rewrite Hd.
Qed.

(** Once the new codes of a filtered set are in the catalog, the same set
    has no new code left. *)
Lemma new_codes_exhausted d d' surv :
  side_effects d' = side_effects d ++ combo_new_codes d surv →
  combo_new_codes d' surv = [].
Proof.
  intros Hs. unfold combo_new_codes at 1. rewrite filter_none; [done|].
  intros r Hr Hfresh. apply Hfresh. rewrite Hs, fmap_app, elem_of_app.
  destruct (decide (r.1 ∈ se_code <$> side_effects d)) as [Hin|Hout];
    [by left|right].
  unfold combo_new_codes. rewrite <- list_fmap_compose.
  apply list_elem_of_fmap. exists r. split; [done|].
  by apply list_elem_of_filter.
Qed.

(** X8. Phase 3 has no emptiness gate. Run twice on the same four-column
    feed, the second run finds no new side-effect code, so the catalog is
    the one the first run left, but it appends every combination link a
    second time: as soon as the feed yields one link, the link table holds
    repeated rows. *)
Theorem phase_3_rerun_repeats_its_links
    w env df env0 (feed : list combo_row) c0 c1 c2 c3 :
  download_and_extract_gz w combo_url (after_print Phase3Header env)
    = (Ok (Some df), env0) →
  columns df = [c0; c1; c2; c3] → NoDup [c0; c1; c2; c3] →
  rows df = row4 <$> feed →
  ∃ env' env'',
    import_phase_3_combo w env = (Ok tt, env') ∧
    import_phase_3_combo w env' = (Ok tt, env'') ∧
    drugs (db env'') = drugs (db env) ∧
    side_effects (db env'') = side_effects (db env') ∧
    drug_side_effects (db env') =
      drug_side_effects (db env) ++ combo_links (combo_surviving (db env) feed) ∧
    drug_side_effects (db env'') =
      drug_side_effects (db env') ++ combo_links (combo_surviving (db env) feed) ∧
    (combo_links (combo_surviving (db env) feed) ≠ [] →
     ¬ NoDup (drug_side_effects (db env''))).
Proof.
  intros Hdl Hcols Hnd Hrows.
  destruct (phase_3_run w env df env0 feed c0 c1 c2 c3) as (env' & Hrun & Hdb);
    try done.
  pose proof (download_result w combo_url (after_print Phase3Header env)
                (after_print Phase3Header env')) as Hres.
  rewrite Hdl in Hres. simpl in Hres.
  destruct (download_and_extract_gz w combo_url (after_print Phase3Header env'))
    as [r env0'] eqn:Hdl'. simpl in Hres. subst r.
  destruct (phase_3_run w env' df env0' feed c0 c1 c2 c3)
    as (env'' & Hrun' & Hdb'); try done.
  assert (drugs (db env') = drugs (db env)) as Hd by (by rewrite Hdb).
  rewrite (surviving_after_phase_3 _ _ _ Hd) in Hdb'.
  rewrite (new_codes_exhausted (db env)) in Hdb' by (by rewrite Hdb).
  exists env', env''. split_and!; try done.
  - by rewrite Hdb'.
  - rewrite Hdb'. simpl. by rewrite app_nil_r.
  - by rewrite Hdb.
  - by rewrite Hdb'.
  - intros Hne Hnodup. rewrite Hdb', Hdb in Hnodup. simpl in Hnodup.
    rewrite <- app_assoc in Hnodup.
    apply NoDup_app in Hnodup as (_ & _ & Hnodup).
    apply NoDup_app in Hnodup as (_ & Hdisj & _).
    destruct (combo_links (combo_surviving (db env) feed)) as [|l ls];
      [done|].
    apply (Hdisj l); left.
Qed.

Lemma phase_3_rerun_repeats_its_links_witness :
  ∃ env' env'',
    import_phase_3_combo scenario_world (start two_drugs_db) = (Ok tt, env') ∧
    import_phase_3_combo scenario_world env' = (Ok tt, env'') ∧
    ¬ NoDup (drug_side_effects (db env'')).
Proof.
  destruct (phase_3_rerun_repeats_its_links scenario_world (start two_drugs_db)
              (strip_columns scenario_3_frame)
              (mkEnv two_drugs_db []
                 [Phase3Header; Downloading combo_url;
                  Extracting "bio/combo.csv"])
              [("CID001", "CID002", "SE03", "Rash")]
              "STITCH 1" "STITCH 2" "Polypharmacy Side Effect"
              "Side Effect Name")
    as (env' & env'' & H1 & H2 & _ & _ & _ & _ & Hrep).
  - reflexivity.
  - reflexivity.
  - repeat (apply NoDup_cons; split;
            [rewrite ?elem_of_cons, elem_of_nil; intros Hd;
             repeat (destruct Hd as [Hd|Hd]; [discriminate Hd|]); exact Hd|]).
    apply NoDup_nil_2.
  - reflexivity.
  - exists env', env''. split_and!; [done..|]. apply Hrep. by vm_compute.
Defined.

(** X9. After a Phase 1 run from an empty [drugs] table with a feed of at
    least one row, every later Phase 1 run is skipped, whatever the network
    then serves: the table is filled once. An empty feed writes nothing and
    leaves the gate open, so the next run reads the feed again. *)
Theorem phase_1_runs_once w env feed :
  drugs (db env) = [] →
  read_names w names_url = Ok feed →
  ∃ env',
    import_phase_1_names w env = (Ok tt, env') ∧
    (feed ≠ [] →
     ∀ w', import_phase_1_names w' env'
           = (Ok tt, after_print Phase1Skipped env')) ∧
    (feed = [] →
     db env' = db env ∧ journal env' = journal env ∧
     ∀ w' feed', read_names w' names_url = Ok feed' →
       drugs (db (import_phase_1_names w' env').2)
       = drug_of <$> drop_dups fst feed').
Proof.
  intros Hempty Hfeed. eexists. split; [by apply phase_1_run|]. split.
  - intros Hne w'. unfold import_phase_1_names, is_table_empty. run.
    rewrite Hempty. simpl.
    destruct feed as [|p feed]; [done|]. unfold drop_dups at 1.
    simpl. fold (@drop_dups (string * string) string _ fst).
    by run.
  - intros ->. simpl. destruct env as [d j o]. simpl in *. split_and!.
    + destruct d as [dr se ls tg ul]. simpl in *. by subst dr.
    + by rewrite ?app_nil_r.
    + intros w' feed' Hfeed'.
      rewrite (phase_1_run w' _ feed'); simpl; [|by rewrite Hempty|done].
      by rewrite Hempty.
Qed.

Lemma phase_1_runs_once_witness :
  ∃ env',
    import_phase_1_names scenario_world (start empty_db) = (Ok tt, env') ∧
    import_phase_1_names metadata_only_world env'
    = (Ok tt, after_print Phase1Skipped env').
Proof.
  destruct (phase_1_runs_once scenario_world (start empty_db) scenario_1_feed)
    as (env' & Hrun & Hskip & _); [reflexivity..|].
  exists env'. split; [done|]. by apply Hskip.
Defined.

(** Phase 4 on a two-column frame, as one step on the store. *)
Lemma phase_4_run w env df env0 c0 c1 (feed : list (string * string)) :
  download_and_extract_gz w targets_url (after_print Phase4Header env)
    = (Ok (Some df), env0) →
  columns df = [c0; c1] → c0 ≠ c1 → rows df = row2 <$> feed →
  ∃ env',
    import_phase_4_targets w env = (Ok tt, env') ∧
    db env' = append_drug_targets (target_rows (db env) feed) (db env).
Proof.
  intros Hdl Hcols Hne Hrows.
  pose proof (download_env _ _ _ _ _ Hdl) as [Hdb Hj]. simpl in Hdb, Hj.
  destruct env0 as [d0 j0 o0]. simpl in Hdb, Hj. subst d0 j0.
  destruct df as [cols rs]. simpl in Hcols, Hrows. subst cols rs.
  assert (NoDup [c0; c1]) as Hnd.
  { apply NoDup_cons. split; [|apply NoDup_singleton].
    by intros ?%list_elem_of_singleton. }
  eexists. split.
  { unfold import_phase_4_targets. run. fold (after_print Phase4Header env).
    rewrite Hdl. run.
    rewrite (series_index_unique _ _ c0 0) by done. run.
    unfold set_columns2. simpl. rewrite Phase4Facts.target_frame_rows. run.
    reflexivity. }
  done.
Qed.

(** X10. Phase 4 has no emptiness gate either: run a second time on the
    same two-column feed it appends the same target rows again, so
    [drug_targets] holds every row of the feed twice. *)
Theorem phase_4_rerun_repeats_its_targets w env df env0 c0 c1
    (feed : list (string * string)) :
  download_and_extract_gz w targets_url (after_print Phase4Header env)
    = (Ok (Some df), env0) →
  columns df = [c0; c1] → c0 ≠ c1 → rows df = row2 <$> feed →
  ∃ env' env'',
    import_phase_4_targets w env = (Ok tt, env') ∧
    import_phase_4_targets w env' = (Ok tt, env'') ∧
    drug_targets (db env'') =
      drug_targets (db env) ++ target_rows (db env) feed
                            ++ target_rows (db env) feed ∧
    (target_rows (db env) feed ≠ [] → ¬ NoDup (drug_targets (db env''))).
Proof.
  intros Hdl Hcols Hne Hrows.
  destruct (phase_4_run w env df env0 c0 c1 feed) as (env' & Hrun & Hdb);
    try done.
  pose proof (download_result w targets_url (after_print Phase4Header env)
                (after_print Phase4Header env')) as Hres.
  rewrite Hdl in Hres. simpl in Hres.
  destruct (download_and_extract_gz w targets_url
              (after_print Phase4Header env')) as [r env0'] eqn:Hdl'.
  simpl in Hres. subst r.
  destruct (phase_4_run w env' df env0' c0 c1 feed)
    as (env'' & Hrun' & Hdb'); try done.
  assert (target_rows (db env') feed = target_rows (db env) feed) as Hsame.
  { unfold target_rows, existing_drugs_of. by rewrite Hdb. }
  rewrite Hsame in Hdb'.
  assert (drug_targets (db env'') =
          drug_targets (db env) ++ target_rows (db env) feed
                                ++ target_rows (db env) feed) as Hall.
  { rewrite Hdb', Hdb. simpl. by rewrite <- app_assoc. }
  exists env', env''. split_and!; try done.
  intros Hne' Hnodup. rewrite Hall in Hnodup.
  apply NoDup_app in Hnodup as (_ & _ & Hnodup).
  apply NoDup_app in Hnodup as (_ & Hdisj & _).
  destruct (target_rows (db env) feed) as [|t ts]; [done|].
  apply (Hdisj t); left.
Qed.

Lemma phase_4_rerun_repeats_its_targets_witness :
  ∃ env' env'',
    import_phase_4_targets scenario_world (start two_drugs_db) = (Ok tt, env') ∧
    import_phase_4_targets scenario_world env' = (Ok tt, env'') ∧
    drug_targets (db env'')
    = [mkTarget "CID001" "P100"; mkTarget "CID001" "P100"].
Proof.
  destruct (phase_4_rerun_repeats_its_targets scenario_world
              (start two_drugs_db) scenario_4_frame
              (mkEnv two_drugs_db []
                 [Phase4Header; Downloading targets_url;
                  Extracting "targets.csv"])
              "STITCH" "Gene" [("CID001", "P100"); ("CID777", "P200")])
    as (env' & env'' & H1 & H2 & Hall & _).
  - reflexivity.
  - reflexivity.
  - discriminate.
  - reflexivity.
  - exists env', env''. split_and!; [done..|]. rewrite Hall. reflexivity.
Defined.

End RerunFacts.

(** ** Link rows carry normalised identifiers *)

Module JoinFacts.
Import PyStr PyStrFacts Py Frame Store Etl ImportData Integrity PipelineSpec.
Import Scenarios FrameFacts EtlFacts FetcherFacts IntegrityFacts.
Local Open Scope list_scope.
Local Open Scope nat_scope.
#[local] Opaque to_sql.

Lemma normalize_fixed_on_image s : normalize (normalize s) = normalize s.
Proof.
  unfold normalize at 1.
  rewrite replace_quote_fixed by apply normalize_no_quote.
  unfold normalize. apply strip_idem.
Qed.

Lemma known_to_more d d' id :
  drugs d `prefix_of` drugs d' → known_to d id → known_to d' id.
Proof.
  intros [k Hk] (x & Hx & ->). exists x. split; [|done].
  rewrite Hk. apply elem_of_app. by left.
Qed.

(** Phase 1 writes to [drugs] only, and only at its end. *)
Lemma phase_1_links_untouched w env :
  let d' := db (import_phase_1_names w env).2 in
  drugs (db env) `prefix_of` drugs d' ∧
  drug_side_effects d' = drug_side_effects (db env) ∧
  drug_targets d' = drug_targets (db env).
Proof.
  unfold import_phase_1_names, is_table_empty. run.
  case_bool_decide as Hempty; run; [|done].
  destruct (read_names w names_url) as [feed|e]; run; [|done].
  split; [|done]. by apply prefix_app_r.
Qed.

Lemma links_known_step env env' :
  links_known (db env) → links_satisfy known_to env env' →
  links_known (db env').
Proof.
  intros [Hl Ht] (Hd & (n1 & Hn1 & Hk1) & (n2 & Hn2 & Hk2)).
  assert (∀ id, known_to (db env) id → known_to (db env') id) as Hmore.
  { intros id. apply known_to_more. by rewrite Hd. }
  split.
  - intros l. rewrite Hn1, elem_of_app. intros [?|?]; apply Hmore; auto.
  - intros t. rewrite Hn2, elem_of_app. intros [?|?]; apply Hmore; auto.
Qed.

Lemma links_known_bind {A B} (m : M A) (k : A → M B) env :
  (links_known (db env) → links_known (db (m env).2)) →
  (∀ a env1, links_known (db env1) → links_known (db (k a env1).2)) →
  links_known (db env) → links_known (db ((m ≫= k) env).2).
Proof.
  intros Hm Hk H. rewrite bind_run. specialize (Hm H).
  destruct (m env) as [[a|e] env1]; simpl in *; [|done].
  by apply Hk.
Qed.

(** X11. The link tables only ever hold identifiers in normalised form:
    when every link row and every target row carries the normalised form of
    a stored identifier before a run of the pipeline, so it is after the
    run, whatever the network serves and whether the run returns or raises.
    Hence a drug whose identifier is stored with a quote or with whitespace
    around it is met by no row of the link tables, and is found by none of
    the joins on [drug_id = stitch_id]. *)
Theorem pipeline_links_stay_normalised w env :
  links_known (db env) →
  let d' := db (main w env).2 in
  links_known d' ∧
  (∀ x l, x ∈ drugs d' → l ∈ drug_side_effects d' →
          drug_id l = stitch_id x → normalize (stitch_id x) = stitch_id x) ∧
  (∀ x t, x ∈ drugs d' → t ∈ drug_targets d' →
          target_drug_id t = stitch_id x →
          normalize (stitch_id x) = stitch_id x).
Proof.
  intros H0 d'.
  assert (links_known d') as Hk.
  { unfold d', main. revert H0.
    apply links_known_bind.
    { intros [Hl Ht].
      destruct (phase_1_links_untouched w env) as (Hpre & Hls & Hts).
      split.
      - intros l. rewrite Hls. intros Hin.
        by eapply known_to_more, Hl.
      - intros t. rewrite Hts. intros Hin.
        by eapply known_to_more, Ht. }
    intros _ e1. apply links_known_bind.
    { intros H. eapply links_known_step; [exact H|apply phase_2_links_known]. }
    intros _ e2. apply links_known_bind.
    { intros H. eapply links_known_step; [exact H|apply phase_3_links_known]. }
    intros _ e3 H.
    eapply links_known_step; [exact H|apply phase_4_links_known]. }
  split; [exact Hk|]. destruct Hk as [Hl Ht]. split.
  - intros x l _ Hin Heq. destruct (Hl l Hin) as (y & _ & Hy).
    rewrite <- Heq, Hy. apply normalize_fixed_on_image.
  - intros x t _ Hin Heq. destruct (Ht t Hin) as (y & _ & Hy).
    rewrite <- Heq, Hy. apply normalize_fixed_on_image.
Qed.

Lemma pipeline_links_stay_normalised_witness :
  links_known (db (main quoted_world (start empty_db)).2) ∧
  ∀ l, l ∈ drug_side_effects (db (main quoted_world (start empty_db)).2) →
       drug_id l ≠ "'CID001'".
Proof.
  destruct (pipeline_links_stay_normalised quoted_world (start empty_db))
    as (Hk & Hl & _).
  - split; simpl; intros ? Hin; by apply elem_of_nil in Hin.
  - split; [exact Hk|]. intros l Hin Heq.
    specialize (Hl (mkDrug "'CID001'" "'AspirinX'") l).
    assert (normalize "'CID001'" = "'CID001'") as Hbad; [|by vm_compute in Hbad].
    apply Hl; [|done..]. vm_compute. left.
Defined.

End JoinFacts.

(** ** The outcomes of the fetcher *)

Module FetcherOutcomeFacts.
Import PyStr PyStrFacts Py Frame Store Etl ImportData Scenarios.
Import FrameFacts EtlFacts.
Local Open Scope list_scope.
Local Open Scope nat_scope.

Lemma filter_nil_Forall {A} (P : A → Prop) `{∀ x, Decision (P x)} (l : list A) :
  filter P l = [] → Forall (λ x, ¬ P x) l.
Proof.
  induction l as [|a l IH]; [constructor|].
  rewrite filter_cons. destruct (decide (P a)); [done|].
  intros Hl. constructor; auto.
Qed.

(** The first element a filter keeps is the first of the list that
    satisfies the predicate. *)
Lemma filter_first {A} (P : A → Prop) `{∀ x, Decision (P x)} (l : list A) m rest :
  filter P l = m :: rest →
  ∃ before after, l = before ++ m :: after ∧ Forall (λ x, ¬ P x) before ∧ P m.
Proof.
  induction l as [|a l IH]; [done|].
  rewrite filter_cons. destruct (decide (P a)) as [Ha|Ha].
  - intros [= -> _]. exists [], l. repeat split; [constructor|done].
  - intros (before & after & -> & Hb & Hm)%IH.
    exists (a :: before), after. repeat split; [by constructor|done].
Qed.

Lemma invalid_members (tar : list TarInfo) :
  Forall (λ m, ¬ valid_member m = true) tar →
  Forall (λ m, valid_member m = false) tar.
Proof.
  intros H. eapply Forall_impl; [exact H|]. intros m. apply not_true_is_false.
Qed.

(** X12. Whatever the network serves, the fetcher ends in one of five
    ways. It returns no table exactly on an archive without a valid member.
    It returns a table only when the archive has a valid member: the table
    is the one parsed from the first such member, rows as parsed and header
    names stripped, so that no returned header name begins or ends with
    whitespace. It raises only when the URL is out of reach, when the body
    is no archive, or with the parse error of the first valid member; a
    later member that would parse is not tried. *)
Theorem fetcher_outcomes w url env :
  match (download_and_extract_gz w url env).1 with
  | Ok None =>
      ∃ tar, get w url = Archive tar ∧
             Forall (λ m, valid_member m = false) tar
  | Ok (Some df) =>
      ∃ before m after df0,
        get w url = Archive (before ++ m :: after) ∧
        Forall (λ m, valid_member m = false) before ∧
        valid_member m = true ∧ read_csv m = Ok df0 ∧
        rows df = rows df0 ∧ columns df = strip <$> columns df0 ∧
        Forall (λ c, head_clean isspace c = true ∧ tail_clean isspace c = true)
               (columns df)
  | Raise e =>
      (get w url = Unreachable ∧ e = ConnectionError) ∨
      (get w url = NotAnArchive ∧ e = ReadError) ∨
      ∃ before m after,
        get w url = Archive (before ++ m :: after) ∧
        Forall (λ m, valid_member m = false) before ∧
        valid_member m = true ∧ read_csv m = Raise e
  end.
Proof.
  unfold download_and_extract_gz. run.
  destruct (get w url) as [| |tar] eqn:Hget; run; [by left|by right; left|].
  destruct (filter _ tar) as [|m rest] eqn:Hmem; run.
  - exists tar. split; [done|].
    apply invalid_members. by eapply filter_nil_Forall.
  - destruct (filter_first _ _ _ _ Hmem) as (before & after & -> & Hb & Hm).
    apply invalid_members in Hb.
    destruct (read_csv m) as [df0|e] eqn:Hcsv; run.
    + exists before, m, after, df0. split_and!; try done.
      apply Forall_fmap, Forall_forall. intros c _. simpl. unfold strip, trim.
      split; [apply rtrim_head_clean, ltrim_head_clean|apply rtrim_tail_clean].
    + right; right. by exists before, m, after.
Qed.

End FetcherOutcomeFacts.

(** ** The canonical form of an identifier *)

Module CanonicalFacts.
Import PyStr PyStrFacts.

Lemma rtrim_fixed p s : tail_clean p s = true → rtrim p s = s.
Proof.
  induction s as [|c r IH]; simpl; [done|].
  destruct r as [|c' r'].
  - simpl. intros Hc%negb_true_iff. by rewrite Hc.
  - intros Hr. by rewrite (IH Hr).
Qed.

Lemma replace_quote_app a b :
  replace_quote (a +:+ b) = (replace_quote a +:+ replace_quote b).
Proof.
  induction a as [|c a IH]; [done|].
  change (String c a +:+ b) with (String c (a +:+ b)). simpl.
  destruct (is_quote c); [done|].
  change (String c (replace_quote a) +:+ replace_quote b)
    with (String c (replace_quote a +:+ replace_quote b)).
  by rewrite IH.
Qed.

(** X13. The identifier normalisation of the pipeline yields a string
    without single quote and without whitespace at either end, and leaves a
    string as it is exactly when the string is already of that form.
    Quotes go wherever they stand, so two identifiers that differ in a
    quote inside are the same identifier to Phases 2, 3 and 4. *)
Theorem normalize_canonical_form s :
  no_quote (normalize s) = true ∧
  head_clean isspace (normalize s) = true ∧
  tail_clean isspace (normalize s) = true ∧
  (normalize s = s ↔
   no_quote s = true ∧ head_clean isspace s = true ∧
   tail_clean isspace s = true) ∧
  (∀ a b, normalize (a +:+ String "'" b) = normalize (a +:+ b)).
Proof.
  assert (Hq : no_quote (normalize s) = true) by apply normalize_no_quote.
  assert (Hh : head_clean isspace (normalize s) = true).
  { unfold normalize, strip, trim. apply rtrim_head_clean, ltrim_head_clean. }
  assert (Ht : tail_clean isspace (normalize s) = true).
  { unfold normalize, strip, trim. apply rtrim_tail_clean. }
  split_and!; try done.
  - split.
    + intros Hfix. by rewrite <- Hfix.
    + intros (Hnq & Hhc & Htc). unfold normalize, strip, trim.
      rewrite (replace_quote_fixed _ Hnq), (ltrim_fixed _ _ Hhc).
      by apply rtrim_fixed.
  - intros a b. unfold normalize. by rewrite !replace_quote_app.
Qed.

End CanonicalFacts.

(** ** The terms the language model service returns *)

Module LlmFacts.
Import PyStr PyStrFacts Py LlmService.
Local Open Scope list_scope.
Local Open Scope nat_scope.

Lemma split_comma_cons s : ∃ piece pieces, split_comma s = piece :: pieces.
Proof.
  induction s as [|c r (piece & pieces & IH)]; simpl; [by eexists _, _|].
  destruct (Ascii.eqb c ","); [by eexists _, _|].
  rewrite IH. by eexists _, _.
Qed.

Lemma length_split_comma s : length (split_comma s) = S (count_commas s).
Proof.
  induction s as [|c r IH]; simpl; [done|].
  destruct (Ascii.eqb c ","); simpl; [by rewrite IH|].
  destruct (split_comma r); simpl in *; [done|]. exact IH.
Qed.

Lemma join_comma_cons a b l :
  join_comma (a :: b :: l) = (a +:+ String "," (join_comma (b :: l))).
Proof. done. Qed.

Lemma join_split_comma s : join_comma (split_comma s) = s.
Proof.
  induction s as [|c r IH]; [done|]. cbn [split_comma].
  destruct (split_comma_cons r) as (piece & pieces & Hr).
  rewrite Hr in *. destruct (Ascii.eqb c ",") eqn:Hc.
  - apply Ascii.eqb_eq in Hc as ->. rewrite join_comma_cons, IH. done.
  - destruct pieces as [|p ps].
    + simpl in *. by rewrite IH.
    + rewrite join_comma_cons in *.
      change (String c piece +:+ String "," (join_comma (p :: ps)))
        with (String c (piece +:+ String "," (join_comma (p :: ps)))).
      by rewrite IH.
Qed.

Lemma split_comma_no_comma s :
  Forall (λ piece, no_comma piece = true) (split_comma s).
Proof.
  induction s as [|c r IH]; simpl; [by repeat constructor|].
  destruct (Ascii.eqb c ",") eqn:Hc; [by constructor|].
  destruct (split_comma r) as [|piece pieces]; [|inversion_clear IH].
  - repeat constructor. unfold no_comma. simpl. by rewrite Hc.
  - constructor; [|done]. unfold no_comma in *. simpl. by rewrite Hc.
Qed.

Section Keeps.
Context (p q : ascii → bool).

Lemma ltrim_all_chars s : all_chars q s = true → all_chars q (ltrim p s) = true.
Proof.
  induction s as [|c r IH]; simpl; [done|].
  intros H. destruct (p c); [|done].
  apply IH. by apply andb_true_iff in H as [_ ?].
Qed.

Lemma rtrim_all_chars s : all_chars q s = true → all_chars q (rtrim p s) = true.
Proof.
  induction s as [|c r IH]; simpl; [done|].
  intros [Hc Hr]%andb_true_iff. specialize (IH Hr).
  destruct (rtrim p r) as [|c' r'] eqn:Hrs.
  - destruct (p c); simpl; [done|]. by rewrite Hc.
  - simpl in *. by rewrite Hc, IH.
Qed.
End Keeps.

Lemma strip_no_comma s : no_comma s = true → no_comma (strip s) = true.
Proof. intros H. by apply rtrim_all_chars, ltrim_all_chars. Qed.

(** X14. What the term service returns. On a reply of the model it returns
    the pieces between the commas of the reply, each stripped: one term
    more than the reply has commas, so at least one, none with a comma or
    with whitespace at either end, and the pieces joined by commas are the
    reply again. On every failure (no key, the call raises, no content) it
    prints the error line and returns no term. Hence it returns the empty
    list exactly when it failed. *)
Theorem terms_of_reply llm user_input :
  let r := translate_symptoms_to_medical_terms llm user_input in
  match llm user_input with
  | Content raw =>
      r = (strip <$> split_comma raw, false) ∧
      length r.1 = S (count_commas raw) ∧
      join_comma (split_comma raw) = raw ∧
      Forall (λ t, no_comma t = true ∧ head_clean isspace t = true ∧
                   tail_clean isspace t = true) r.1
  | _ => r = ([], true)
  end ∧
  (r.1 = [] ↔ r.2 = true).
Proof.
  unfold translate_symptoms_to_medical_terms.
  destruct (llm user_input) as [| | |raw]; simpl; try done.
  split.
  - split_and!; [done| | |].
    + by rewrite length_fmap, length_split_comma.
    + apply join_split_comma.
    + apply Forall_fmap. eapply Forall_impl; [apply split_comma_no_comma|].
      intros piece Hp. simpl. split_and!.
      * by apply strip_no_comma.
      * unfold strip, trim. apply rtrim_head_clean, ltrim_head_clean.
      * unfold strip, trim. apply rtrim_tail_clean.
  - destruct (split_comma_cons raw) as (piece & pieces & ->). done.
Qed.

End LlmFacts.

(** ** The lookup endpoints of main.py *)

Module LookupFacts.
Import PyStr PyStrFacts Py Frame Store Etl ImportData Integrity Sql Api.
Import LlmService Lookup Scenarios FrameFacts ApiFacts LlmFacts.
Local Open Scope list_scope.
Local Open Scope nat_scope.

Lemma elem_of_symptom_join d dse x se :
  (dse, x, se) ∈ symptom_join d ↔
  dse ∈ drug_side_effects d ∧ x ∈ drugs d ∧ se ∈ side_effects d ∧
  drug_id dse = stitch_id x ∧ link_se_code dse = se_code se.
Proof.
  unfold symptom_join. rewrite list_elem_of_bind. split.
  - intros (dse' & H & Hd).
    apply list_elem_of_bind in H as (x' & H & Hx).
    apply list_elem_of_bind in H as (se' & H & Hs).
    apply list_elem_of_singleton in H as [= -> -> ->].
    apply list_elem_of_filter in Hx as [? ?].
    by apply list_elem_of_filter in Hs as [? ?].
  - intros (Hd & Hx & Hs & E1 & E2). exists dse. split; [|done].
    apply list_elem_of_bind. exists x.
    split; [|by apply list_elem_of_filter].
    apply list_elem_of_bind. exists se.
    split; [|by apply list_elem_of_filter].
    by apply list_elem_of_singleton.
Qed.

Lemma elem_of_effects_join d se dse x :
  (se, dse, x) ∈ effects_join d ↔
  se ∈ side_effects d ∧ dse ∈ drug_side_effects d ∧ x ∈ drugs d ∧
  se_code se = link_se_code dse ∧ drug_id dse = stitch_id x.
Proof.
  unfold effects_join. rewrite list_elem_of_bind. split.
  - intros (se' & H & Hs).
    apply list_elem_of_bind in H as (dse' & H & Hd).
    apply list_elem_of_bind in H as (x' & H & Hx).
    apply list_elem_of_singleton in H as [= -> -> ->].
    apply list_elem_of_filter in Hd as [? ?].
    by apply list_elem_of_filter in Hx as [? ?].
  - intros (Hs & Hd & Hx & E1 & E2). exists se. split; [|done].
    apply list_elem_of_bind. exists dse.
    split; [|by apply list_elem_of_filter].
    apply list_elem_of_bind. exists x.
    split; [|by apply list_elem_of_filter].
    by apply list_elem_of_singleton.
Qed.

Lemma elem_of_target_join d dt x dse se :
  (dt, x, dse, se) ∈ target_join d ↔
  dt ∈ drug_targets d ∧ x ∈ drugs d ∧ dse ∈ drug_side_effects d ∧
  se ∈ side_effects d ∧ target_drug_id dt = stitch_id x ∧
  stitch_id x = drug_id dse ∧ link_se_code dse = se_code se.
Proof.
  unfold target_join. rewrite list_elem_of_bind. split.
  - intros (dt' & H & Ht).
    apply list_elem_of_bind in H as (x' & H & Hx).
    apply list_elem_of_bind in H as (dse' & H & Hd).
    apply list_elem_of_bind in H as (se' & H & Hs).
    apply list_elem_of_singleton in H as [= -> -> -> ->].
    apply list_elem_of_filter in Hx as [? ?].
    apply list_elem_of_filter in Hd as [? ?].
    by apply list_elem_of_filter in Hs as [? ?].
  - intros (Ht & Hx & Hd & Hs & E1 & E2 & E3). exists dt. split; [|done].
    apply list_elem_of_bind. exists x.
    split; [|by apply list_elem_of_filter].
    apply list_elem_of_bind. exists dse.
    split; [|by apply list_elem_of_filter].
    apply list_elem_of_bind. exists se.
    split; [|by apply list_elem_of_filter].
    by apply list_elem_of_singleton.
Qed.

Section DistinctLimit.
Context {A : Type} `{EqDecision A} (plan : Plan).
Implicit Types l : list A.

Lemma distinct_perm l : distinct plan l ≡ₚ drop_dups id l.
Proof. apply arrange_perm. Qed.

Lemma NoDup_distinct l : NoDup (distinct plan l).
Proof.
  rewrite distinct_perm.
  pose proof (drop_dups_NoDup id l) as Hk. by rewrite list_fmap_id in Hk.
Qed.

Lemma elem_of_distinct l x : x ∈ distinct plan l ↔ x ∈ l.
Proof.
  rewrite distinct_perm.
  pose proof (drop_dups_keys id l x) as Hk. by rewrite !list_fmap_id in Hk.
Qed.

Lemma length_distinct l : length (distinct plan l) = length (drop_dups id l).
Proof. apply Permutation_length, distinct_perm. Qed.

Lemma distinct_limit_NoDup n l : NoDup (distinct_limit plan n l).
Proof.
  unfold distinct_limit.
  refine (sublist_NoDup _ _ (NoDup_distinct l) _). apply sublist_take.
Qed.

Lemma distinct_limit_length n l :
  length (distinct_limit plan n l) = min n (length (drop_dups id l)).
Proof. unfold distinct_limit. by rewrite length_take, length_distinct. Qed.

Lemma distinct_limit_sound n l x : x ∈ distinct_limit plan n l → x ∈ l.
Proof.
  unfold distinct_limit. intros Hx. apply elem_of_distinct.
  eapply elem_of_sublist; [exact Hx|apply sublist_take].
Qed.

(** A row is left out only when the limit is reached. *)
Lemma distinct_limit_complete n l x :
  x ∈ l → x ∈ distinct_limit plan n l ∨ length (distinct_limit plan n l) = n.
Proof.
  intros Hx%elem_of_distinct. unfold distinct_limit.
  destruct (decide (length (distinct plan l) ≤ n)) as [Hle|Hgt].
  - left. by rewrite take_ge.
  - right. rewrite length_take. lia.
Qed.
End DistinctLimit.

(** NUL is no whitespace, so stripping neither removes nor adds one. *)
Lemma blank_has_no_nul s : all_chars isspace s = true → has_nul s = false.
Proof.
  induction s as [|c r IH]; [done|]. simpl.
  intros [Hc Hr]%andb_true_iff. rewrite (IH Hr), orb_false_r.
  destruct (Ascii.eqb c "000") eqn:E; [|done].
  apply Ascii.eqb_eq in E as ->. by vm_compute in Hc.
Qed.

Lemma has_nul_strip s : has_nul (strip s) = has_nul s.
Proof.
  destruct (trim_spec isspace s) as (a & b & Hs & Ha & Hb & _).
  fold (strip s) in Hs. rewrite Hs at 2.
  rewrite !has_nul_app, (blank_has_no_nul _ Ha), (blank_has_no_nul _ Hb).
  by rewrite orb_false_r.
Qed.

(** The three joins leave [user_logs] aside. *)
Lemma symptom_join_logs rows d :
  symptom_join (append_user_logs rows d) = symptom_join d.
Proof. done. Qed.

Lemma like_match_many p s :
  like_match (AnyMany :: p) s =
  like_match p s ||
  match s with
  | "" => false
  | String _ s' => like_match (AnyMany :: p) s'
  end.
Proof. by destruct s. Qed.

Lemma like_match_any_any s : like_match [AnyMany; AnyMany] s = true.
Proof. by rewrite like_match_many, like_match_any. Qed.

(** The query of one term: the driver refuses a term that holds NUL; the
    pattern of any other term parses. *)
Lemma term_rows_nul plan term d :
  has_nul term = true → term_rows plan term d = Raise ValueError.
Proof.
  intros Hn. unfold term_rows.
  change (("%" ++ term ++ "%")%string) with ("%" +:+ term +:+ "%").
  by rewrite has_nul_wrapped, Hn.
Qed.

Lemma term_rows_run plan term d :
  has_nul term = false →
  ∃ p, like_tokens (term +:+ "%") = Some p ∧
       term_rows plan term d =
       Ok (distinct_limit plan 5
             ((λ r, (trim_both_quote (common_name r.1.2), se_name r.2)) <$>
                filter (λ r, like_match (AnyMany :: p) (se_name r.2) = true)
                       (symptom_join d))).
Proof.
  intros Hn. destruct (like_tokens_wrapped term) as (p & Hp & Hp'). exists p.
  split; [done|]. unfold term_rows.
  change (("%" ++ term ++ "%")%string) with ("%" +:+ term +:+ "%").
  by rewrite has_nul_wrapped, Hn, Hp.
Qed.

Lemma term_rows_logs plan term rows d :
  term_rows plan term (append_user_logs rows d) = term_rows plan term d.
Proof. done. Qed.

Lemma search_terms_logs plan terms rows d :
  search_terms plan terms (append_user_logs rows d) = search_terms plan terms d.
Proof.
  induction terms as [|term terms IH]; [done|].
  cbn [search_terms]. by rewrite term_rows_logs, IH.
Qed.

(** The loop over the terms ends on the driver's error exactly when a
    term holds NUL. *)
Lemma search_terms_outcome plan terms d :
  if existsb has_nul terms
  then search_terms plan terms d = Raise ValueError
  else ∃ rows, search_terms plan terms d = Ok rows.
Proof.
  induction terms as [|term terms IH]; [by exists []|].
  cbn [existsb search_terms]. destruct (has_nul term) eqn:Hn.
  - by rewrite term_rows_nul.
  - destruct (term_rows_run plan term d Hn) as (p & _ & ->). simpl.
    destruct (existsb has_nul terms).
    + by rewrite IH.
    + destruct IH as [more ->]. by eexists.
Qed.

(** X15. The rows the symptom search returns, whatever order the database
    returns rows in. When a term holds the NUL character the driver
    refuses its query and the loop ends on that error. Otherwise the loop
    returns at most five rows per term, each the trimmed name of a drug and
    the name of a side effect that a link row joins, the side-effect name
    matching the pattern of one of the terms; for a term without pattern
    characters that means the term occurs in the side-effect name, letter
    case ignored as the database folds it. *)
Theorem symptom_search_is_sound plan terms d :
  if existsb has_nul terms
  then search_terms plan terms d = Raise ValueError
  else
    ∃ rows,
      search_terms plan terms d = Ok rows ∧
      length rows ≤ 5 * length terms ∧
      ∀ name effect, (name, effect) ∈ rows →
        ∃ term dse x se,
          term ∈ terms ∧
          dse ∈ drug_side_effects d ∧ x ∈ drugs d ∧ se ∈ side_effects d ∧
          drug_id dse = stitch_id x ∧ link_se_code dse = se_code se ∧
          ilike (se_name se) ("%" +:+ term +:+ "%") = Ok true ∧
          name = trim_both_quote (common_name x) ∧ effect = se_name se ∧
          (plain term = true → contains_nocase (se_name se) term = true).
Proof.
  induction terms as [|term terms IH].
  - exists []. split_and!; [done|simpl; lia|]. by intros ? ? ?%elem_of_nil.
  - cbn [existsb search_terms]. destruct (has_nul term) eqn:Hn.
    { by rewrite term_rows_nul. }
    destruct (term_rows_run plan term d Hn) as (p & Hp & Hrows).
    rewrite Hrows. simpl. destruct (existsb has_nul terms).
    { by rewrite IH. }
    destruct IH as (more & Hmore & Hlen & Hsound). rewrite Hmore.
    eexists. split_and!; [done| |].
    + rewrite length_app. cbn [length].
      match goal with
      | |- context [distinct_limit plan 5 ?l] =>
          pose proof (distinct_limit_length plan 5 l)
      end.
      lia.
    + intros name effect [Hin|Hin]%elem_of_app.
      * apply distinct_limit_sound in Hin.
        apply list_elem_of_fmap in Hin as ([[dse x] se] & [= -> ->] & Hin).
        apply list_elem_of_filter in Hin as [Hmatch Hin].
        change (like_match (AnyMany :: p) (se_name se) = true) in Hmatch.
        apply elem_of_symptom_join in Hin as (Hd & Hx & Hs & E1 & E2).
        exists term, dse, x, se. split_and!; try done.
        -- left.
        -- unfold ilike.
           destruct (like_tokens_wrapped term) as (p' & -> & Hp'').
           rewrite Hp in Hp''. injection Hp'' as <-. by rewrite Hmatch.
        -- intros Hplain. rewrite (like_tokens_plain _ Hplain) in Hp.
           injection Hp as <-. by rewrite like_match_contains in Hmatch.
      * destruct (Hsound name effect Hin)
          as (t & dse & x & se & Ht & H).
        exists t, dse, x, se. split; [by right|done].
Qed.

(** X16. The search is logged before the language model is asked. A query
    that holds the NUL character is refused by the driver at the INSERT of
    the log row: 500, store as before. For any other query, when the
    database works, the store afterwards is the store before with one
    SEARCH_ACCESS row for the query added to [user_logs], whatever the
    model answers: the reply carries the query, the terms and the rows of
    the search, or is a 500 when a term of the model holds NUL; when the
    model fails the reply has no term and no row, as if nothing had
    matched. When the INSERT or the commit raises, the request ends in a
    500 and the store is as before. *)
Theorem search_is_logged_first f plan llm now query d :
  match f with
  | NoFault =>
      if has_nul query then
        analyze_symptoms f plan llm now query d
          = (Failed 500 "Internal Server Error", d)
      else
        (analyze_symptoms f plan llm now query d).2
          = append_user_logs [search_row now query] d ∧
        (analyze_symptoms f plan llm now query d).1 =
          match search_terms plan
                  (translate_symptoms_to_medical_terms llm query).1 d with
          | Ok rows =>
              Body (mkAnalysis query
                      (translate_symptoms_to_medical_terms llm query).1 rows)
          | Raise _ => Failed 500 "Internal Server Error"
          end ∧
        (existsb has_nul (translate_symptoms_to_medical_terms llm query).1
           = false →
         ∃ rows,
           search_terms plan
             (translate_symptoms_to_medical_terms llm query).1 d = Ok rows) ∧
        ((translate_symptoms_to_medical_terms llm query).2 = true →
         (analyze_symptoms f plan llm now query d).1
           = Body (mkAnalysis query [] []))
  | ExecuteRaises | CommitRaises =>
      analyze_symptoms f plan llm now query d
        = (Failed 500 "Internal Server Error", d)
  end.
Proof.
  destruct f.
  - destruct (has_nul query) eqn:Hq.
    { unfold analyze_symptoms, log_search. by rewrite Hq. }
    assert (analyze_symptoms NoFault plan llm now query d =
            (match search_terms plan
                     (translate_symptoms_to_medical_terms llm query).1 d with
             | Ok rows =>
                 Body (mkAnalysis query
                         (translate_symptoms_to_medical_terms llm query).1
                         rows)
             | Raise _ => Failed 500 "Internal Server Error"
             end,
             append_user_logs [search_row now query] d)) as Hrun.
    { unfold analyze_symptoms, log_search. rewrite Hq. simpl.
      rewrite search_terms_logs.
      by destruct (search_terms plan _ d). }
    rewrite Hrun. split_and!; [done|done| |].
    + intros Hno.
      pose proof (search_terms_outcome plan
                    (translate_symptoms_to_medical_terms llm query).1 d) as H.
      by rewrite Hno in H.
    + unfold translate_symptoms_to_medical_terms.
      destruct (llm query); simpl; try done.
  - unfold analyze_symptoms, log_search.
    by destruct (has_nul query).
  - unfold analyze_symptoms, log_search.
    by destruct (has_nul query).
Qed.

Lemma split_comma_blank raw :
  all_chars isspace raw = true → split_comma raw = [raw].
Proof.
  induction raw as [|c r IH]; [done|]. simpl.
  intros [Hc Hr]%andb_true_iff.
  assert (Ascii.eqb c "," = false) as ->.
  { destruct (Ascii.eqb c ",") eqn:E; [|done].
    apply Ascii.eqb_eq in E as ->. by vm_compute in Hc. }
  by rewrite (IH Hr).
Qed.

Lemma strip_blank raw : all_chars isspace raw = true → strip raw = "".
Proof.
  intros Hraw. unfold strip, trim.
  assert (ltrim isspace raw = "") as ->; [|done].
  induction raw as [|c r IH]; [done|]. simpl in *.
  apply andb_true_iff in Hraw as [-> Hr]. by apply IH.
Qed.

(** The empty term matches every side-effect name. *)
Lemma term_rows_empty plan d :
  term_rows plan "" d =
  Ok (distinct_limit plan 5
        ((λ r, (trim_both_quote (common_name r.1.2), se_name r.2)) <$>
           symptom_join d)).
Proof.
  unfold term_rows. simpl has_nul. cbv iota. simpl like_tokens. cbv iota.
  f_equal. f_equal. f_equal.
  apply filter_all. intros r _. apply like_match_any_any.
Qed.

(** X17. A reply of the language model that is blank (empty, or
    whitespace only) is taken as one empty term. Its pattern matches every
    side-effect name, so the search returns rows of the whole join,
    whatever the query was: five of its distinct rows, or all of them when
    there are fewer, which ones being the choice of the database. *)
Theorem blank_reply_matches_everything plan llm now query raw d :
  has_nul query = false →
  llm query = Content raw → all_chars isspace raw = true →
  ∃ rows,
    analyze_symptoms NoFault plan llm now query d =
      (Body (mkAnalysis query [""] rows),
       append_user_logs [search_row now query] d) ∧
    NoDup rows ∧
    length rows =
      min 5 (length (drop_dups id
                       ((λ r, (trim_both_quote (common_name r.1.2),
                               se_name r.2)) <$> symptom_join d))) ∧
    ∀ name effect, (name, effect) ∈ rows →
      ∃ dse x se,
        dse ∈ drug_side_effects d ∧ x ∈ drugs d ∧ se ∈ side_effects d ∧
        drug_id dse = stitch_id x ∧ link_se_code dse = se_code se ∧
        name = trim_both_quote (common_name x) ∧ effect = se_name se.
Proof.
  intros Hq Hllm Hblank. eexists. split_and!.
  - unfold analyze_symptoms, log_search. rewrite Hq. simpl.
    unfold translate_symptoms_to_medical_terms. rewrite Hllm.
    rewrite (split_comma_blank _ Hblank). cbn [fmap list_fmap fst].
    rewrite (strip_blank _ Hblank). cbn [search_terms].
    rewrite term_rows_logs, term_rows_empty. by rewrite app_nil_r.
  - apply distinct_limit_NoDup.
  - apply distinct_limit_length.
  - intros name effect Hin%distinct_limit_sound.
    apply list_elem_of_fmap in Hin as ([[dse x] se] & [= -> ->] & Hin).
    apply elem_of_symptom_join in Hin as (Hd & Hx & Hs & E1 & E2).
    by exists dse, x, se.
Qed.

Lemma blank_reply_matches_everything_witness :
  ∃ rows,
    analyze_symptoms NoFault reverse_order (λ _, Content "  ") "12:00"
      "my knee hurts" after_phase_2_db =
    (Body (mkAnalysis "my knee hurts" [""] rows),
     append_user_logs [search_row "12:00" "my knee hurts"] after_phase_2_db) ∧
    length rows = 2.
Proof.
  destruct (blank_reply_matches_everything reverse_order
              (λ _, Content "  ") "12:00" "my knee hurts" "  "
              after_phase_2_db eq_refl eq_refl eq_refl)
    as (rows & Hrun & _ & Hlen & _).
  exists rows. split; [exact Hrun|]. rewrite Hlen. reflexivity.
Defined.

Lemma drug_effects_run plan name d :
  ∃ p, like_tokens (strip name +:+ "%") = Some p ∧
       (∀ x, drug_effects_matches name x
             = Ok (like_match (AnyMany :: p) (common_name x))) ∧
       ∀ f, get_drug_effects f plan name d =
            match execute_select f ["%" +:+ strip name +:+ "%"]
                    (distinct_limit plan 15
                       ((λ r, se_name r.1.1) <$>
                          filter (λ r, like_match (AnyMany :: p)
                                         (common_name r.2) = true)
                                 (effects_join d))) with
            | Raise _ => Failed 500 "Internal Server Error"
            | Ok results => Body results
            end.
Proof.
  destruct (like_tokens_wrapped (strip name)) as (p & Hp & Hp'). exists p.
  split; [done|]. split.
  - intros x. unfold drug_effects_matches, ilike. by rewrite Hp.
  - intros f. unfold get_drug_effects. cbv zeta.
    change (("%" ++ strip name ++ "%")%string)
      with ("%" +:+ strip name +:+ "%").
    by rewrite Hp.
Qed.

Lemma execute_select_run {A} f param (rows : A) :
  execute_select f [param] rows =
  if has_nul param then Raise ValueError
  else match f with ExecuteRaises => Raise SQLAlchemyError | _ => Ok rows end.
Proof. unfold execute_select. simpl. by rewrite orb_false_r. Qed.

(** X18. The direct lookup, whatever order the database returns rows in.
    A name that holds the NUL character is refused by the driver and the
    request ends in a 500, as it does when the query raises; no other name
    makes it fail. When it returns, it returns at most fifteen side-effect
    names, none twice, each the name of a side effect linked to a drug
    whose stored name, as stored, matches the stripped request; a linked
    side effect of such a drug is left out only when the limit of fifteen
    is reached. Whitespace around the request makes no difference. *)
Theorem drug_effects_lookup f plan name d :
  (if has_nul name then
     get_drug_effects f plan name d = Failed 500 "Internal Server Error"
   else
     match f with
     | ExecuteRaises =>
         get_drug_effects f plan name d = Failed 500 "Internal Server Error"
     | NoFault | CommitRaises =>
         ∃ results,
           get_drug_effects f plan name d = Body results ∧
           NoDup results ∧ length results ≤ 15 ∧
           (∀ effect, effect ∈ results →
              ∃ se dse x,
                se ∈ side_effects d ∧ dse ∈ drug_side_effects d ∧
                x ∈ drugs d ∧
                se_code se = link_se_code dse ∧ drug_id dse = stitch_id x ∧
                drug_effects_matches name x = Ok true ∧
                effect = se_name se) ∧
           (∀ se dse x,
              se ∈ side_effects d → dse ∈ drug_side_effects d →
              x ∈ drugs d →
              se_code se = link_se_code dse → drug_id dse = stitch_id x →
              drug_effects_matches name x = Ok true →
              se_name se ∈ results ∨ length results = 15)
     end) ∧
  get_drug_effects f plan (strip name) d = get_drug_effects f plan name d.
Proof.
  destruct (drug_effects_run plan name d) as (p & Hp & Hm & Hrun).
  split; [|unfold get_drug_effects; by rewrite strip_idem].
  rewrite Hrun, execute_select_run, has_nul_wrapped, has_nul_strip.
  destruct (has_nul name); [done|].
  assert (∃ results,
    Body (distinct_limit plan 15
            ((λ r : SideEffect * DrugSideEffect * Drug, se_name r.1.1) <$>
               filter (λ r, like_match (AnyMany :: p) (common_name r.2) = true)
                      (effects_join d))) = Body results ∧
    NoDup results ∧ length results ≤ 15 ∧
    (∀ effect, effect ∈ results →
       ∃ se dse x,
         se ∈ side_effects d ∧ dse ∈ drug_side_effects d ∧ x ∈ drugs d ∧
         se_code se = link_se_code dse ∧ drug_id dse = stitch_id x ∧
         drug_effects_matches name x = Ok true ∧ effect = se_name se) ∧
    (∀ se dse x,
       se ∈ side_effects d → dse ∈ drug_side_effects d → x ∈ drugs d →
       se_code se = link_se_code dse → drug_id dse = stitch_id x →
       drug_effects_matches name x = Ok true →
       se_name se ∈ results ∨ length results = 15)) as Hres.
  { eexists. split_and!; [done|apply distinct_limit_NoDup| | |].
    - rewrite distinct_limit_length. lia.
    - intros effect Hin%distinct_limit_sound.
      apply list_elem_of_fmap in Hin as ([[se dse] x] & -> & Hin).
      apply list_elem_of_filter in Hin as [Hmatch Hin].
      change (like_match (AnyMany :: p) (common_name x) = true) in Hmatch.
      apply elem_of_effects_join in Hin as (Hs & Hd & Hx & E1 & E2).
      exists se, dse, x. split_and!; try done.
      by rewrite Hm, Hmatch.
    - intros se dse x Hs Hd Hx E1 E2 Hmatch.
      apply distinct_limit_complete.
      apply (list_elem_of_fmap_2 (λ r : SideEffect * DrugSideEffect * Drug,
                                    se_name r.1.1) _ (se, dse, x)).
      apply list_elem_of_filter. split.
      + rewrite Hm in Hmatch. by injection Hmatch.
      + by apply elem_of_effects_join. }
  by destruct f.
Qed.

Lemma target_drugs_run f plan protein side_effect d :
  get_target_drugs f plan protein side_effect d =
  if has_nul protein || has_nul side_effect then
    Failed 500 "Database error during drill-down resolution."
  else
    match f with
    | ExecuteRaises =>
        Failed 500 "Database error during drill-down resolution."
    | _ =>
        Body (distinct plan
                ((λ r, trim_both_quote (common_name r.1.1.2)) <$>
                   filter (λ r, protein_id r.1.1.1 = protein ∧
                                se_name r.2 = side_effect)
                          (target_join d)))
    end.
Proof.
  unfold get_target_drugs, execute_select. cbn [existsb].
  rewrite orb_false_r.
  destruct (has_nul protein || has_nul side_effect); [done|by destruct f].
Qed.

(** X19. The drill-down on a store whose link rows carry normalised
    identifiers, as the pipeline writes them. When the database works it
    returns, each once, exactly the trimmed names of the drugs that have a
    target row with the protein asked for and a link row to a side effect
    with the name asked for, the two compared as they are; every such drug
    has its identifier stored in normalised form, so a drug stored with a
    quoted identifier is never among them. When the query raises, as it
    does on a protein or a side-effect name that holds the NUL character,
    the request ends in the 500 of the handler. *)
Theorem target_drugs_lookup f plan protein side_effect d :
  PipelineSpec.links_known d →
  if has_nul protein || has_nul side_effect then
    get_target_drugs f plan protein side_effect d
    = Failed 500 "Database error during drill-down resolution."
  else
  match f with
  | ExecuteRaises =>
      get_target_drugs f plan protein side_effect d
      = Failed 500 "Database error during drill-down resolution."
  | NoFault | CommitRaises =>
      ∃ results,
        get_target_drugs f plan protein side_effect d = Body results ∧
        NoDup results ∧
        ∀ name, name ∈ results ↔
          ∃ dt x dse se,
            dt ∈ drug_targets d ∧ x ∈ drugs d ∧ dse ∈ drug_side_effects d ∧
            se ∈ side_effects d ∧ target_drug_id dt = stitch_id x ∧
            stitch_id x = drug_id dse ∧ link_se_code dse = se_code se ∧
            protein_id dt = protein ∧ se_name se = side_effect ∧
            normalize (stitch_id x) = stitch_id x ∧
            name = trim_both_quote (common_name x)
  end.
Proof.
  intros [Hl Ht].
  assert (∃ results,
    Body (distinct plan
            ((λ r : DrugTarget * Drug * DrugSideEffect * SideEffect,
                trim_both_quote (common_name r.1.1.2)) <$>
               filter (λ r, protein_id r.1.1.1 = protein ∧
                            se_name r.2 = side_effect)
                      (target_join d))) = Body results ∧
    NoDup results ∧
    ∀ name, name ∈ results ↔
      ∃ dt x dse se,
        dt ∈ drug_targets d ∧ x ∈ drugs d ∧ dse ∈ drug_side_effects d ∧
        se ∈ side_effects d ∧ target_drug_id dt = stitch_id x ∧
        stitch_id x = drug_id dse ∧ link_se_code dse = se_code se ∧
        protein_id dt = protein ∧ se_name se = side_effect ∧
        normalize (stitch_id x) = stitch_id x ∧
        name = trim_both_quote (common_name x)) as Hres.
  { eexists. split_and!; [done|apply NoDup_distinct|].
    intros name. rewrite elem_of_distinct, list_elem_of_fmap. split.
    - intros ([[[dt x] dse] se] & -> & Hin).
      apply list_elem_of_filter in Hin as [[Hp Hse] Hin]. simpl in Hp, Hse.
      apply elem_of_target_join in Hin
        as (Hdt & Hx & Hd & Hs & E1 & E2 & E3).
      exists dt, x, dse, se. split_and!; try done.
      destruct (Ht dt Hdt) as (y & _ & Hy).
      rewrite <- E1, Hy. apply JoinFacts.normalize_fixed_on_image.
    - intros (dt & x & dse & se & Hdt & Hx & Hd & Hs & E1 & E2 & E3
              & Hp & Hse & _ & ->).
      exists (dt, x, dse, se). split; [done|].
      apply list_elem_of_filter. split; [done|].
      by apply elem_of_target_join. }
  rewrite target_drugs_run.
  destruct (has_nul protein || has_nul side_effect); [done|by destruct f].
Qed.

Lemma target_drugs_lookup_witness :
  get_target_drugs NoFault reverse_order "P100" "Headache"
    (db (main scenario_world (start empty_db)).2) = Body ["AspirinX"].
Proof.
  pose proof (target_drugs_lookup NoFault reverse_order "P100" "Headache"
                (db (main scenario_world (start empty_db)).2)) as H.
  cbn [has_nul Ascii.eqb Bool.eqb orb] in H.
  destruct H as (results & Hrun & _).
  - vm_compute. split; intros l Hin.
    + apply elem_of_cons in Hin as [->|Hin];
        [by exists (mkDrug "CID001" "AspirinX"); split; [left|]|].
      apply elem_of_cons in Hin as [->|Hin];
        [by exists (mkDrug "CID002" "Bcillin"); split; [right; left|]|].
      apply elem_of_cons in Hin as [->|Hin];
        [by exists (mkDrug "CID001" "AspirinX"); split; [left|]|].
      apply elem_of_cons in Hin as [->|Hin];
        [by exists (mkDrug "CID002" "Bcillin"); split; [right; left|]|].
      by apply elem_of_nil in Hin.
    + apply elem_of_cons in Hin as [->|Hin];
        [by exists (mkDrug "CID001" "AspirinX"); split; [left|]|].
      by apply elem_of_nil in Hin.
  - rewrite Hrun. f_equal. by vm_compute in Hrun; injection Hrun as <-.
Defined.

#[local] Instance more_drugs_trans : Transitive more_drugs.
Proof. intros a b c. unfold more_drugs. lia. Qed.

#[local] Instance more_drugs_total : Total more_drugs.
Proof. intros a b. unfold more_drugs. lia. Qed.

(** X20. The correlation table. When the view is there and the query
    works, the reply holds the first twenty-five rows of the view by
    falling drug count, all rows when the view has fewer: the rows are in
    order, and no row left out has a higher count than a row returned.
    Without the view, or when the query raises, the request ends in a
    500. *)
Theorem top_correlations_are_the_largest f mv :
  match mv, f with
  | Some view, NoFault | Some view, CommitRaises =>
      ∃ results rest,
        get_top_correlations f mv = Body results ∧
        length results = min 25 (length view) ∧
        StronglySorted more_drugs results ∧
        view ≡ₚ results ++ rest ∧
        ∀ r r', r ∈ results → r' ∈ rest → drug_count r' ≤ drug_count r
  | _, _ =>
      get_top_correlations f mv
      = Failed 500 "Materialized view missing or unrefreshed."
  end.
Proof.
  destruct mv as [view|]; [|by destruct f].
  pose proof (StronglySorted_merge_sort more_drugs view) as Hsorted.
  pose proof (merge_sort_Permutation more_drugs view) as Hperm.
  rewrite <- (take_drop 25 (merge_sort more_drugs view)) in Hsorted, Hperm.
  assert (get_top_correlations NoFault (Some view)
          = Body (take 25 (merge_sort more_drugs view))) as Hrun.
  { unfold get_top_correlations, execute_select. cbn [existsb].
    by destruct (take 25 (merge_sort more_drugs view)). }
  assert (length (take 25 (merge_sort more_drugs view))
          = min 25 (length view)) as Hlen.
  { rewrite length_take. f_equal.
    apply Permutation_length, merge_sort_Permutation. }
  destruct f; [|done|];
    exists (take 25 (merge_sort more_drugs view)),
           (drop 25 (merge_sort more_drugs view));
    (split_and!; [exact Hrun|exact Hlen
                 |by eapply StronglySorted_app_1_l|done|]);
    intros r r' Hr Hr';
    apply (StronglySorted_app_1_elem_of _ _ _ _ _ Hsorted Hr Hr').
Qed.

(** X21. A blank name is no filter. A report whose drug name is empty is
    accepted and logged as soon as the catalog holds any drug, and refused
    with 404 only on an empty catalog; a direct lookup whose name is empty
    or whitespace returns side-effect names of the whole join: fifteen of
    its distinct names, or all of them when there are fewer, which ones
    being the choice of the database. *)
Theorem blank_name_matches_every_drug plan name reported_symptom d :
  all_chars isspace name = true →
  report_side_effect NoFault (mkReport "" reported_symptom) d =
    match drugs d with
    | [] => (HTTPException 404 "Medication '' not found.", d)
    | _ :: _ =>
        (Success "success" "Report saved successfully.",
         append_user_logs [report_row (mkReport "" reported_symptom)] d)
    end ∧
  ∃ results,
    get_drug_effects NoFault plan name d = Body results ∧
    NoDup results ∧
    length results =
      min 15 (length (drop_dups id ((λ r, se_name r.1.1) <$> effects_join d))) ∧
    ∀ effect, effect ∈ results →
      ∃ se dse x,
        se ∈ side_effects d ∧ dse ∈ drug_side_effects d ∧ x ∈ drugs d ∧
        se_code se = link_se_code dse ∧ drug_id dse = stitch_id x ∧
        effect = se_name se.
Proof.
  intros Hblank. split.
  - unfold report_side_effect, select_drug. simpl has_nul. cbv iota.
    simpl like_tokens. cbv iota.
    rewrite filter_all.
    + by destruct (drugs d).
    + intros x _. apply like_match_any_any.
  - eexists. split_and!.
    + unfold get_drug_effects. rewrite (strip_blank _ Hblank).
      cbv zeta. simpl like_tokens. cbv iota.
      unfold execute_select. simpl existsb. cbv iota.
      rewrite filter_all; [done|]. intros r _. apply like_match_any_any.
    + apply distinct_limit_NoDup.
    + apply distinct_limit_length.
    + intros effect Hin%distinct_limit_sound.
      apply list_elem_of_fmap in Hin as ([[se dse] x] & -> & Hin).
      apply elem_of_effects_join in Hin as (Hs & Hd & Hx & E1 & E2).
      by exists se, dse, x.
Qed.

Lemma blank_name_matches_every_drug_witness :
  report_side_effect NoFault (mkReport "" "rash") after_phase_2_db =
    (Success "success" "Report saved successfully.",
     append_user_logs [report_row (mkReport "" "rash")] after_phase_2_db) ∧
  get_drug_effects NoFault reverse_order " " after_phase_2_db
    = Body ["Nausea"; "Headache"].
Proof.
  destruct (blank_name_matches_every_drug reverse_order " " "rash"
              after_phase_2_db eq_refl)
    as [-> (results & Hrun & _)].
  split; [reflexivity|]. rewrite Hrun. f_equal.
  by vm_compute in Hrun; injection Hrun as <-.
Defined.

End LookupFacts.

(** ** The drug count after a pipeline run *)

Module HealthFacts.
Import PyStr Py Frame Store Etl ImportData Integrity Api Lookup Scenarios.
Import FrameFacts EtlFacts Phase1Facts IntegrityFacts.
Local Open Scope list_scope.
Local Open Scope nat_scope.
#[local] Opaque to_sql.

Lemma drugs_kept_bind {A B} (m : M A) (k : A → M B) env :
  drugs (db (m env).2) = drugs (db env) →
  (∀ a e, drugs (db (k a e).2) = drugs (db e)) →
  drugs (db ((m ≫= k) env).2) = drugs (db env).
Proof.
  intros Hm Hk. rewrite bind_run.
  destruct (m env) as [[a|e] env1]; simpl in *; [|done].
  by rewrite Hk.
Qed.

(** Phases 2, 3 and 4 leave [drugs] alone, however they end. *)
Lemma later_phases_keep_drugs w env :
  drugs (db ((import_phase_2_mono w ;; import_phase_3_combo w ;;
              import_phase_4_targets w) env).2) = drugs (db env).
Proof.
  apply drugs_kept_bind; [apply phase_2_links_known|]. intros _ e2.
  apply drugs_kept_bind; [apply phase_3_links_known|]. intros _ e3.
  apply phase_4_links_known.
Qed.

(** X22. After a pipeline run that started with an empty [drugs] table and
    could read the names feed, the health check reports the number of
    distinct identifiers of the feed, at most the number of its rows,
    whether or not a later phase raised; when its query raises it answers
    500 with the text of the error. *)
Theorem health_check_counts_the_feed f error_text w env feed :
  drugs (db env) = [] →
  read_names w names_url = Ok feed →
  health_check f error_text (db (main w env).2) =
    match f with
    | ExecuteRaises => Failed 500 error_text
    | NoFault | CommitRaises => Body (length (drop_dups fst feed))
    end ∧
  length (drop_dups fst feed) ≤ length feed.
Proof.
  intros Hempty Hfeed.
  assert (drugs (db (main w env).2) = drug_of <$> drop_dups fst feed) as Hd.
  { unfold main. rewrite bind_run, (phase_1_run w env feed) by done.
    cbn [fst snd]. rewrite later_phases_keep_drugs. simpl.
    by rewrite Hempty. }
  split.
  - unfold health_check. rewrite Hd, length_fmap. by destruct f.
  - apply sublist_length, drop_dups_sublist.
Qed.

Lemma health_check_counts_the_feed_witness :
  health_check NoFault "connection refused"
    (db (main combo_down_world (start empty_db)).2) = Body 2.
Proof.
  by destruct (health_check_counts_the_feed NoFault "connection refused"
                 combo_down_world (start empty_db) scenario_1_feed
                 eq_refl eq_refl) as [-> _].
Defined.

End HealthFacts.
